(** * Titanic EDA tool ([app.js]): merge, type inference and descriptive statistics

    A shallow embedding of the data-processing core of [app.js].  The file
    holds two variants of the application one after the other: the earlier one
    (globals [mergedData], [CONFIG]; module [Legacy] below) and the later one
    built around the global object [titanicData] (top level below).  The
    JavaScript run-time facts the code relies on (values, property order of
    plain objects and the properties they inherit, stable
    [Array.prototype.sort], IEEE-754 binary64 numbers and their decimal
    formatting) are collected in module [Js].  A JavaScript string is held as
    the UTF-8 encoding of its text. *)

From Stdlib Require Import List String Ascii Bool Arith ZArith QArith Qround Lia.
From Stdlib Require Import Permutation Sorted DecimalString Floats.
Import ListNotations.

Set Warnings "-inexact-float".

Close Scope Q_scope.
Close Scope float_scope.
Open Scope nat_scope.
Open Scope string_scope.
Open Scope list_scope.

(* ====================================================================== *)
(** * Part I: definitions                                                  *)
(* ====================================================================== *)

Module Js.

(** ** Numbers

    A JavaScript Number is an IEEE-754 binary64 value: Rocq's primitive
    [float].  Arithmetic is the primitive arithmetic; the decimal conversions
    below work on the exact rational value of a float. *)

Definition Number_of_Z (z : Z) : float :=
  SF2Prim (binary_normalize prec emax z 0 false).

Definition Number_of_nat (n : nat) : float := Number_of_Z (Z.of_nat n).

(** [isNaN] on a Number. *)
Definition isNaN (x : float) : bool :=
  match classify x with NaN => true | _ => false end.


Definition is_neg_zero (x : float) : bool :=
  match classify x with NZero => true | _ => false end.

Definition is_pos_zero (x : float) : bool :=
  match classify x with PZero => true | _ => false end.

(** [x > 0], the test [Array.prototype.sort] applies to a comparator's result
    (a NaN result counts as 0). *)
Definition positive_result (x : float) : bool := PrimFloat.ltb 0%float x.

(** [Math.pow(x, 2)], taken as the correctly rounded square. *)
Definition Math_pow2 (x : float) : float := PrimFloat.mul x x.

(** [Math.min(...xs)] and [Math.max(...xs)]: NaN is contagious and -0 is
    below +0.  The spread hands every element over as an argument; an engine
    raises a [RangeError] when there are more of them than its call stack
    takes (beyond a hundred thousand in current engines), which is not
    modelled. *)
Definition Math_min (xs : list float) : float :=
  fold_left
    (fun lowest x =>
       if isNaN lowest || isNaN x then PrimFloat.nan
       else if is_neg_zero x && is_pos_zero lowest then x
       else if PrimFloat.ltb x lowest then x else lowest)
    xs PrimFloat.infinity.

Definition Math_max (xs : list float) : float :=
  fold_left
    (fun highest x =>
       if isNaN highest || isNaN x then PrimFloat.nan
       else if is_pos_zero x && is_neg_zero highest then x
       else if PrimFloat.ltb highest x then x else highest)
    xs PrimFloat.neg_infinity.

(** *** Exact decimal conversions *)

Definition digits_of_Z (z : Z) : string :=
  NilZero.string_of_uint (N.to_uint (Z.to_N z)).

Fixpoint zeros (n : nat) : string :=
  match n with O => "" | S n' => String "0" (zeros n') end.

Definition pow10 (z : Z) : Q := Qpower (10 # 1) z.

Definition Qlt_bool (a b : Q) : bool := negb (Qle_bool b a).

(** The exact value of the finite float with mantissa [m] and exponent [e]. *)
Definition Q_of_finite (m : positive) (e : Z) : Q :=
  Qmult (inject_Z (Zpos m)) (Qpower (2 # 1) e).

(** [decimal_exponent v] is the [n] with [10^(n-1) <= v < 10^n], for [v > 0]. *)
Fixpoint first_scale (fuel : nat) (j : Z) (v : Q) : Z :=
  match fuel with
  | O => j
  | S fuel' =>
      if Qle_bool (1 # 1) (Qmult v (pow10 j)) then j
      else first_scale fuel' (j + 1)%Z v
  end.

Definition decimal_exponent (v : Q) : Z :=
  if Qle_bool (1 # 1) v
  then Z.of_nat (String.length (digits_of_Z (Qfloor v)))
  else (1 - first_scale 400 1 v)%Z.

(** The reals that round to the float [(m, e)] form an interval around it;
    its end points belong to it exactly when [m] is even. *)
Definition round_interval (m : positive) (e : Z) : Q * Q :=
  let v := Q_of_finite m e in
  let up := Qpower (2 # 1) (e - 1) in
  let down :=
    if Pos.eqb m (Pos.pow 2 52) && Z.ltb (-1074) e
    then Qpower (2 # 1) (e - 2) else up in
  (Qminus v down, Qplus v up).

Definition rounds_to (m : positive) (e : Z) (w : Q) : bool :=
  let '(lo, hi) := round_interval m e in
  (Qlt_bool lo w && Qlt_bool w hi)
  || (Z.even (Zpos m) && (Qeq_bool w lo || Qeq_bool w hi)).

(** Shortest decimal representation: the least [k] and the [k]-digit [s] with
    [s * 10^(n-k)] rounding to the float, the closest such [s] when there are
    several (the even one on a tie).  Returns [(s, n)]. *)
Fixpoint shortest_digits (fuel : nat) (k : Z) (m : positive) (e : Z) (n : Z)
  : Z * Z :=
  let v := Q_of_finite m e in
  let u := pow10 (n - k) in
  let s1 := Qfloor (Qdiv v u) in
  let s2 := (s1 + 1)%Z in
  let v1 := Qmult (inject_Z s1) u in
  let v2 := Qmult (inject_Z s2) u in
  let ok1 := rounds_to m e v1 in
  let ok2 := rounds_to m e v2 in
  let d1 := Qminus v v1 in
  let d2 := Qminus v2 v in
  let pick :=
    if ok1 && ok2 then
      if Qlt_bool d1 d2 then Some s1
      else if Qlt_bool d2 d1 then Some s2
      else if Z.even s1 then Some s1 else Some s2
    else if ok1 then Some s1
    else if ok2 then Some s2
    else None in
  match pick, fuel with
  | Some s, _ =>
      if Z.eqb s (Z.pow 10 k) then (Z.pow 10 (k - 1), n + 1)%Z else (s, n)
  | None, O => (s1, n)
  | None, S fuel' => shortest_digits fuel' (k + 1) m e n
  end.

Fixpoint strip_zeros (fuel : nat) (s : Z) : Z :=
  match fuel with
  | O => s
  | S fuel' =>
      if Z.eqb s 0 then s
      else if Z.eqb (Z.modulo s 10) 0 then strip_zeros fuel' (Z.div s 10) else s
  end.

Definition exponent_part (n : Z) : string :=
  let e := (n - 1)%Z in
  "e" ++ (if Z.ltb e 0 then "-" else "+") ++ digits_of_Z (Z.abs e).

(** Steps 6-10 of Number::toString for the digits [ds] ([k] of them) and the
    decimal exponent [n]. *)
Definition layout_digits (ds : string) (n : Z) : string :=
  let k := Z.of_nat (String.length ds) in
  if Z.leb k n && Z.leb n 21 then ds ++ zeros (Z.to_nat (n - k))
  else if Z.ltb 0 n && Z.leb n 21 then
    substring 0 (Z.to_nat n) ds ++ "." ++
    substring (Z.to_nat n) (Z.to_nat (k - n)) ds
  else if Z.ltb (-6) n && Z.leb n 0 then
    "0." ++ zeros (Z.to_nat (- n)) ++ ds
  else if Z.eqb k 1 then ds ++ exponent_part n
  else substring 0 1 ds ++ "." ++ substring 1 (Z.to_nat (k - 1)) ds
       ++ exponent_part n.

(** [Number::toString(x)] in radix 10, also [String(x)] for a Number. *)
Definition Number_toString (x : float) : string :=
  match Prim2SF x with
  | S754_nan => "NaN"
  | S754_zero _ => "0"
  | S754_infinity s => if s then "-Infinity" else "Infinity"
  | S754_finite s m e =>
      let n0 := decimal_exponent (Q_of_finite m e) in
      let '(s0, n) := shortest_digits 20 1 m e n0 in
      let ds := digits_of_Z (strip_zeros 400 s0) in
      (if s then "-" else "") ++ layout_digits ds n
  end.

(** [x.toFixed(f)]: the integer [n] with [n / 10^f] closest to [x] (the
    larger one on a tie), printed with [f] decimals; values of magnitude
    [10^21] and above and non-finite values print as [Number::toString]. *)
Definition toFixed (x : float) (f : nat) : string :=
  match Prim2SF x with
  | S754_nan | S754_infinity _ => Number_toString x
  | S754_zero _ => if Nat.eqb f 0 then "0" else "0." ++ zeros f
  | S754_finite s m e =>
      let v := Q_of_finite m e in
      let sign := if s then "-" else "" in
      if Qle_bool (pow10 21) v then sign ++ Number_toString (PrimFloat.abs x)
      else
        let n := Qfloor (Qplus (Qmult v (pow10 (Z.of_nat f))) (1 # 2)) in
        let ds := digits_of_Z n in
        let k := String.length ds in
        let ds' := if Nat.leb k f then (zeros (f + 1 - k) ++ ds)%string else ds in
        let k' := String.length ds' in
        (sign ++
         (if Nat.eqb f 0 then ds'
          else substring 0 (k' - f) ds' ++ "." ++ substring (k' - f) f ds'))%string
  end.


(** [Number(s)] for a string ([StringToNumber]): optional white space, then
    a signed decimal literal, [Infinity], or a hexadecimal, octal or binary
    integer literal, then optional white space; the empty string is 0 and
    anything else is NaN.  The decimal value is rounded to the nearest float
    (ties to even). *)
Definition is_digit (c : ascii) : bool :=
  let n := nat_of_ascii c in Nat.leb 48 n && Nat.leb n 57.

Definition digit_value (c : ascii) : Z := Z.of_nat (nat_of_ascii c - 48).

(** White space and line terminators ([StrWhiteSpaceChar]), by their UTF-8
    bytes.  One byte: TAB, LF, VT, FF, CR and the space. *)
Definition is_blank (c : ascii) : bool :=
  let n := nat_of_ascii c in
  Nat.eqb n 32 || (Nat.leb 9 n && Nat.leb n 13).

(** Two bytes: the no-break space U+00A0. *)
Definition is_blank2 (c1 c2 : ascii) : bool :=
  Nat.eqb (nat_of_ascii c1) 194 && Nat.eqb (nat_of_ascii c2) 160.

(** Three bytes: U+1680, U+2000 to U+200A, the line and paragraph separators
    U+2028 and U+2029, U+202F, U+205F, U+3000 and the byte order mark
    U+FEFF. *)
Definition is_blank3 (c1 c2 c3 : ascii) : bool :=
  let n1 := nat_of_ascii c1 in
  let n2 := nat_of_ascii c2 in
  let n3 := nat_of_ascii c3 in
  (Nat.eqb n1 225 && Nat.eqb n2 154 && Nat.eqb n3 128)
  || (Nat.eqb n1 226 && Nat.eqb n2 128
      && ((Nat.leb 128 n3 && Nat.leb n3 138)
          || Nat.eqb n3 168 || Nat.eqb n3 169 || Nat.eqb n3 175))
  || (Nat.eqb n1 226 && Nat.eqb n2 129 && Nat.eqb n3 159)
  || (Nat.eqb n1 227 && Nat.eqb n2 128 && Nat.eqb n3 128)
  || (Nat.eqb n1 239 && Nat.eqb n2 187 && Nat.eqb n3 191).

(** The string without the white space it starts with. *)
Fixpoint skip_blanks (s : string) : string :=
  match s with
  | String c1 s1 =>
      if is_blank c1 then skip_blanks s1
      else
        match s1 with
        | String c2 s2 =>
            if is_blank2 c1 c2 then skip_blanks s2
            else
              match s2 with
              | String c3 s3 =>
                  if is_blank3 c1 c2 c3 then skip_blanks s3 else s
              | EmptyString => s
              end
        | EmptyString => s
        end
  | EmptyString => s
  end.

(** The string without the white space it ends with: it is cut where only
    white space follows. *)
Fixpoint skip_blanks_end (s : string) : string :=
  match s with
  | String c s' =>
      match skip_blanks s with
      | EmptyString => EmptyString
      | String _ _ => String c (skip_blanks_end s')
      end
  | EmptyString => s
  end.

Definition trim (s : string) : string := skip_blanks_end (skip_blanks s).

(** Reads a run of decimal digits: its value, its length and the rest. *)
Fixpoint read_digits (s : string) (acc : Z) (cnt : nat) : Z * nat * string :=
  match s with
  | String c s' =>
      if is_digit c then read_digits s' (acc * 10 + digit_value c)%Z (S cnt)
      else (acc, cnt, s)
  | EmptyString => (acc, cnt, s)
  end.

Definition read_exponent (s : string) : option Z :=
  match s with
  | EmptyString => Some 0%Z
  | String c s' =>
      if Ascii.eqb c "e" || Ascii.eqb c "E" then
        let '(neg, s'') :=
          match s' with
          | String "-" t => (true, t)
          | String "+" t => (false, t)
          | _ => (false, s')
          end in
        match read_digits s'' 0 0 with
        | (v, S _, EmptyString) => Some (if neg then (- v)%Z else v)
        | _ => None
        end
      else None
  end.

(** A decimal literal as [(mantissa, power of ten)]. *)
Definition read_decimal (s : string) : option (Z * Z) :=
  let '(ip, ni, r1) := read_digits s 0 0 in
  let '(fp, nf, r2) :=
    match r1 with
    | String "." t => read_digits t ip 0
    | _ => (ip, 0, r1)
    end in
  if Nat.eqb (ni + nf) 0 then None
  else match read_exponent r2 with
       | Some e => Some (fp, (e - Z.of_nat nf)%Z)
       | None => None
       end.

Definition round_decimal (neg : bool) (m e10 : Z) : float :=
  if Z.eqb m 0 then (if neg then PrimFloat.neg_zero else PrimFloat.zero)
  else if Z.leb 0 e10 then
    SF2Prim (binary_normalize prec emax
               ((if neg then (- m) else m) * Z.pow 10 e10)%Z 0 false)
  else
    let '(q, e', l) := SFdiv_core_binary prec emax m 0 (Z.pow 10 (- e10)) 0 in
    SF2Prim (binary_round_aux prec emax neg q e' l).

Definition radix_digit (radix : Z) (c : ascii) : option Z :=
  let n := nat_of_ascii c in
  let v :=
    if Nat.leb 48 n && Nat.leb n 57 then Some (Z.of_nat (n - 48))
    else if Nat.leb 97 n && Nat.leb n 102 then Some (Z.of_nat (n - 87))
    else if Nat.leb 65 n && Nat.leb n 70 then Some (Z.of_nat (n - 55))
    else None in
  match v with
  | Some d => if Z.ltb d radix then Some d else None
  | None => None
  end.

Fixpoint read_radix (radix : Z) (s : string) (acc : Z) (cnt : nat) : option Z :=
  match s with
  | EmptyString => match cnt with O => None | S _ => Some acc end
  | String c s' =>
      match radix_digit radix c with
      | Some d => read_radix radix s' (acc * radix + d)%Z (S cnt)
      | None => None
      end
  end.

Definition StringToNumber (s : string) : float :=
  let t := trim s in
  let radix_literal (radix : Z) (body : string) : float :=
    match read_radix radix body 0 0 with
    | Some z => Number_of_Z z
    | None => PrimFloat.nan
    end in
  match t with
  | EmptyString => PrimFloat.zero
  | String "0" (String "x" b) | String "0" (String "X" b) => radix_literal 16%Z b
  | String "0" (String "o" b) | String "0" (String "O" b) => radix_literal 8%Z b
  | String "0" (String "b" b) | String "0" (String "B" b) => radix_literal 2%Z b
  | _ =>
      let '(neg, body) :=
        match t with
        | String "-" b => (true, b)
        | String "+" b => (false, b)
        | _ => (false, t)
        end in
      if String.eqb body "Infinity"
      then (if neg then PrimFloat.neg_infinity else PrimFloat.infinity)
      else match read_decimal body with
           | Some (m, e10) => round_decimal neg m e10
           | None => PrimFloat.nan
           end
  end.

(** ** Values

    The values a parsed CSV field can hold with dynamic typing, and
    [undefined] for a field a record does not have.  ([Date] objects, which
    the parser makes of ISO date strings, are left out.) *)

Inductive JsValue : Type :=
| JUndefined
| JNull
| JBool (b : bool)
| JNum (x : float)
| JStr (s : string).

(** [typeof v === 'number'] *)
Definition is_number (v : JsValue) : bool :=
  match v with JNum _ => true | _ => false end.

(** [v === undefined], [v === null], [v === ''], [v === x] for a number
    literal [x] and [v === s] for a string literal [s]. *)
Definition is_undefined (v : JsValue) : bool :=
  match v with JUndefined => true | _ => false end.

Definition is_null (v : JsValue) : bool :=
  match v with JNull => true | _ => false end.

Definition strict_eq_num (v : JsValue) (x : float) : bool :=
  match v with JNum y => PrimFloat.eqb y x | _ => false end.

Definition strict_eq_str (v : JsValue) (s : string) : bool :=
  match v with JStr t => String.eqb t s | _ => false end.

Definition is_empty_string (v : JsValue) : bool := strict_eq_str v "".

(** [String(v)] *)
Definition String_of (v : JsValue) : string :=
  match v with
  | JUndefined => "undefined"
  | JNull => "null"
  | JBool b => if b then "true" else "false"
  | JNum x => Number_toString x
  | JStr s => s
  end.

(** [Number(v)] ([ToNumber]) *)
Definition ToNumber (v : JsValue) : float :=
  match v with
  | JUndefined => PrimFloat.nan
  | JNull => PrimFloat.zero
  | JBool b => if b then PrimFloat.one else PrimFloat.zero
  | JNum x => x
  | JStr s => StringToNumber s
  end.

(** [a + b]: concatenation when either operand is a string, numeric
    addition otherwise. *)
Definition js_add (a b : JsValue) : JsValue :=
  match a, b with
  | JStr _, _ | _, JStr _ => JStr (String_of a ++ String_of b)
  | _, _ => JNum (PrimFloat.add (ToNumber a) (ToNumber b))
  end.

(** The comparator [(a, b) => a - b] on arbitrary values. *)
Definition ascending_values (a b : JsValue) : bool :=
  positive_result (PrimFloat.sub (ToNumber a) (ToNumber b)).

(** ** Plain objects

    A plain object is its list of own properties in creation order.
    [obj_get] finds the own property for a key and [obj_set] replaces its
    value in place or appends a new own property. *)

Definition JsObject (V : Type) : Type := list (string * V).

Fixpoint obj_get {V : Type} (o : JsObject V) (k : string) : option V :=
  match o with
  | [] => None
  | (k', v) :: o' => if String.eqb k' k then Some v else obj_get o' k
  end.

Fixpoint obj_set {V : Type} (o : JsObject V) (k : string) (v : V) : JsObject V :=
  match o with
  | [] => [(k, v)]
  | (k', v') :: o' =>
      if String.eqb k' k then (k', v) :: o' else (k', v') :: obj_set o' k v
  end.

(** *** Properties inherited from [Object.prototype]

    An object made by [{}] has no property of its own, but reading [o[key]]
    goes on to [Object.prototype], which holds eleven functions and the
    accessor [__proto__].  All of these values are objects: they count as
    true, and they print through their [toString]. *)

Inductive Inherited : Type :=
| BuiltIn (name : string)
| Prototype.

(** [Object.prototype[key]]: a built-in function under its [name]
    ([constructor] is the function [Object]), or, for [__proto__], the
    prototype of the object read, [Object.prototype] itself. *)
Definition Object_prototype (key : string) : option Inherited :=
  if String.eqb key "__proto__" then Some Prototype
  else if String.eqb key "constructor" then Some (BuiltIn "Object")
  else if existsb (String.eqb key)
            ["hasOwnProperty"; "isPrototypeOf"; "propertyIsEnumerable";
             "toLocaleString"; "toString"; "valueOf"; "__defineGetter__";
             "__defineSetter__"; "__lookupGetter__"; "__lookupSetter__"]
       then Some (BuiltIn key)
  else None.

(** [String(v)] of an inherited value.  The text of a built-in function is
    the engine's own; this is the one of V8 and JavaScriptCore (SpiderMonkey
    prints the same words over three lines). *)
Definition String_of_inherited (v : Inherited) : string :=
  match v with
  | BuiltIn name => "function " ++ name ++ "() { [native code] }"
  | Prototype => "[object Object]"
  end.

(** [o[key]] on a plain object: its own property, else the inherited one. *)
Inductive Looked (V : Type) : Type :=
| Own (v : V)
| Inherits (i : Inherited)
| Missing.

Arguments Own {V} v.
Arguments Inherits {V} i.
Arguments Missing {V}.

Definition obj_read {V : Type} (o : JsObject V) (k : string) : Looked V :=
  match obj_get o k with
  | Some v => Own v
  | None =>
      match Object_prototype k with
      | Some i => Inherits i
      | None => Missing
      end
  end.

(** A property key is an array index when it is the canonical decimal form
    of an integer below [2^32 - 1]. *)
Fixpoint all_digits (s : string) : bool :=
  match s with
  | EmptyString => true
  | String c s' => is_digit c && all_digits s'
  end.

Definition array_index (k : string) : option N :=
  match k with
  | EmptyString => None
  | String c rest =>
      if all_digits k && (negb (Ascii.eqb c "0") || String.eqb rest "") then
        let '(v, _, _) := read_digits k 0 0 in
        if Z.ltb v (2 ^ 32 - 1) then Some (Z.to_N v) else None
      else None
  end.

Definition is_array_index (k : string) : bool :=
  match array_index k with Some _ => true | None => false end.

Fixpoint insert_index (n : N) (k : string) (l : list (N * string))
  : list (N * string) :=
  match l with
  | [] => [(n, k)]
  | (n', k') :: l' =>
      if N.leb n n' then (n, k) :: l else (n', k') :: insert_index n k l'
  end.

Fixpoint index_keys (ks : list string) : list (N * string) :=
  match ks with
  | [] => []
  | k :: ks' =>
      match array_index k with
      | Some n => insert_index n k (index_keys ks')
      | None => index_keys ks'
      end
  end.

(** [Object.keys(o)]: the array-index keys in ascending numeric order, then
    the other keys in creation order. *)
Definition Object_keys {V : Type} (o : JsObject V) : list string :=
  let ks := map fst o in
  map snd (index_keys ks) ++ filter (fun k => negb (is_array_index k)) ks.

(** [Object.entries(o)] *)
Definition Object_entries {V : Type} (o : JsObject V) : list (string * V) :=
  flat_map
    (fun k => match obj_get o k with Some v => [(k, v)] | None => [] end)
    (Object_keys o).

(** The object literal [{...o, k: v}]: the own properties of [o] are defined
    on a fresh object in [Object.keys] order, then [k] is set. *)
Definition obj_of_entries {V : Type} (es : list (string * V)) : JsObject V :=
  fold_left (fun o kv => obj_set o (fst kv) (snd kv)) es [].

Definition spread_with {V : Type} (o : JsObject V) (k : string) (v : V)
  : JsObject V :=
  obj_set (obj_of_entries (Object_entries o)) k v.

(** ** [Array.prototype.sort] with a comparator

    The sort is stable.  [gt a b] says that the comparator's result on
    [(a, b)] is positive; an element moves behind exactly the elements it is
    greater than, so elements the comparator does not separate keep their
    order.  This fixes the result for a consistent comparator; for one that
    is not (a NaN difference against some elements only) the order is the
    engine's choice, and the model gives that of an insertion sort. *)
Section ArraySort.
Context {A : Type} (gt : A -> A -> bool).

Fixpoint sort_insert (x : A) (l : list A) : list A :=
  match l with
  | [] => [x]
  | y :: l' => if gt x y then y :: sort_insert x l' else x :: l
  end.

Fixpoint Array_sort (l : list A) : list A :=
  match l with
  | [] => []
  | x :: l' => sort_insert x (Array_sort l')
  end.
End ArraySort.

(** The comparator [(a, b) => a - b] on Numbers. *)
Definition ascending (a b : float) : bool :=
  positive_result (PrimFloat.sub a b).

(** ** Further run-time functions *)

(** The exponent part of the longest decimal prefix of [s]: it counts only
    when at least one digit follows the [e]. *)
Definition read_exponent_prefix (s : string) : Z :=
  match s with
  | EmptyString => 0%Z
  | String c s' =>
      if Ascii.eqb c "e" || Ascii.eqb c "E" then
        let '(neg, s'') :=
          match s' with
          | String "-" t => (true, t)
          | String "+" t => (false, t)
          | _ => (false, s')
          end in
        match read_digits s'' 0 0 with
        | (v, S _, _) => if neg then (- v)%Z else v
        | _ => 0%Z
        end
      else 0%Z
  end.

(** [parseFloat(s)]: leading white space is skipped and the longest prefix
    that is a signed decimal literal or [Infinity] is converted; what follows
    it is ignored, and without such a prefix the result is NaN. *)
Definition parseFloat (s : string) : float :=
  let t := skip_blanks s in
  let '(neg, body) :=
    match t with
    | String "-" b => (true, b)
    | String "+" b => (false, b)
    | _ => (false, t)
    end in
  if String.prefix "Infinity" body
  then (if neg then PrimFloat.neg_infinity else PrimFloat.infinity)
  else
    let '(ip, ni, r1) := read_digits body 0 0 in
    let '(fp, nf, r2) :=
      match r1 with
      | String "." t' => read_digits t' ip 0
      | _ => (ip, 0, r1)
      end in
    if Nat.eqb (ni + nf) 0 then PrimFloat.nan
    else round_decimal neg fp (read_exponent_prefix r2 - Z.of_nat nf)%Z.

(** [a === b] *)
Definition strict_eq (a b : JsValue) : bool :=
  match a, b with
  | JUndefined, JUndefined => true
  | JNull, JNull => true
  | JBool x, JBool y => Bool.eqb x y
  | JNum x, JNum y => PrimFloat.eqb x y
  | JStr s, JStr t => String.eqb s t
  | _, _ => false
  end.

(** SameValueZero, the equality a [Set] goes by: [===], except that NaN
    equals NaN. *)
Definition same_value_zero (a b : JsValue) : bool :=
  match a, b with
  | JNum x, JNum y => PrimFloat.eqb x y || (isNaN x && isNaN y)
  | _, _ => strict_eq a b
  end.

(** [[...new Set(values)]]: the first occurrence of each value, in order; a
    [Set] stores -0 as +0. *)
Definition Set_add (elements : list JsValue) (v : JsValue) : list JsValue :=
  if existsb (same_value_zero v) elements then elements
  else elements ++ [match v with
                    | JNum x => if is_neg_zero x then JNum 0%float else v
                    | _ => v
                    end].

Definition Set_values (values : list JsValue) : list JsValue :=
  fold_left Set_add values [].

(** [array[i]++] on an array of counts (no effect outside the array, where
    JavaScript would store NaN; the code never gets there). *)
Fixpoint increment (i : nat) (counts : list nat) : list nat :=
  match counts, i with
  | [], _ => []
  | c :: counts', O => S c :: counts'
  | c :: counts', S i' => c :: increment i' counts'
  end.

End Js.

Import Js.

(** * The application built around [titanicData] *)

(** A parsed CSV record: column name to value. *)
Definition Row : Type := JsObject JsValue.

(** [row[column]]; a property the row does not have reads as [undefined].
    (A record that lacks a field whose column is named like a property of
    [Object.prototype], say [toString], would read the inherited function
    there; columns of such names are left out, as the values a [JsValue]
    cannot hold.) *)
Definition prop (row : Row) (column : string) : JsValue :=
  match obj_get row column with Some v => v | None => JUndefined end.

Definition FEATURE_COLUMNS : list string :=
  ["Pclass"; "Sex"; "Age"; "SibSp"; "Parch"; "Fare"; "Embarked"].
Definition TARGET_COLUMN : string := "Survived".
Definition EXCLUDED_COLUMNS : list string := ["PassengerId"].

(** [list.includes(k)] *)
Definition includes (l : list string) (k : string) : bool :=
  existsb (String.eqb k) l.

Inductive ColumnType : Type := numeric | categorical.

Definition is_numeric_type (t : option ColumnType) : bool :=
  match t with Some numeric => true | _ => false end.

Record MissingInfo : Type := {
  mv_count : nat;
  mv_percentage : string
}.

Record GroupedMeans : Type := {
  survivedMean : string;
  notSurvivedMean : string;
  difference : string
}.

Record SurvivalRate : Type := {
  sr_value : string;
  sr_survived : nat;
  sr_notSurvived : nat;
  sr_survivalRate : string
}.

Record NumericStats : Type := {
  num_count : nat;
  num_missing : nat;
  num_mean : string;
  num_median : string;
  num_stdDev : string;
  num_min : string;
  num_max : string;
  num_q1 : string;
  num_q3 : string;
  num_groupedBySurvived : option GroupedMeans
}.

(** What a tally holds for a key: a count, or the text that [+ 1] makes of
    an inherited function. *)
Inductive Tallied : Type :=
| Count (n : nat)
| Text (s : string).

Record CategoricalStats : Type := {
  cat_count : nat;
  cat_missing : nat;
  cat_uniqueValues : nat;
  cat_topValues : list (string * Tallied);
  cat_groupedBySurvived : option (list SurvivalRate)
}.

Inductive ColumnStats : Type :=
| NumericSummary (s : NumericStats)
| CategoricalSummary (s : CategoricalStats).

(** The global [titanicData] (its chart handles are left out). *)
Record TitanicData : Type := {
  merged : list Row;
  trainCount : nat;
  testCount : nat;
  columns : list string;
  columnTypes : JsObject ColumnType;
  missingValues : JsObject MissingInfo;
  stats : JsObject ColumnStats
}.

Definition initialData : TitanicData :=
  {| merged := []; trainCount := 0; testCount := 0; columns := [];
     columnTypes := []; missingValues := []; stats := [] |}.

Definition set_columns (st : TitanicData) (cs : list string) : TitanicData :=
  {| merged := merged st; trainCount := trainCount st;
     testCount := testCount st; columns := cs;
     columnTypes := columnTypes st; missingValues := missingValues st;
     stats := stats st |}.

Definition set_columnTypes (st : TitanicData) (ts : JsObject ColumnType)
  : TitanicData :=
  {| merged := merged st; trainCount := trainCount st;
     testCount := testCount st; columns := columns st;
     columnTypes := ts; missingValues := missingValues st;
     stats := stats st |}.

Definition set_missingValues (st : TitanicData) (mv : JsObject MissingInfo)
  : TitanicData :=
  {| merged := merged st; trainCount := trainCount st;
     testCount := testCount st; columns := columns st;
     columnTypes := columnTypes st; missingValues := mv;
     stats := stats st |}.

Definition set_stats (st : TitanicData) (ss : JsObject ColumnStats)
  : TitanicData :=
  {| merged := merged st; trainCount := trainCount st;
     testCount := testCount st; columns := columns st;
     columnTypes := columnTypes st; missingValues := missingValues st;
     stats := ss |}.

Inductive StatusType : Type := success | error.

(** What [showStatus(message, type)] displays. *)
Definition Status : Type := (string * StatusType)%type.

(** ** Loading and merging *)

(** What [parseCSV(file)] settles to: the parsed records, or a rejection. *)
Inductive ParseOutcome : Type :=
| Resolved (data : list Row)
| Rejected (message : string).

(** [rows.map(row => ({...row, source: tag}))] *)
Definition withSource (tag : string) (rows : list Row) : list Row :=
  map (fun row => spread_with row "source" (JStr tag)) rows.

(** The sampling loop of [determineColumnTypes] for one column: the final
    [(isNumeric, numericCount)]. *)
Fixpoint scanSample (column : string) (sample : list Row) (numericCount : nat)
  : bool * nat :=
  match sample with
  | [] => (true, numericCount)
  | row :: sample' =>
      let value := prop row column in
      if is_null value || is_undefined value || is_empty_string value
      then scanSample column sample' numericCount
      else if negb (is_number value) then (false, numericCount)
      else scanSample column sample' (S numericCount)
  end.

Definition columnTypeOf (column : string) (sample : list Row) : ColumnType :=
  if String.eqb column "source" then categorical
  else
    let '(isNumeric, numericCount) := scanSample column sample 0 in
    if isNumeric && Nat.ltb 0 numericCount then numeric else categorical.

Definition determineColumnTypes (st : TitanicData) : TitanicData :=
  match merged st with
  | [] => st
  | _ :: _ =>
      let sampleSize := Nat.min 100 (List.length (merged st)) in
      let sample := firstn sampleSize (merged st) in
      set_columnTypes st
        (fold_left
           (fun types column => obj_set types column (columnTypeOf column sample))
           (columns st) [])
  end.

Definition rows_message (t : string) (n : nat) : string :=
  t ++ digits_of_Z (Z.of_nat n) ++ " rows".

(** [loadAndMergeDatasets]: a file input without a file is [None]; the
    result is the new [titanicData] and the status shown last.  The updates
    of the page (overview, preview, buttons) only read the state and are
    left out. *)
Definition loadAndMergeDatasets (trainFile testFile : option ParseOutcome)
  (st : TitanicData) : TitanicData * Status :=
  match trainFile, testFile with
  | Some train, Some test =>
      match train, test with
      | Resolved trainData, Resolved testData =>
          let trainWithSource := withSource "train" trainData in
          let testWithSource := withSource "test" testData in
          let st1 :=
            {| merged := trainWithSource ++ testWithSource;
               trainCount := List.length trainWithSource;
               testCount := List.length testWithSource;
               columns := columns st;
               columnTypes := columnTypes st;
               missingValues := missingValues st;
               stats := stats st |} in
          let st2 :=
            match merged st1 with
            | [] => st1
            | row0 :: _ =>
                set_columns st1
                  (filter (fun col => negb (String.eqb col "source"))
                     (Object_keys row0) ++ ["source"])
            end in
          let st3 := determineColumnTypes st2 in
          (st3,
           (("Successfully loaded and merged datasets! "
             ++ rows_message "Train: " (trainCount st3) ++ ", "
             ++ rows_message "Test: " (testCount st3) ++ ", "
             ++ rows_message "Total: " (List.length (merged st3)))%string,
            success))
      | Rejected message, _ | Resolved _, Rejected message =>
          (st,
           (("Error loading datasets: CSV parsing failed: " ++ message)%string,
            error))
      end
  | _, _ => (st, ("Please select both train.csv and test.csv files", error))
  end.

(** ** Missing values *)

(** The filter predicate of [calculateMissingValues] and
    [analyzeMissingValues]. *)
Definition isMissing (value : JsValue) : bool :=
  is_null value || is_undefined value || is_empty_string value
  || match value with JNum x => isNaN x | _ => false end.

Definition missingCountOf (rows : list Row) (column : string) : nat :=
  List.length (filter (fun row => isMissing (prop row column)) rows).

Definition missingInfoOf (rows : list Row) (column : string) : MissingInfo :=
  let missingCount := missingCountOf rows column in
  let percentage :=
    PrimFloat.mul
      (PrimFloat.div (Number_of_nat missingCount)
                     (Number_of_nat (List.length rows)))
      100%float in
  {| mv_count := missingCount; mv_percentage := toFixed percentage 2 |}.

Definition calculateMissingValues (st : TitanicData) : TitanicData :=
  set_missingValues st
    (fold_left
       (fun mv column =>
          if includes EXCLUDED_COLUMNS column then mv
          else obj_set mv column (missingInfoOf (merged st) column))
       (columns st) []).

(** ** Statistical summaries *)

(** [val !== null && val !== undefined && val !== ''] *)
Definition present (val : JsValue) : bool :=
  negb (is_null val) && negb (is_undefined val) && negb (is_empty_string val).

(** [merged.map(row => row[column]).filter(present)] *)
Definition columnValues (rows : list Row) (column : string) : list JsValue :=
  filter present (map (fun row => prop row column) rows).

(** [values.filter(v => typeof v === 'number' && !isNaN(v))], as Numbers. *)
Definition numericValuesOf (values : list JsValue) : list float :=
  flat_map
    (fun v => match v with
              | JNum x => if isNaN x then [] else [x]
              | _ => []
              end)
    values.

(** [xs.reduce((a, b) => a + b, 0)] *)
Definition sum (xs : list float) : float :=
  fold_left PrimFloat.add xs 0%float.

(** [xs.reduce((a, b) => a + Math.pow(b - mean, 2), 0)] *)
Definition sumSquaredDeviations (mean : float) (xs : list float) : float :=
  fold_left (fun a b => PrimFloat.add a (Math_pow2 (PrimFloat.sub b mean)))
    xs 0%float.

(** [merged.filter(row => row.source === 'train')] *)
Definition trainRows (rows : list Row) : list Row :=
  filter (fun row => strict_eq_str (prop row "source") "train") rows.

(** [merged[0][TARGET_COLUMN] !== undefined], for a non-empty [merged]. *)
Definition targetAvailable (row0 : Row) : bool :=
  negb (is_undefined (prop row0 TARGET_COLUMN)).

(** The [{value, survived}] pairs of the train rows whose column value and
    label are both Numbers. *)
Definition survivedValues (trainData : list Row) (column : string)
  : list (float * float) :=
  flat_map
    (fun row => match prop row column, prop row TARGET_COLUMN with
                | JNum value, JNum survived => [(value, survived)]
                | _, _ => []
                end)
    trainData.

(** The mean of the values whose label [=== label]; an empty selection
    divides by [Math.max(1, 0)]. *)
Definition meanWhere (label : float) (vs : list (float * float)) : float :=
  let selected := filter (fun v => PrimFloat.eqb (snd v) label) vs in
  PrimFloat.div
    (fold_left (fun sum v => PrimFloat.add sum (fst v)) selected 0%float)
    (Number_of_nat (Nat.max 1 (List.length selected))).

Definition groupedMeans (rows : list Row) (column : string) : GroupedMeans :=
  let vs := survivedValues (trainRows rows) column in
  let survivedMean := meanWhere 1%float vs in
  let notSurvivedMean := meanWhere 0%float vs in
  {| survivedMean := toFixed survivedMean 2;
     notSurvivedMean := toFixed notSurvivedMean 2;
     difference := toFixed (PrimFloat.sub survivedMean notSurvivedMean) 2 |}.

(** The numeric summary of a non-empty [numericValues].  For an array length
    [n] (below [2^32]) the products [n / 2], [n * 0.25] and [n * 0.75] are
    exact in binary64, so the indices [Math.floor(n / 2)],
    [Math.floor(n * 0.25)] and [Math.floor(n * 0.75)] are written as the
    integer quotients [n / 2], [n / 4] and [3 n / 4]; they lie inside
    [sorted].  [Math.min] and [Math.max] are applied to the spread array. *)
Definition numericStatsOf (total : nat) (numericValues : list float)
  (grouped : option GroupedMeans) : NumericStats :=
  let n := List.length numericValues in
  let mean := PrimFloat.div (sum numericValues) (Number_of_nat n) in
  let sorted := Array_sort ascending numericValues in
  let median := nth (List.length sorted / 2) sorted PrimFloat.nan in
  let variance :=
    PrimFloat.div (sumSquaredDeviations mean numericValues) (Number_of_nat n) in
  let stdDev := PrimFloat.sqrt variance in
  let min := Math_min numericValues in
  let max := Math_max numericValues in
  {| num_count := n;
     num_missing := total - n;
     num_mean := toFixed mean 2;
     num_median := toFixed median 2;
     num_stdDev := toFixed stdDev 2;
     num_min := toFixed min 2;
     num_max := toFixed max 2;
     num_q1 := toFixed (nth (List.length sorted / 4) sorted PrimFloat.nan) 2;
     num_q3 := toFixed (nth (3 * List.length sorted / 4) sorted PrimFloat.nan) 2;
     num_groupedBySurvived := grouped |}.

(** The tally [valueCounts], an object made by [{}]:
    [valueCounts[key] = (valueCounts[key] || 0) + 1] for each key in turn.
    Counts are whole Numbers far below [2^53].  For a key that names a
    function of [Object.prototype] the function is read; [||] keeps it and
    [+ 1] appends "1" to its text, which is stored as an own property and
    grows by "1" at each further round.  For [__proto__] the sum is handed
    to the setter of [Object.prototype], which ignores a string: no property
    is created. *)
Definition tallyStep (valueCounts : JsObject Tallied) (key : string)
  : JsObject Tallied :=
  match obj_read valueCounts key with
  | Own (Count c) => obj_set valueCounts key (Count (c + 1))
  | Own (Text t) =>
      obj_set valueCounts key
        (if String.eqb t "" then Count 1 else Text (t ++ "1"))
  | Inherits Prototype => valueCounts
  | Inherits i => obj_set valueCounts key (Text (String_of_inherited i ++ "1"))
  | Missing => obj_set valueCounts key (Count 1)
  end.

Definition tally (keys : list string) : JsObject Tallied :=
  fold_left tallyStep keys [].

(** The comparator [(a, b) => b[1] - a[1]]: on two counts it is positive
    when [a] has the smaller one; a text is converted to a Number first. *)
Definition Number_of_tallied (v : Tallied) : float :=
  match v with
  | Count n => Number_of_nat n
  | Text t => StringToNumber t
  end.

Definition byCountDescending (a b : string * Tallied) : bool :=
  match snd a, snd b with
  | Count x, Count y => Nat.ltb x y
  | x, y =>
      positive_result
        (PrimFloat.sub (Number_of_tallied y) (Number_of_tallied x))
  end.

Definition topValuesOf (valueCounts : JsObject Tallied)
  : list (string * Tallied) :=
  firstn 10 (Array_sort byCountDescending (Object_entries valueCounts)).

(** [groupedCounts], an object made by [{}]: per stringified value,
    [(survived, notSurvived)] over the train rows whose column value and
    label are neither [null] nor [undefined].  For a key that names a
    property of [Object.prototype] the test [!groupedCounts[key]] finds the
    inherited object: no entry is created, and the increment goes to that
    object instead. *)
Definition groupedStep (column : string) (counts : JsObject (nat * nat))
  (row : Row) : JsObject (nat * nat) :=
  let value := prop row column in
  let label := prop row TARGET_COLUMN in
  if negb (is_null value) && negb (is_undefined value)
     && negb (is_null label) && negb (is_undefined label)
  then
    let key := String_of value in
    match obj_read counts key with
    | Inherits _ => counts
    | looked =>
        let '(survived, notSurvived) :=
          match looked with Own c => c | _ => (0, 0) end in
        if strict_eq_num label 1%float
        then obj_set counts key (S survived, notSurvived)
        else obj_set counts key (survived, S notSurvived)
    end
  else counts.

Definition groupedCounts (trainData : list Row) (column : string)
  : JsObject (nat * nat) :=
  fold_left (groupedStep column) trainData [].

Definition survivalRateOf (entry : string * (nat * nat)) : SurvivalRate :=
  let '(value, (survived, notSurvived)) := entry in
  let total := survived + notSurvived in
  {| sr_value := value;
     sr_survived := survived;
     sr_notSurvived := notSurvived;
     sr_survivalRate :=
       if Nat.ltb 0 total
       then toFixed
              (PrimFloat.mul
                 (PrimFloat.div (Number_of_nat survived) (Number_of_nat total))
                 100%float) 1
       else "0.0" |}.

(** The comparator [(a, b) => b.survivalRate - a.survivalRate]; the rates are
    strings and are converted back to Numbers by the subtraction. *)
Definition bySurvivalRateDescending (a b : SurvivalRate) : bool :=
  positive_result
    (PrimFloat.sub (StringToNumber (sr_survivalRate b))
                   (StringToNumber (sr_survivalRate a))).

Definition groupedSurvivalRates (rows : list Row) (column : string)
  : list SurvivalRate :=
  firstn 10
    (Array_sort bySurvivalRateDescending
       (map survivalRateOf
          (Object_entries (groupedCounts (trainRows rows) column)))).

Definition categoricalStatsOf (total : nat) (values : list JsValue)
  (grouped : option (list SurvivalRate)) : CategoricalStats :=
  let valueCounts := tally (map String_of values) in
  {| cat_count := List.length values;
     cat_missing := total - List.length values;
     cat_uniqueValues := List.length (Object_keys valueCounts);
     cat_topValues := topValuesOf valueCounts;
     cat_groupedBySurvived := grouped |}.

(** What one iteration of the loop over [columnsToAnalyze] does:
    it stores a summary, stores nothing, or stores the ungrouped categorical
    summary and then fails on [merged[0]] of an empty [merged]. *)
Inductive Outcome : Type :=
| Emitted (s : ColumnStats)
| Omitted
| Raised (s : ColumnStats) (message : string).

Definition statsForColumn (rows : list Row) (columnType : option ColumnType)
  (column : string) : Outcome :=
  let values := columnValues rows column in
  let total := List.length rows in
  if is_numeric_type columnType then
    let numericValues := numericValuesOf values in
    if Nat.ltb 0 (List.length numericValues) then
      let grouped :=
        match rows with
        | row0 :: _ =>
            if negb (String.eqb column TARGET_COLUMN) && targetAvailable row0
            then Some (groupedMeans rows column) else None
        | [] => None
        end in
      Emitted (NumericSummary (numericStatsOf total numericValues grouped))
    else Omitted
  else
    if String.eqb column TARGET_COLUMN
    then Emitted (CategoricalSummary (categoricalStatsOf total values None))
    else
      match rows with
      | row0 :: _ =>
          Emitted
            (CategoricalSummary
               (categoricalStatsOf total values
                  (if targetAvailable row0
                   then Some (groupedSurvivalRates rows column) else None)))
      | [] =>
          Raised (CategoricalSummary (categoricalStatsOf total values None))
            "Cannot read properties of undefined (reading 'Survived')"
      end.

Fixpoint summarizeColumns (rows : list Row) (types : JsObject ColumnType)
  (cols : list string) (acc : JsObject ColumnStats)
  : JsObject ColumnStats * option string :=
  match cols with
  | [] => (acc, None)
  | column :: cols' =>
      match statsForColumn rows (obj_get types column) column with
      | Emitted s => summarizeColumns rows types cols' (obj_set acc column s)
      | Omitted => summarizeColumns rows types cols' acc
      | Raised s message => (obj_set acc column s, Some message)
      end
  end.

Definition columnsToAnalyze (st : TitanicData) : list string :=
  filter
    (fun col => negb (includes EXCLUDED_COLUMNS col)
                && negb (String.eqb col "source"))
    (columns st).

(** The new state and, when the loop failed, the error it raised. *)
Definition calculateStatisticalSummaries (st : TitanicData)
  : TitanicData * option string :=
  let '(ss, raised) :=
    summarizeColumns (merged st) (columnTypes st) (columnsToAnalyze st) [] in
  (set_stats st ss, raised).

(** ** Correlation matrix of [createCorrelationHeatmap] *)

(** [rows.some(row => typeof row[col] === 'number' && !isNaN(row[col]))] *)
Definition hasNumber (rows : list Row) (col : string) : bool :=
  existsb
    (fun row => match prop row col with
                | JNum x => negb (isNaN x)
                | _ => false
                end)
    rows.

Definition numericColumns (st : TitanicData) : list string :=
  filter
    (fun col => is_numeric_type (obj_get (columnTypes st) col)
                && hasNumber (merged st) col)
    FEATURE_COLUMNS
  ++ (if is_numeric_type (obj_get (columnTypes st) TARGET_COLUMN)
      then [TARGET_COLUMN] else []).

(** The valid [{x, y}] pairs of two columns. *)
Definition validPairs (trainData : list Row) (col1 col2 : string)
  : list (float * float) :=
  flat_map
    (fun row => match prop row col1, prop row col2 with
                | JNum x, JNum y =>
                    if negb (isNaN x) && negb (isNaN y) then [(x, y)] else []
                | _, _ => []
                end)
    trainData.

Definition correlationOf (pairs : list (float * float)) : float :=
  if Nat.ltb 0 (List.length pairs) then
    let n := Number_of_nat (List.length pairs) in
    let meanX :=
      PrimFloat.div
        (fold_left (fun sum p => PrimFloat.add sum (fst p)) pairs 0%float) n in
    let meanY :=
      PrimFloat.div
        (fold_left (fun sum p => PrimFloat.add sum (snd p)) pairs 0%float) n in
    let numerator :=
      fold_left
        (fun sum p =>
           PrimFloat.add sum
             (PrimFloat.mul (PrimFloat.sub (fst p) meanX)
                            (PrimFloat.sub (snd p) meanY)))
        pairs 0%float in
    let denomX :=
      PrimFloat.sqrt
        (fold_left
           (fun sum p => PrimFloat.add sum (Math_pow2 (PrimFloat.sub (fst p) meanX)))
           pairs 0%float) in
    let denomY :=
      PrimFloat.sqrt
        (fold_left
           (fun sum p => PrimFloat.add sum (Math_pow2 (PrimFloat.sub (snd p) meanY)))
           pairs 0%float) in
    if negb (PrimFloat.eqb (PrimFloat.mul denomX denomY) 0%float)
    then PrimFloat.div numerator (PrimFloat.mul denomX denomY)
    else 0%float
  else 0%float.

(** [correlations[i][j]] for the column list [cols]. *)
Definition correlationEntry (trainData : list Row) (cols : list string)
  (i j : nat) : float :=
  if Nat.eqb i j then 1%float
  else correlationOf (validPairs trainData (nth i cols "") (nth j cols "")).

Definition correlationsOver (trainData : list Row) (cols : list string)
  : list (list float) :=
  map (fun i =>
         map (fun j => correlationEntry trainData cols i j)
             (seq 0 (List.length cols)))
      (seq 0 (List.length cols)).

(** The matrix the heatmap shows; none when fewer than two columns
    qualify. *)
Definition correlations (st : TitanicData) : option (list (list float)) :=
  let cols := numericColumns st in
  if Nat.ltb (List.length cols) 2 then None
  else Some (correlationsOver (trainRows (merged st)) cols).

(** ** [runFullEDA]

    The steps that draw ([cleanupCharts], [createMissingValuesChart],
    [createVisualizations]) run inside the same [try] and are left out: the
    result is that of a run in which none of them raises. *)
Definition runFullEDA (st : TitanicData) : TitanicData * Status :=
  match merged st with
  | [] => (st, ("No data loaded. Please load datasets first.", error))
  | _ :: _ =>
      let st1 := calculateMissingValues st in
      match calculateStatisticalSummaries st1 with
      | (st2, None) => (st2, ("EDA analysis complete!", success))
      | (st2, Some message) =>
          (st2, (("Error during EDA: " ++ message)%string, error))
      end
  end.

(** ** Export of the statistics *)

(** The object [exportStatistics] serialises (without [exportDate], which is
    the time of the call), and the status it shows.  Serialising the object
    and handing the file to the browser are left out: the result is that of
    a run in which they do not raise, so the [catch] branch is not
    modelled. *)
Record ExportMetadata : Type := {
  meta_dataset : string;
  meta_totalRows : nat;
  meta_trainRows : nat;
  meta_testRows : nat
}.

Record ExportData : Type := {
  exp_metadata : ExportMetadata;
  exp_missingValues : JsObject MissingInfo;
  exp_statistics : JsObject ColumnStats
}.

Definition exportStatistics (st : TitanicData) : Status * option ExportData :=
  if Nat.eqb (List.length (Object_keys (stats st))) 0
  then (("No statistics to export", error), None)
  else
    (("Statistics exported as titanic_statistics.json", success),
     Some {| exp_metadata :=
               {| meta_dataset := "Titanic";
                  meta_totalRows := List.length (merged st);
                  meta_trainRows := trainCount st;
                  meta_testRows := testCount st |};
             exp_missingValues := missingValues st;
             exp_statistics := stats st |}).

(** ** The data behind [createBarChart] *)

(** [valueCounts]: the tally of the stringified column values of the train
    rows, [null] and [undefined] left out. *)
Definition barValueCounts (trainData : list Row) (column : string)
  : JsObject Tallied :=
  fold_left
    (fun valueCounts row =>
       if negb (is_null (prop row column))
          && negb (is_undefined (prop row column))
       then tallyStep valueCounts (String_of (prop row column))
       else valueCounts)
    trainData [].

(** The train rows behind the survival rate of one label. *)
Definition categoryRows (trainData : list Row) (column label : string)
  : list Row :=
  filter
    (fun row => String.eqb (String_of (prop row column)) label
                && negb (is_undefined (prop row TARGET_COLUMN)))
    trainData.

Definition barSurvivalRates (trainData : list Row) (column : string)
  (labels : list string) : JsObject string :=
  fold_left
    (fun survivalRates label =>
       let rows := categoryRows trainData column label in
       if Nat.ltb 0 (List.length rows) then
         let survivedCount :=
           List.length
             (filter (fun row => strict_eq_num (prop row TARGET_COLUMN) 1%float)
                rows) in
         obj_set survivalRates label
           (toFixed
              (PrimFloat.mul
                 (PrimFloat.div (Number_of_nat survivedCount)
                                (Number_of_nat (List.length rows)))
                 100%float) 1)
       else survivalRates)
    labels [].

(** The labels and the two data series of the chart.  The second series is
    [survivalRates[label] || 0] on an object made by [{}]: the rate of the
    label, the Number 0 for a label without a rate, or, when such a label
    names a property of [Object.prototype], the inherited value.  (A rate
    is the result of [toFixed], a string that is not empty.) *)
Inductive RateShown : Type :=
| Shown (v : JsValue)
| ShownInherited (i : Inherited).

Record BarChart : Type := {
  bar_labels : list string;
  bar_counts : list Tallied;
  bar_survivalRates : list RateShown
}.

Definition createBarChart (st : TitanicData) (column : string) : BarChart :=
  let trainData := trainRows (merged st) in
  let valueCounts := barValueCounts trainData column in
  let labels := Object_keys valueCounts in
  let counts := map snd (Object_entries valueCounts) in
  let survivalRates := barSurvivalRates trainData column labels in
  {| bar_labels := labels;
     bar_counts := counts;
     bar_survivalRates :=
       map (fun label => match obj_read survivalRates label with
                         | Own rate => Shown (JStr rate)
                         | Inherits i => ShownInherited i
                         | Missing => Shown (JNum 0%float)
                         end)
           labels |}.

(** * The earlier variant of the application (globals [mergedData], ...) *)

Module Legacy.

(** What Papa.parse hands to [complete]. *)
Record ParseResults : Type := {
  data : list Row;
  errors : list string
}.

Record Globals : Type := {
  mergedData : list Row;
  trainData : list Row;
  testData : list Row;
  dataLoaded : bool
}.

Definition initialGlobals : Globals :=
  {| mergedData := []; trainData := []; testData := []; dataLoaded := false |}.

Inductive StatusKind : Type := info | warning | success | error.

(** The last message [showStatus] displays. *)
Definition Status : Type := (string * StatusKind)%type.

(** [loadAndMergeData]: the two parses run one after the other; the train
    rows are stored before the test file is looked at. *)
Definition loadAndMergeData (trainFile testFile : option ParseResults)
  (g : Globals) : Globals * Status :=
  match trainFile, testFile with
  | Some trainResults, Some testResults =>
      match errors trainResults with
      | message :: _ =>
          (g, (("Error parsing train.csv: " ++ message)%string, error))
      | [] =>
          let g1 :=
            {| mergedData := mergedData g;
               trainData := withSource "train" (data trainResults);
               testData := testData g;
               dataLoaded := dataLoaded g |} in
          match errors testResults with
          | message :: _ =>
              (g1, (("Error parsing test.csv: " ++ message)%string, error))
          | [] =>
              let testRows := withSource "test" (data testResults) in
              let g2 :=
                {| mergedData := trainData g1 ++ testRows;
                   trainData := trainData g1;
                   testData := testRows;
                   dataLoaded := true |} in
              (g2,
               (("Data loaded and merged successfully! "
                 ++ digits_of_Z (Z.of_nat (List.length (mergedData g2)))
                 ++ " total rows.")%string,
                success))
          end
      end
  | _, _ => (g, ("Please select both train.csv and test.csv files", error))
  end.

Record MissingEntry : Type := {
  column : string;
  missingCount : nat;
  missingPercent : float
}.

Definition missingEntryOf (rows : list Row) (col : string) : MissingEntry :=
  let missingCount := missingCountOf rows col in
  {| column := col;
     missingCount := missingCount;
     missingPercent :=
       PrimFloat.mul
         (PrimFloat.div (Number_of_nat missingCount)
                        (Number_of_nat (List.length rows)))
         100%float |}.

(** The comparator [(a, b) => b.missingPercent - a.missingPercent]. *)
Definition byPercentDescending (a b : MissingEntry) : bool :=
  positive_result (PrimFloat.sub (missingPercent b) (missingPercent a)).

(** The [missingData] list behind the missing-values chart. *)
Definition analyzeMissingValues (g : Globals) : list MissingEntry :=
  match mergedData g with
  | [] => []
  | row0 :: _ =>
      Array_sort byPercentDescending
        (map (missingEntryOf (mergedData g)) (Object_keys row0))
  end.

(** [CONFIG] *)
Definition targetColumn : string := "Survived".
Definition featureColumns : list string :=
  ["Pclass"; "Sex"; "Age"; "SibSp"; "Parch"; "Fare"; "Embarked"].
Definition excludedColumns : list string :=
  ["PassengerId"; "Name"; "Ticket"; "Cabin"].
Definition categoricalColumns : list string :=
  ["Pclass"; "Sex"; "Embarked"; "SibSp"; "Parch"; "Survived"; "source"].
Definition numericColumns : list string :=
  ["Age"; "Fare"; "SibSp"; "Parch"; "Pclass"].

(** [val !== null && val !== undefined && !isNaN(val)]; the global [isNaN]
    converts its argument to a Number first. *)
Definition validValue (val : JsValue) : bool :=
  negb (is_null val) && negb (is_undefined val) && negb (isNaN (ToNumber val)).

Record NumericStat : Type := {
  mean : float;
  median : JsValue;
  stdDev : float;
  count : nat;
  missing : nat
}.

(** The values of a numeric column over the training rows. *)
Definition valuesOf (trainingData : list Row) (col : string) : list JsValue :=
  filter validValue (map (fun row => prop row col) trainingData).

Definition numericStatOf (trainingCount : nat) (values : list JsValue)
  : NumericStat :=
  let n := Number_of_nat (List.length values) in
  let mean :=
    PrimFloat.div (ToNumber (fold_left js_add values (JNum 0%float))) n in
  let sorted := Array_sort ascending_values values in
  {| mean := mean;
     median := nth (List.length sorted / 2) sorted JUndefined;
     stdDev :=
       PrimFloat.sqrt
         (PrimFloat.div
            (fold_left
               (fun sq n =>
                  PrimFloat.add sq
                    (Math_pow2 (PrimFloat.sub (ToNumber n) mean)))
               values 0%float)
            n);
     count := List.length values;
     missing := trainingCount - List.length values |}.

Definition numericStatsOf (trainingData : list Row) : JsObject NumericStat :=
  fold_left
    (fun numericStats col =>
       let values := valuesOf trainingData col in
       if Nat.ltb 0 (List.length values)
       then obj_set numericStats col
              (numericStatOf (List.length trainingData) values)
       else numericStats)
    numericColumns [].

(** [valueCounts] of one categorical column, an object made by [{}]: per
    stringified value, [(count, survived)].  For a key that names a property
    of [Object.prototype] the test [!valueCounts[key]] finds the inherited
    object: no entry is created, and the increments go to that object
    instead. *)
Definition valueCountStep (col : string) (valueCounts : JsObject (nat * nat))
  (row : Row) : JsObject (nat * nat) :=
  let value := prop row col in
  if negb (is_null value) && negb (is_undefined value) then
    let key := String_of value in
    match obj_read valueCounts key with
    | Inherits _ => valueCounts
    | looked =>
        let '(count, survived) :=
          match looked with Own c => c | _ => (0, 0) end in
        obj_set valueCounts key
          (S count,
           if strict_eq_num (prop row "Survived") 1%float
           then S survived else survived)
    end
  else valueCounts.

Definition valueCountsOf (trainingData : list Row) (col : string)
  : JsObject (nat * nat) :=
  fold_left (valueCountStep col) trainingData [].

Definition categoricalStatsOf (trainingData : list Row)
  : JsObject (JsObject (nat * nat)) :=
  fold_left
    (fun categoricalStats col =>
       if String.eqb col "Survived" || String.eqb col "source"
       then categoricalStats
       else obj_set categoricalStats col (valueCountsOf trainingData col))
    categoricalColumns [].

(** What [generateStatisticalSummaries] leaves in [window.computedStats]:
    nothing without data; nothing either when building the display fails
    because a median is not a Number and has no [toFixed]. *)
Inductive SummaryOutcome : Type :=
| NotRun
| Stored (numericStats : JsObject NumericStat)
         (categoricalStats : JsObject (JsObject (nat * nat)))
| Failed (message : string).

Definition generateStatisticalSummaries (g : Globals) : SummaryOutcome :=
  match mergedData g with
  | [] => NotRun
  | _ :: _ =>
      let trainingData := trainRows (mergedData g) in
      let numericStats := numericStatsOf trainingData in
      let categoricalStats := categoricalStatsOf trainingData in
      if forallb (fun entry => is_number (median (snd entry)))
           (Object_entries numericStats)
      then Stored numericStats categoricalStats
      else Failed "stats.median.toFixed is not a function"
  end.

(** The matrix of [generateCorrelationHeatmap(data)]. *)
Definition labels : list string :=
  filter
    (fun col => negb (String.eqb col "SibSp") && negb (String.eqb col "Parch")
                && negb (String.eqb col "Pclass"))
    numericColumns
  ++ ["Survived"].

Definition pairsOf (rows : list Row) (col1 col2 : string)
  : list (JsValue * JsValue) :=
  map (fun row => (prop row col1, prop row col2))
    (filter
       (fun row => validValue (prop row col1) && validValue (prop row col2))
       rows).

(** [x * y] on arbitrary values. *)
Definition js_mul (a b : JsValue) : float :=
  PrimFloat.mul (ToNumber a) (ToNumber b).

Definition coefficientOf (pairs : list (JsValue * JsValue)) : float :=
  if Nat.ltb 0 (List.length pairs) then
    let sumX := fold_left (fun sum pair => js_add sum (fst pair)) pairs
                  (JNum 0%float) in
    let sumY := fold_left (fun sum pair => js_add sum (snd pair)) pairs
                  (JNum 0%float) in
    let sumXY :=
      fold_left
        (fun sum pair => PrimFloat.add sum (js_mul (fst pair) (snd pair)))
        pairs 0%float in
    let sumX2 :=
      fold_left
        (fun sum pair => PrimFloat.add sum (js_mul (fst pair) (fst pair)))
        pairs 0%float in
    let sumY2 :=
      fold_left
        (fun sum pair => PrimFloat.add sum (js_mul (snd pair) (snd pair)))
        pairs 0%float in
    let n := Number_of_nat (List.length pairs) in
    let numerator :=
      PrimFloat.sub (PrimFloat.mul n sumXY) (js_mul sumX sumY) in
    let denominator :=
      PrimFloat.sqrt
        (PrimFloat.mul
           (PrimFloat.sub (PrimFloat.mul n sumX2) (js_mul sumX sumX))
           (PrimFloat.sub (PrimFloat.mul n sumY2) (js_mul sumY sumY))) in
    if negb (PrimFloat.eqb denominator 0%float)
    then PrimFloat.div numerator denominator
    else 0%float
  else 0%float.

Definition matrixEntry (rows : list Row) (i j : nat) : float :=
  if Nat.eqb i j then 1%float
  else coefficientOf (pairsOf rows (nth i labels "") (nth j labels "")).

Definition matrixData (rows : list Row) : list (list float) :=
  map (fun i =>
         map (fun j => matrixEntry rows i j) (seq 0 (List.length labels)))
      (seq 0 (List.length labels)).

(** ** Overview figures of [displayDatasetOverview] *)

(** [((part / total) * 100).toFixed(1)] *)
Definition percentText (part total : nat) : string :=
  toFixed
    (PrimFloat.mul
       (PrimFloat.div (Number_of_nat part) (Number_of_nat total)) 100%float)
    1.

Record Overview : Type := {
  ov_totalRows : nat;
  ov_trainRows : nat;
  ov_testRows : nat;
  ov_columns : nat;
  ov_trainPercent : string;
  ov_testPercent : string;
  ov_missingSurvived : nat
}.

Definition displayDatasetOverview (g : Globals) : Overview :=
  let totalRows := List.length (mergedData g) in
  let trainRows := List.length (trainData g) in
  let testRows := List.length (testData g) in
  let columns :=
    match mergedData g with
    | row0 :: _ => Object_keys row0
    | [] => []
    end in
  let missingSurvived :=
    List.length
      (filter
         (fun row => strict_eq_str (prop row "source") "test"
                     || is_null (prop row "Survived")
                     || is_undefined (prop row "Survived"))
         (mergedData g)) in
  {| ov_totalRows := totalRows;
     ov_trainRows := trainRows;
     ov_testRows := testRows;
     ov_columns := List.length columns;
     ov_trainPercent := percentText trainRows totalRows;
     ov_testPercent := percentText testRows totalRows;
     ov_missingSurvived := missingSurvived |}.

(** ** [analyzeGenderImpact] *)

Definition isFemale (row : Row) : bool := strict_eq_str (prop row "Sex") "female".
Definition isMale (row : Row) : bool := strict_eq_str (prop row "Sex") "male".

(** [row.Survived === 1] *)
Definition survivedOne (row : Row) : bool :=
  strict_eq_num (prop row "Survived") 1%float.

Record ClassRates : Type := {
  femaleRate : string;
  maleRate : string;
  femaleCount : nat;
  maleCount : nat
}.

Definition classRatesOf (trainingData : list Row) (pclass : float)
  : ClassRates :=
  let classData :=
    filter (fun row => strict_eq_num (prop row "Pclass") pclass) trainingData in
  let femalesInClass := filter isFemale classData in
  let malesInClass := filter isMale classData in
  let femaleSurvivedInClass := List.length (filter survivedOne femalesInClass) in
  let maleSurvivedInClass := List.length (filter survivedOne malesInClass) in
  {| femaleRate :=
       if Nat.ltb 0 (List.length femalesInClass)
       then percentText femaleSurvivedInClass (List.length femalesInClass)
       else "0";
     maleRate :=
       if Nat.ltb 0 (List.length malesInClass)
       then percentText maleSurvivedInClass (List.length malesInClass)
       else "0";
     femaleCount := List.length femalesInClass;
     maleCount := List.length malesInClass |}.

(** What is stored in [window.genderAnalysis]. *)
Record GenderAnalysis : Type := {
  femaleSurvivalRate : float;
  maleSurvivalRate : float;
  survivalRatio : float;
  femalePassengers : nat;
  malePassengers : nat;
  femaleSurvived : nat;
  maleSurvived : nat;
  genderByClass : JsObject ClassRates
}.

(** Nothing is stored without data. *)
Definition analyzeGenderImpact (g : Globals) : option GenderAnalysis :=
  match mergedData g with
  | [] => None
  | _ :: _ =>
      let trainingData := trainRows (mergedData g) in
      let females := filter isFemale trainingData in
      let males := filter isMale trainingData in
      let femaleSurvivedCount := List.length (filter survivedOne females) in
      let maleSurvivedCount := List.length (filter survivedOne males) in
      let femaleRateText :=
        percentText femaleSurvivedCount (List.length females) in
      let maleRateText := percentText maleSurvivedCount (List.length males) in
      let ratioText :=
        toFixed
          (PrimFloat.div (parseFloat femaleRateText) (parseFloat maleRateText))
          1 in
      Some {| femaleSurvivalRate := parseFloat femaleRateText;
              maleSurvivalRate := parseFloat maleRateText;
              survivalRatio := parseFloat ratioText;
              femalePassengers := List.length females;
              malePassengers := List.length males;
              femaleSurvived := femaleSurvivedCount;
              maleSurvived := maleSurvivedCount;
              genderByClass :=
                fold_left
                  (fun byClass pclass =>
                     obj_set byClass (Number_toString pclass)
                       (classRatesOf trainingData pclass))
                  [1%float; 2%float; 3%float] [] |}
  end.

(** ** The data behind the charts of [generateAllCharts] *)

(** The bars of one category: label, survived, not survived. *)
Definition categoryBars (rows : list Row) (category : string)
  : list (string * nat * nat) :=
  let uniqueValues :=
    Set_values
      (filter (fun val => negb (is_null val) && negb (is_undefined val))
         (map (fun row => prop row category) rows)) in
  map
    (fun value =>
       let filtered :=
         filter (fun row => strict_eq (prop row category) value) rows in
       let survived := List.length (filter survivedOne filtered) in
       ((category ++ ": " ++ String_of value)%string,
        survived, List.length filtered - survived))
    uniqueValues.

Record CategoricalChart : Type := {
  cc_labels : list string;
  survivedData : list nat;
  notSurvivedData : list nat
}.

Definition generateCategoricalChart (rows : list Row) : CategoricalChart :=
  let bars := flat_map (categoryBars rows) ["Sex"; "Pclass"; "Embarked"] in
  {| cc_labels := map (fun bar => fst (fst bar)) bars;
     survivedData := map (fun bar => snd (fst bar)) bars;
     notSurvivedData := map snd bars |}.

(** The age histogram.  An age is compared with a bin edge as a Number. *)
Definition ageBins : list float :=
  [0%float; 10%float; 20%float; 30%float; 40%float; 50%float; 60%float;
   70%float; 80%float].

(** The two tests of the loop body at index [i]. *)
Definition ageBinHit (age : float) (i : nat) : bool :=
  (PrimFloat.leb (nth i ageBins PrimFloat.nan) age
   && PrimFloat.ltb age (nth (i + 1) ageBins PrimFloat.nan))
  || (Nat.eqb i (List.length ageBins - 2)
      && PrimFloat.leb (nth (i + 1) ageBins PrimFloat.nan) age).

(** The index at which the loop increments and breaks, if it does. *)
Definition ageBinOf (age : JsValue) : option nat :=
  find (ageBinHit (ToNumber age)) (seq 0 (List.length ageBins - 1)).

Record AgeChart : Type := {
  age_labels : list string;
  ageGroups : list nat
}.

Definition generateAgeChart (rows : list Row) : AgeChart :=
  let ages := filter validValue (map (fun row => prop row "Age") rows) in
  {| age_labels :=
       map (fun i => (Number_toString (nth i ageBins PrimFloat.nan) ++ "-"
                      ++ Number_toString (nth (i + 1) ageBins PrimFloat.nan))%string)
           (seq 0 (List.length ageBins - 1));
     ageGroups :=
       fold_left
         (fun groups age =>
            match ageBinOf age with
            | Some i => increment i groups
            | None => groups
            end)
         ages (repeat 0 (List.length ageBins - 1)) |}.

(** The fare histogram.  [Math.ceil(n / binCount)] is written as the integer
    quotient [(n + 9) / 10].  [toFixed] exists on Numbers only, so a chunk
    bound that is a string or a boolean ends the function with a
    [TypeError]. *)
Definition binCount : nat := 10.

Record FareChart : Type := {
  fare_labels : list string;
  fareGroups : list nat
}.

Inductive ChartOutcome : Type :=
| Drawn (chart : FareChart)
| Thrown (message : string).

Fixpoint fareLoop (fares sortedFares : list JsValue) (binSize : nat)
  (indices : list nat) (labels : list string) (groups : list nat)
  : ChartOutcome :=
  match indices with
  | [] => Drawn {| fare_labels := labels; fareGroups := groups |}
  | i :: indices' =>
      let n := List.length sortedFares in
      let startIdx := i * binSize in
      let endIdx := Nat.min (startIdx + binSize) n in
      if Nat.ltb startIdx n then
        match nth startIdx sortedFares JUndefined,
              nth (Nat.min (endIdx - 1) (n - 1)) sortedFares JUndefined with
        | JNum minFare, JNum maxFare =>
            fareLoop fares sortedFares binSize indices'
              (labels ++ [("$" ++ toFixed minFare 0 ++ "-"
                           ++ toFixed maxFare 0)%string])
              (fold_left
                 (fun counts fare =>
                    if PrimFloat.leb minFare (ToNumber fare)
                       && (Nat.eqb i (binCount - 1)
                           || PrimFloat.ltb (ToNumber fare) maxFare)
                    then increment i counts else counts)
                 fares groups)
        | JNum _, _ => Thrown "maxFare.toFixed is not a function"
        | _, _ => Thrown "minFare.toFixed is not a function"
        end
      else fareLoop fares sortedFares binSize indices' labels groups
  end.

Definition generateFareChart (rows : list Row) : ChartOutcome :=
  let fares := filter validValue (map (fun row => prop row "Fare") rows) in
  let sortedFares := Array_sort ascending_values fares in
  let binSize := (List.length sortedFares + (binCount - 1)) / binCount in
  fareLoop fares sortedFares binSize (seq 0 binCount) [] (repeat 0 binCount).

(** [generateAllCharts]: nothing without data; the charts are drawn one
    after the other from the train rows, so a failing fare chart leaves the
    heatmap undrawn. *)
Record AllCharts : Type := {
  categoricalChart : CategoricalChart;
  ageChart : AgeChart;
  fareChart : ChartOutcome;
  correlationChart : option (list (list float))
}.

Definition generateAllCharts (g : Globals) : option AllCharts :=
  match mergedData g with
  | [] => None
  | _ :: _ =>
      let trainingData := trainRows (mergedData g) in
      let fare := generateFareChart trainingData in
      Some {| categoricalChart := generateCategoricalChart trainingData;
              ageChart := generateAgeChart trainingData;
              fareChart := fare;
              correlationChart :=
                match fare with
                | Drawn _ => Some (matrixData trainingData)
                | Thrown _ => None
                end |}
  end.

(** ** The session: the globals and what [window] keeps *)

Record ComputedStats : Type := {
  cs_numericStats : JsObject NumericStat;
  cs_categoricalStats : JsObject (JsObject (nat * nat))
}.

Record Session : Type := {
  globals : Globals;
  computedStats : option ComputedStats;
  genderAnalysis : option GenderAnalysis
}.

Definition initialSession : Session :=
  {| globals := initialGlobals; computedStats := None;
     genderAnalysis := None |}.

(** [runFullEDA]: the new session, the status shown last and the exception
    that ended the run, if one did.  A summary that fails leaves the status
    at the message shown before the analysis. *)
Definition runFullEDA (s : Session) : Session * Status * option string :=
  let g := globals s in
  if negb (dataLoaded g)
     || match mergedData g with [] => true | _ :: _ => false end
  then (s, ("Please load data first", error), None)
  else
    match generateStatisticalSummaries g with
    | Failed message =>
        (s, ("Running Exploratory Data Analysis...", warning), Some message)
    | outcome =>
        ({| globals := g;
            computedStats :=
              match outcome with
              | Stored numericStats categoricalStats =>
                  Some {| cs_numericStats := numericStats;
                          cs_categoricalStats := categoricalStats |}
              | _ => computedStats s
              end;
            genderAnalysis :=
              match analyzeGenderImpact g with
              | Some analysis => Some analysis
              | None => genderAnalysis s
              end |},
         ("EDA completed successfully!", success), None)
    end.

(** [exportMergedData]: the status shown and the rows handed to
    [Papa.unparse].  Here and in [exportStatistics], writing the file is left
    out: the result is that of a run in which it does not raise, so the
    [catch] branch is not modelled. *)
Definition exportMergedData (s : Session) : Status * option (list Row) :=
  let g := globals s in
  if negb (dataLoaded g)
     || match mergedData g with [] => true | _ :: _ => false end
  then (("No data to export", error), None)
  else (("Merged dataset exported as CSV", success), Some (mergedData g)).

(** The object [exportStatistics] serialises; [window.genderAnalysis || {}]
    is the empty object when no analysis was stored. *)
Record StatisticsExport : Type := {
  export_numericStats : JsObject NumericStat;
  export_categoricalStats : JsObject (JsObject (nat * nat));
  export_genderAnalysis : option GenderAnalysis
}.

Definition exportStatistics (s : Session) : Status * option StatisticsExport :=
  match computedStats s with
  | None => (("No statistics to export. Run EDA first.", error), None)
  | Some stats =>
      (("Statistics exported as JSON (includes gender analysis)", success),
       Some {| export_numericStats := cs_numericStats stats;
               export_categoricalStats := cs_categoricalStats stats;
               export_genderAnalysis := genderAnalysis s |})
  end.

(** The [disabled] flags that [updateUIState] sets. *)
Record UIState : Type := {
  runEdaBtn_disabled : bool;
  showChartsBtn_disabled : bool;
  exportCsvBtn_disabled : bool;
  exportStatsBtn_disabled : bool
}.

Definition updateUIState (s : Session) : UIState :=
  {| runEdaBtn_disabled := negb (dataLoaded (globals s));
     showChartsBtn_disabled := negb (dataLoaded (globals s));
     exportCsvBtn_disabled := negb (dataLoaded (globals s));
     exportStatsBtn_disabled :=
       match computedStats s with None => true | Some _ => false end |}.

(** [resetAll]: the new session, the button flags it leaves and the status. *)
Definition resetAll (s : Session) : Session * UIState * Status :=
  let s' :=
    {| globals := initialGlobals;
       computedStats := computedStats s;
       genderAnalysis := genderAnalysis s |} in
  (s', updateUIState s', ("Application reset successfully", success)).

End Legacy.

(** * Vocabulary of the specification

    Definitions that follow the words of the specification; Part II compares
    them with the code above. *)

(** ** Merge *)

(** [row'] is [row] with the origin tag [tag] stored under [source] and every
    other field unchanged. *)
Definition tagged_copy (tag : string) (row row' : Row) : Prop :=
  forall k, obj_get row' k =
            if String.eqb k "source" then Some (JStr tag) else obj_get row k.

(** ** Type inference and missing values *)

(** A value is absent when it is [null], [undefined] or the empty string. *)
Definition absent (v : JsValue) : bool :=
  is_null v || is_undefined v || is_empty_string v.

(** Type inference over the values a column has in the sample: absent values
    are skipped; any present value that is not a number makes the column
    categorical; with at least one present number and no other present value
    it is numeric; with no present value it is categorical. *)
Definition inferKind (sampleValues : list JsValue) : ColumnType :=
  let presentValues := filter (fun v => negb (absent v)) sampleValues in
  if existsb (fun v => negb (is_number v)) presentValues then categorical
  else if existsb is_number presentValues then numeric
  else categorical.

(** A value counts as missing when it is absent or a NaN number. *)
Definition missingValue (v : JsValue) : bool :=
  absent v || match v with JNum x => isNaN x | _ => false end.

(** The number of rows of [rows] whose value at [column] is missing. *)
Fixpoint absentCount (rows : list Row) (column : string) : nat :=
  match rows with
  | [] => 0
  | row :: rows' =>
      (if missingValue (prop row column) then 1 else 0)
      + absentCount rows' column
  end.

(** [100 * count / total] as the code evaluates it in binary64:
    the quotient first, then the product. *)
Definition percentOf (count total : nat) : float :=
  PrimFloat.mul (PrimFloat.div (Number_of_nat count) (Number_of_nat total))
    100%float.

(** ** Numeric summaries *)


(** Nearest rank for [p = num / den]: the element of the sorted sequence at
    index [floor(p * n)], no interpolation. *)
Definition nearestRank (num den : nat) (sorted : list float) : float :=
  nth (num * List.length sorted / den) sorted PrimFloat.nan.

(** Ascending order on Numbers, and on arbitrary values by their numeric
    value. *)
Definition ascendingOrder (a b : float) : Prop := PrimFloat.leb a b = true.

Definition ascendingValues (a b : JsValue) : Prop :=
  PrimFloat.leb (ToNumber a) (ToNumber b) = true.

(** ** Categorical summaries *)

(** The distinct keys in first-encountered order: walk through the keys and
    append each one that was not seen before. *)
Fixpoint firstSeenFrom (seen keys : list string) : list string :=
  match keys with
  | [] => seen
  | k :: keys' =>
      firstSeenFrom (if in_dec string_dec k seen then seen else seen ++ [k])
        keys'
  end.

Definition firstSeen (keys : list string) : list string :=
  firstSeenFrom [] keys.

(** How often [k] occurs among the keys. *)
Definition occurrences (keys : list string) (k : string) : nat :=
  count_occ string_dec keys k.

(** The order in which a plain object enumerates keys created in the order
    [ks]: the array-index keys in ascending numeric order, then the other
    keys as created. *)
Definition enumerationOrder (ks : list string) : list string :=
  map snd (index_keys ks) ++ filter (fun k => negb (is_array_index k)) ks.

(** The tally as the specification has it: a count per key, created at the
    first occurrence of the key and raised by one at each further one. *)
Definition countStep (counts : JsObject nat) (key : string) : JsObject nat :=
  obj_set counts key
    (match obj_get counts key with Some c => c | None => 0 end + 1).

Definition countsOf (keys : list string) : JsObject nat :=
  fold_left countStep keys [].

(** A pair [(value, count)] as an entry of a tally object, and a whole
    object of counts as a tally object. *)
Definition counted (e : string * nat) : string * Tallied :=
  (fst e, Count (snd e)).

Definition countedObject (counts : JsObject nat) : JsObject Tallied :=
  map counted counts.

(** By descending count: [a] moves behind [b] when its count is the smaller
    one. *)
Definition smallerCount (a b : string * nat) : bool :=
  Nat.ltb (snd a) (snd b).

(** The top values as the specification words them: the pairs
    [(value, count)] of the stringified present values, by descending count,
    ties in first-encountered order, at most ten of them. *)
Definition specTopValues (values : list JsValue) : list (string * nat) :=
  let keys := map String_of values in
  firstn 10
    (Array_sort smallerCount
       (map (fun k => (k, occurrences keys k)) (firstSeen keys))).

(** A key that names one of the functions of [Object.prototype], and the
    key [__proto__]. *)
Definition namesBuiltIn (key : string) : bool :=
  match Object_prototype key with
  | Some (BuiltIn _) => true
  | _ => false
  end.

Definition isProto (key : string) : bool := String.eqb key "__proto__".

(** The keys a tally gets an entry for: all but [__proto__]. *)
Definition talliedKeys (keys : list string) : list string :=
  filter (fun k => negb (isProto k)) keys.

(** The train rows the categorical grouping looks at for the value [key]:
    column value and label are neither [null] nor [undefined], and the value
    prints as [key]. *)
Definition groupedRow (column key : string) (row : Row) : bool :=
  negb (is_null (prop row column)) && negb (is_undefined (prop row column))
  && negb (is_null (prop row TARGET_COLUMN))
  && negb (is_undefined (prop row TARGET_COLUMN))
  && String.eqb (String_of (prop row column)) key.

(** A label that is the Number 1. *)
Definition labelIsOne (row : Row) : bool :=
  strict_eq_num (prop row TARGET_COLUMN) 1%float.

(** ** Correlation matrix *)

(** [M[i][j]], reading 0 outside the matrix. *)
Definition entry (M : list (list float)) (i j : nat) : float :=
  nth j (nth i M []) 0%float.

(** The pair with its components exchanged. *)
Definition swap_pair {A B : Type} (p : A * B) : B * A := (snd p, fst p).

(** ** Binary64 *)

(** The mantissa of a finite float, signed and aligned to the exponent [ez]. *)
Definition aligned (s : bool) (m : positive) (e ez : Z) : Z :=
  cond_Zopp s (Zpos (fst (shl_align m e ez))).

(** Strictly positive: a positive finite value or +Infinity. *)
Definition is_pos (r : spec_float) : bool :=
  match r with
  | S754_finite false _ _ | S754_infinity false => true
  | _ => false
  end.

Definition not_nan (x : spec_float) : bool :=
  match x with S754_nan => false | _ => true end.

(** ** Order of the Numbers *)

(** The position of a float on a common integer scale: a finite value times
    [2^1074], the infinities beyond every finite value. *)
Definition scaled (x : spec_float) : Z :=
  match x with
  | S754_zero _ | S754_nan => 0%Z
  | S754_infinity s => cond_Zopp s (2 ^ 2100)%Z
  | S754_finite s m e => cond_Zopp s (Zpos m * 2 ^ (e + 1074))%Z
  end.

Definition rank (x : float) : Z := scaled (Prim2SF x).

(** ** Charts and tallies *)

(** The interval of the age bin [i]: from its lower edge up to, but not
    including, the next edge; the last bin has no upper limit. *)
Definition inAgeBin (i : nat) (age : float) : bool :=
  PrimFloat.leb (nth i Legacy.ageBins PrimFloat.nan) age
  && (Nat.eqb i 7
      || PrimFloat.ltb age (nth (i + 1) Legacy.ageBins PrimFloat.nan)).

(** A value a categorical bar can count: not [null], not [undefined] and
    not NaN. *)
Definition countable (v : JsValue) : bool :=
  negb (is_null v) && negb (is_undefined v)
  && negb (match v with JNum x => isNaN x | _ => false end).

(** The rows that have a value at [column] ([null] and [undefined] are none)
    and print it as [key]. *)
Definition hasValue (column : string) (row : Row) : bool :=
  negb (is_null (prop row column)) && negb (is_undefined (prop row column)).

Definition valuedAs (column key : string) (row : Row) : bool :=
  hasValue column row && String.eqb (String_of (prop row column)) key.

(** A key that names no property of [Object.prototype], and the rows that
    have a value at [column] which prints as such a key. *)
Definition ownKey (key : string) : bool :=
  match Object_prototype key with None => true | Some _ => false end.

Definition talliedRow (column : string) (row : Row) : bool :=
  hasValue column row && ownKey (String_of (prop row column)).

(** A present value that is not a Number, and a Number that is NaN. *)
Definition presentNonNumber (v : JsValue) : bool :=
  present v && negb (is_number v).

Definition isNaNNumber (v : JsValue) : bool :=
  match v with JNum x => isNaN x | _ => false end.

(** * Sample data *)

(** White space outside ASCII: the no-break space U+00A0, the line separator
    U+2028 and the ideographic space U+3000. *)
Definition NBSP : string :=
  String (ascii_of_nat 194) (String (ascii_of_nat 160) "").

Definition LS : string :=
  String (ascii_of_nat 226)
    (String (ascii_of_nat 128) (String (ascii_of_nat 168) "")).

Definition IDSP : string :=
  String (ascii_of_nat 227)
    (String (ascii_of_nat 128) (String (ascii_of_nat 128) "")).

(** The round-trip scenario of the specification. *)
Definition scenarioTrain : list Row :=
  [ [("PassengerId", JNum 1); ("Sex", JStr "male"); ("Age", JNum 22);
     ("Survived", JNum 0)];
    [("PassengerId", JNum 2); ("Sex", JStr "female"); ("Age", JNum 38);
     ("Survived", JNum 1)] ].

Definition scenarioTest : list Row :=
  [ [("PassengerId", JNum 3); ("Sex", JStr "male"); ("Age", JNum 26)] ].

Definition scenarioData : TitanicData :=
  fst (loadAndMergeDatasets (Some (Resolved scenarioTrain))
         (Some (Resolved scenarioTest)) initialData).

Definition scenarioGlobals : Legacy.Globals :=
  fst (Legacy.loadAndMergeData
         (Some {| Legacy.data := scenarioTrain; Legacy.errors := [] |})
         (Some {| Legacy.data := scenarioTest; Legacy.errors := [] |})
         Legacy.initialGlobals).

(** A dataset in which one train row has the label 2. *)
Definition labelTwoData : TitanicData :=
  fst (loadAndMergeDatasets
         (Some (Resolved
                  [[("Sex", JStr "male"); ("Age", JNum 30%float);
                    ("Survived", JNum 2%float)];
                   [("Sex", JStr "female"); ("Age", JNum 40%float);
                    ("Survived", JNum 1%float)]]))
         (Some (Resolved [])) initialData).



(** A dataset in which two values of [Name] print as [__proto__]. *)
Definition protoNamesData : TitanicData :=
  fst (loadAndMergeDatasets
         (Some (Resolved
                  [[("Name", JStr "__proto__"); ("Survived", JNum 0)];
                   [("Name", JStr "Smith"); ("Survived", JNum 1)];
                   [("Name", JStr "__proto__"); ("Survived", JNum 1)]]))
         (Some (Resolved [])) initialData).

(** Two datasets with perfectly correlated [Age] and [Fare]: one with the
    values 2.6395260150135295e-162 and 3.4730605460704336e-162 and their
    opposites, whose squares are rounded to one or two units of the smallest
    subnormal, and one with values of magnitude [2^665] (about 1.5e200),
    whose squares overflow. *)
Definition tinyValuesData : TitanicData :=
  fst (loadAndMergeDatasets
         (Some (Resolved
                  [[("Age", JNum 0x1.3p-537%float);
                    ("Fare", JNum 0x1.9p-537%float)];
                   [("Age", JNum (-0x1.3p-537)%float);
                    ("Fare", JNum (-0x1.9p-537)%float)]]))
         (Some (Resolved [])) initialData).

Definition hugeValuesData : TitanicData :=
  fst (loadAndMergeDatasets
         (Some (Resolved
                  [[("Age", JNum 0x1p+665%float);
                    ("Fare", JNum 0x1p+665%float)];
                   [("Age", JNum (-0x1p+665)%float);
                    ("Fare", JNum (-0x1p+665)%float)]]))
         (Some (Resolved [])) initialData).

(** A dataset without a survivor among its train rows. *)
Definition noSurvivorData : TitanicData :=
  fst (loadAndMergeDatasets
         (Some (Resolved
                  [[("Sex", JStr "male"); ("Age", JNum 22%float);
                    ("Survived", JNum 0%float)];
                   [("Sex", JStr "male"); ("Age", JNum 35%float);
                    ("Survived", JNum 0%float)]]))
         (Some (Resolved [[("Sex", JStr "female"); ("Age", JNum 30%float)]]))
         initialData).

(** Globals whose train rows hold no male passenger, and the gender analysis
    they give. *)
Definition femaleOnlyGlobals : Legacy.Globals :=
  fst (Legacy.loadAndMergeData
         (Some {| Legacy.data :=
                    [[("Sex", JStr "female"); ("Pclass", JNum 1%float);
                      ("Survived", JNum 1%float)];
                     [("Sex", JStr "female"); ("Pclass", JNum 3%float);
                      ("Survived", JNum 0%float)]];
                  Legacy.errors := [] |})
         (Some {| Legacy.data :=
                    [[("Sex", JStr "male"); ("Pclass", JNum 2%float)]];
                  Legacy.errors := [] |})
         Legacy.initialGlobals).

Definition femaleOnlyAnalysis : Legacy.GenderAnalysis :=
  {| Legacy.femaleSurvivalRate := 50%float;
     Legacy.maleSurvivalRate := PrimFloat.nan;
     Legacy.survivalRatio := PrimFloat.nan;
     Legacy.femalePassengers := 2;
     Legacy.malePassengers := 0;
     Legacy.femaleSurvived := 1;
     Legacy.maleSurvived := 0;
     Legacy.genderByClass :=
       [("1", {| Legacy.femaleRate := "100.0"; Legacy.maleRate := "0";
                 Legacy.femaleCount := 1; Legacy.maleCount := 0 |});
        ("2", {| Legacy.femaleRate := "0"; Legacy.maleRate := "0";
                 Legacy.femaleCount := 0; Legacy.maleCount := 0 |});
        ("3", {| Legacy.femaleRate := "0.0"; Legacy.maleRate := "0";
                 Legacy.femaleCount := 1; Legacy.maleCount := 0 |})] |}.

(** Three train rows with a fare each. *)
Definition fareRows : list Row :=
  [[("Fare", JNum 7.25%float)]; [("Fare", JNum 71.5%float)];
   [("Fare", JNum 8.5%float)]].

(** Four rows whose [Age] is a Number, [null], NaN and, in a row that is not
    sampled first, a string. *)
Definition mixedData : TitanicData :=
  {| merged :=
       [[("Age", JNum 22%float); ("source", JStr "train")];
        [("Age", JNull); ("source", JStr "train")];
        [("Age", JNum PrimFloat.nan); ("source", JStr "train")];
        [("Age", JStr "unknown"); ("source", JStr "test")]];
     trainCount := 3; testCount := 1;
     columns := ["Age"; "source"];
     columnTypes := [("Age", numeric); ("source", categorical)];
     missingValues := []; stats := [] |}.

(* ====================================================================== *)
(** * Part II: properties                                                  *)
(* ====================================================================== *)

(** ** The run-time model on known values *)

Example Number_toString_values :
  map Number_toString
    [0.1%float; 0x1p60%float; 1e21%float; 1.5e-7%float; 7.25%float;
     113803%float; (-2.5)%float; 0x1p-1074%float; PrimFloat.nan;
     PrimFloat.neg_infinity; PrimFloat.neg_zero]
  = ["0.1"; "1152921504606847000"; "1e+21"; "1.5e-7"; "7.25"; "113803";
     "-2.5"; "5e-324"; "NaN"; "-Infinity"; "0"].
Proof. vm_compute. reflexivity. Qed.

Example toFixed_values :
  map (fun x => toFixed x 2)
    [1.005%float; 0.125%float; 28.666666666666668%float; (-0.001)%float;
     1e21%float; 0%float; PrimFloat.nan; PrimFloat.infinity]
  = ["1.00"; "0.13"; "28.67"; "-0.00"; "1e+21"; "0.00"; "NaN"; "Infinity"].
Proof. vm_compute. reflexivity. Qed.

Example StringToNumber_values :
  map StringToNumber ["66.7"; " 12 "; ""; "0x10"; "1e3"; ".5"; "-Infinity"]
  = [66.7%float; 12%float; 0%float; 16%float; 1000%float; 0.5%float;
     PrimFloat.neg_infinity]
  /\ map (fun s => isNaN (StringToNumber s)) ["abc"; "12px"; "1e"; "."]
     = [true; true; true; true].
Proof. vm_compute. split; reflexivity. Qed.

(** White space of any script is dropped at both ends, and only there. *)
Example StringToNumber_white_space :
  map StringToNumber
    [NBSP ++ "+5"; NBSP; LS ++ "12" ++ IDSP ++ NBSP;
     " " ++ NBSP ++ " 7 "]%string
  = [5%float; 0%float; 12%float; 7%float]
  /\ map (fun s => isNaN (StringToNumber s))
       ["1" ++ NBSP ++ "2"; "x" ++ NBSP]%string
     = [true; true]
  /\ parseFloat (IDSP ++ "66.7%")%string = 66.7%float.
Proof. vm_compute. repeat split; reflexivity. Qed.

(** Reading a plain object by a key it does not own. *)
Example obj_read_values :
  map (obj_read [("toString", 1)])
    ["toString"; "valueOf"; "constructor"; "__proto__"; "Smith"]
  = [Own 1; Inherits (BuiltIn "valueOf"); Inherits (BuiltIn "Object");
     Inherits Prototype; Missing].
Proof. reflexivity. Qed.

Example Object_keys_order :
  Object_keys [("b", 1); ("10", 2); ("2", 3); ("01", 4); ("a", 5)]
  = ["2"; "10"; "b"; "01"; "a"].
Proof. reflexivity. Qed.

Example Array_sort_is_stable :
  Array_sort byCountDescending
    [("a", Count 1); ("b", Count 2); ("c", Count 1); ("d", Count 2)]
  = [("b", Count 2); ("d", Count 2); ("a", Count 1); ("c", Count 1)].
Proof. reflexivity. Qed.

(** ** Plain objects *)

Section ObjectFacts.
Context {V : Type}.
Implicit Types (o : JsObject V) (k : string) (v : V).

Lemma obj_get_set_same o k v : obj_get (obj_set o k v) k = Some v.
Proof.
  induction o as [|[k' v'] o IH]; simpl.
  - now rewrite String.eqb_refl.
  - destruct (String.eqb k' k) eqn:E; simpl; rewrite E; auto.
Qed.

Lemma obj_get_set_other o k k' v :
  k <> k' -> obj_get (obj_set o k v) k' = obj_get o k'.
Proof.
  intros Hne. induction o as [|[k0 v0] o IH]; simpl.
  - destruct (String.eqb k k') eqn:E; auto.
    apply String.eqb_eq in E. contradiction.
  - destruct (String.eqb k0 k) eqn:E; simpl.
    + apply String.eqb_eq in E. subst k0.
      destruct (String.eqb k k') eqn:E'; auto.
      apply String.eqb_eq in E'. contradiction.
    + now rewrite IH.
Qed.

Lemma obj_get_set o k k' v :
  obj_get (obj_set o k v) k' =
  if String.eqb k' k then Some v else obj_get o k'.
Proof.
  destruct (String.eqb k' k) eqn:E.
  - apply String.eqb_eq in E. subst. apply obj_get_set_same.
  - apply obj_get_set_other. intros ->. now rewrite String.eqb_refl in E.
Qed.

Lemma obj_get_None_iff o k : obj_get o k = None <-> ~ In k (map fst o).
Proof.
  induction o as [|[k' v'] o IH]; simpl.
  - tauto.
  - destruct (String.eqb k' k) eqn:E.
    + apply String.eqb_eq in E. split; [discriminate | tauto].
    + apply String.eqb_neq in E. rewrite IH. tauto.
Qed.

(** Creation order: a write keeps the position of an existing key and
    appends a new one. *)
Lemma obj_set_keys o k v :
  map fst (obj_set o k v) =
  if in_dec string_dec k (map fst o) then map fst o else map fst o ++ [k].
Proof.
  induction o as [|[k' v'] o IH]; simpl.
  - reflexivity.
  - destruct (String.eqb k' k) eqn:E; simpl.
    + apply String.eqb_eq in E. subst.
      destruct (string_dec k k); [|contradiction].
      reflexivity.
    + apply String.eqb_neq in E. rewrite IH.
      destruct (string_dec k' k); [contradiction|].
      destruct (in_dec string_dec k (map fst o)); reflexivity.
Qed.

(** Building an object from entries that agree with a lookup function. *)
Lemma obj_of_entries_get_acc (f : string -> option V) es :
  Forall (fun kv => f (fst kv) = Some (snd kv)) es ->
  forall acc k,
    obj_get (fold_left (fun o kv => obj_set o (fst kv) (snd kv)) es acc) k =
    if in_dec string_dec k (map fst es) then f k else obj_get acc k.
Proof.
  induction 1 as [|[k0 v0] es Hk _ IH]; intros acc k; simpl.
  - reflexivity.
  - rewrite IH. simpl in Hk.
    destruct (in_dec string_dec k (map fst es)) as [Hin|Hnin].
    + destruct (string_dec k0 k); reflexivity.
    + rewrite obj_get_set.
      destruct (string_dec k0 k) as [->|Hne].
      * now rewrite String.eqb_refl.
      * destruct (String.eqb k k0) eqn:E; auto.
        apply String.eqb_eq in E. congruence.
Qed.
End ObjectFacts.

(** ** Enumeration order of the keys *)

Lemma insert_index_perm n k l :
  Permutation (insert_index n k l) ((n, k) :: l).
Proof.
  induction l as [|[n' k'] l IH]; simpl; auto.
  destruct (N.leb n n'); auto.
  rewrite IH. apply perm_swap.
Qed.

Lemma index_keys_In ks k :
  In k (map snd (index_keys ks)) <-> In k ks /\ is_array_index k = true.
Proof.
  unfold is_array_index.
  induction ks as [|k0 ks IH]; simpl.
  - tauto.
  - destruct (array_index k0) as [n|] eqn:E.
    + rewrite (Permutation_in' (eq_refl k)
                 (Permutation_map snd (insert_index_perm n k0 (index_keys ks)))).
      simpl. rewrite IH. split.
      * intros [<-|[Hin Hidx]]; [rewrite E|]; auto.
      * intros [[<-|Hin] Hidx]; auto.
    + rewrite IH. split.
      * intros [Hin Hidx]; auto.
      * intros [[<-|Hin] Hidx]; auto. rewrite E in Hidx. discriminate.
Qed.

Lemma Object_keys_In {V : Type} (o : JsObject V) k :
  In k (Object_keys o) <-> In k (map fst o).
Proof.
  unfold Object_keys. rewrite in_app_iff, index_keys_In, filter_In.
  destruct (is_array_index k); simpl; intuition congruence.
Qed.

Lemma Object_entries_agree {V : Type} (o : JsObject V) :
  Forall (fun kv => obj_get o (fst kv) = Some (snd kv)) (Object_entries o).
Proof.
  unfold Object_entries. apply Forall_forall. intros [k v] Hin.
  apply in_flat_map in Hin. destruct Hin as [k' [_ Hin]].
  destruct (obj_get o k') eqn:E; simpl in Hin; [|contradiction].
  destruct Hin as [Heq|[]]. inversion Heq; subst. exact E.
Qed.

Lemma Object_entries_keys {V : Type} (o : JsObject V) :
  map fst (Object_entries o) = Object_keys o.
Proof.
  unfold Object_entries.
  assert (H : forall ks, (forall k, In k ks -> In k (map fst o)) ->
            map fst (flat_map
              (fun k => match obj_get o k with
                        | Some v => [(k, v)] | None => [] end) ks) = ks).
  { induction ks as [|k ks IH]; intros Hks; simpl; auto.
    destruct (obj_get o k) eqn:E.
    - simpl. f_equal. apply IH. intros; apply Hks; now right.
    - apply obj_get_None_iff in E. exfalso. apply E, Hks. now left. }
  apply H. intros k. apply Object_keys_In.
Qed.

(** The copy made by an object spread has the properties of the original. *)
Lemma obj_get_spread_copy {V : Type} (o : JsObject V) k :
  obj_get (obj_of_entries (Object_entries o)) k = obj_get o k.
Proof.
  unfold obj_of_entries.
  rewrite (obj_of_entries_get_acc (obj_get o)) by apply Object_entries_agree.
  rewrite Object_entries_keys.
  destruct (in_dec string_dec k (Object_keys o)) as [|Hn]; auto.
  simpl. symmetry. apply obj_get_None_iff.
  now rewrite <- Object_keys_In.
Qed.

Lemma obj_get_spread_with {V : Type} (o : JsObject V) k v k' :
  obj_get (spread_with o k v) k' =
  if String.eqb k' k then Some v else obj_get o k'.
Proof.
  unfold spread_with. rewrite obj_get_set. now rewrite obj_get_spread_copy.
Qed.

(** ** [Array.prototype.sort] *)

Section ArraySortFacts.
Context {A : Type} (gt : A -> A -> bool).

Lemma sort_insert_perm x l : Permutation (sort_insert gt x l) (x :: l).
Proof.
  induction l as [|y l IH]; simpl; auto.
  destruct (gt x y); auto.
  rewrite IH. apply perm_swap.
Qed.

Lemma Array_sort_perm l : Permutation (Array_sort gt l) l.
Proof.
  induction l as [|x l IH]; simpl; auto.
  rewrite sort_insert_perm. now constructor.
Qed.

Lemma Array_sort_Forall (P : A -> Prop) l :
  Forall P l -> Forall P (Array_sort gt l).
Proof.
  intros H. eapply Permutation_Forall; [|exact H].
  symmetry. apply Array_sort_perm.
Qed.

(** The result is ordered by any relation [le] the comparator decides:
    [le] must hold from [x] to [y] when the comparator does not put [x]
    behind [y], and from [y] to [x] when it does. *)
Variable le : A -> A -> Prop.
Variable P : A -> Prop.
Hypothesis le_of_not_gt : forall x y, P x -> P y -> gt x y = false -> le x y.
Hypothesis le_of_gt : forall x y, P x -> P y -> gt x y = true -> le y x.

Lemma sort_insert_sorted x l :
  P x -> Forall P l -> Sorted le l -> Sorted le (sort_insert gt x l).
Proof.
  intros Px Hl Hs. induction l as [|y l IH]; simpl.
  - repeat constructor.
  - inversion Hl as [|? ? Py Hl']; subst.
    inversion Hs as [|? ? Hs' Hd]; subst.
    destruct (gt x y) eqn:E.
    + constructor; [now apply IH|].
      destruct l as [|z l]; simpl.
      * constructor. now apply le_of_gt.
      * destruct (gt x z); constructor.
        -- now inversion Hd.
        -- now apply le_of_gt.
    + constructor; [assumption|]. constructor. now apply le_of_not_gt.
Qed.

Lemma Array_sort_sorted l : Forall P l -> Sorted le (Array_sort gt l).
Proof.
  induction l as [|x l IH]; intros Hl; simpl; [constructor|].
  inversion Hl; subst.
  apply sort_insert_sorted; auto.
  now apply Array_sort_Forall.
Qed.
End ArraySortFacts.

(** ** Binary64 arithmetic

    Facts about the primitive floats, from their specification. *)

Section Binary64.
Local Open Scope Z_scope.

Lemma digits2_bounds m :
  2 ^ (Zpos (digits2_pos m) - 1) <= Zpos m < 2 ^ Zpos (digits2_pos m).
Proof.
  induction m as [m IH|m IH|]; simpl digits2_pos.
  - rewrite Pos2Z.inj_succ.
    replace (Z.succ (Zpos (digits2_pos m)) - 1) with (Z.succ (Zpos (digits2_pos m) - 1)) by lia.
    rewrite !Z.pow_succ_r by lia. lia.
  - rewrite Pos2Z.inj_succ.
    replace (Z.succ (Zpos (digits2_pos m)) - 1) with (Z.succ (Zpos (digits2_pos m) - 1)) by lia.
    rewrite !Z.pow_succ_r by lia. lia.
  - simpl. lia.
Qed.

Lemma iter_xO_value m d : Zpos (Pos.iter xO m d) = Zpos m * 2 ^ Zpos d.
Proof.
  revert m. induction d using Pos.peano_ind; intros m.
  - simpl. lia.
  - rewrite Pos.iter_succ, Pos2Z.inj_succ, Z.pow_succ_r by lia.
    rewrite Pos2Z.inj_xO, IHd. lia.
Qed.

Lemma shl_align_value mx ex ez :
  ez <= ex ->
  Zpos (fst (shl_align mx ex ez)) = Zpos mx * 2 ^ (ex - ez).
Proof.
  intros H. unfold shl_align.
  destruct (ez - ex) eqn:E; cbn [fst].
  - replace (ex - ez) with 0 by lia. rewrite Z.pow_0_r. lia.
  - lia.
  - change (PosDef.Pos.iter xO mx p) with (Pos.iter xO mx p).
    rewrite iter_xO_value. f_equal. f_equal. lia.
Qed.

(** canonical floats *)
Lemma valid_finite s m e :
  valid_binary (S754_finite s m e) = true ->
  -1074 <= e /\ Zpos (digits2_pos m) <= 53 /\ (-1074 < e -> Zpos (digits2_pos m) = 53).
Proof.
  unfold valid_binary, SpecFloat.valid_binary, bounded, canonical_mantissa, fexp, emin.
  unfold prec, emax in *.
  intros H. apply andb_prop in H. destruct H as [H _].
  apply Z.eqb_eq in H. lia.
Qed.

Lemma compare_aligned sx mx ex sy my ey :
  valid_binary (S754_finite sx mx ex) = true ->
  valid_binary (S754_finite sy my ey) = true ->
  SFcompare (S754_finite sx mx ex) (S754_finite sy my ey)
  = Some (aligned sx mx ex (Z.min ex ey) ?= aligned sy my ey (Z.min ex ey)).
Proof.
  intros Hx Hy.
  apply valid_finite in Hx. apply valid_finite in Hy.
  destruct Hx as (Hx1 & Hx2 & Hx3). destruct Hy as (Hy1 & Hy2 & Hy3).
  pose proof (digits2_bounds mx) as Bx. pose proof (digits2_bounds my) as By.
  unfold aligned. rewrite !shl_align_value by lia.
  assert (Px : 0 < Zpos mx * 2 ^ (ex - Z.min ex ey)) by (apply Z.mul_pos_pos; [lia|apply Z.pow_pos_nonneg; lia]).
  assert (Py : 0 < Zpos my * 2 ^ (ey - Z.min ex ey)) by (apply Z.mul_pos_pos; [lia|apply Z.pow_pos_nonneg; lia]).
  assert (Hlt : forall m1 e1 m2 e2, -1074 <= e1 -> Zpos (digits2_pos m1) <= 53 ->
            (-1074 < e2 -> Zpos (digits2_pos m2) = 53) -> e1 < e2 ->
            Zpos m1 * 2 ^ (e1 - Z.min e1 e2) < Zpos m2 * 2 ^ (e2 - Z.min e1 e2)).
  { intros m1 e1 m2 e2 H1 H2 H3 H4.
    pose proof (digits2_bounds m1) as B1. pose proof (digits2_bounds m2) as B2.
    rewrite Z.min_l by lia. rewrite Z.sub_diag. simpl (2 ^ 0). rewrite Z.mul_1_r.
    rewrite H3 in B2 by lia.
    assert (Zpos m1 < 2 ^ 53).
    { eapply Z.lt_le_trans; [apply B1|]. apply Z.pow_le_mono_r; lia. }
    assert (2 ^ 1 <= 2 ^ (e2 - e1)) by (apply Z.pow_le_mono_r; lia).
    change (2 ^ (53 - 1)) with 4503599627370496 in B2.
    change (2 ^ 53) with 9007199254740992 in H.
    change (2 ^ 1) with 2 in H0. nia. }
  simpl SFcompare. unfold cond_Zopp.
  destruct sx, sy.
  - (* both negative *)
    destruct (Z.compare_spec ex ey) as [E|E|E].
    + subst ey. rewrite Z.min_id, Z.sub_diag. simpl (2 ^ 0). rewrite !Z.mul_1_r.
      rewrite Pos.compare_cont_spec. simpl.
      now destruct (mx ?= my)%positive.
    + pose proof (Hlt mx ex my ey Hx1 Hx2 Hy3 E).
      symmetry. f_equal. apply Z.compare_gt_iff. lia.
    + pose proof (Hlt my ey mx ex Hy1 Hy2 Hx3 E) as K. rewrite Z.min_comm in K.
      symmetry. f_equal. apply Z.compare_lt_iff. lia.
  - f_equal. symmetry. apply Z.compare_lt_iff. lia.
  - f_equal. symmetry. apply Z.compare_gt_iff. lia.
  - destruct (Z.compare_spec ex ey) as [E|E|E].
    + subst ey. rewrite Z.min_id, Z.sub_diag. simpl (2 ^ 0). rewrite !Z.mul_1_r.
      rewrite Pos.compare_cont_spec. simpl.
      now destruct (mx ?= my)%positive.
    + pose proof (Hlt mx ex my ey Hx1 Hx2 Hy3 E).
      symmetry. f_equal. apply Z.compare_lt_iff. lia.
    + pose proof (Hlt my ey mx ex Hy1 Hy2 Hx3 E) as K. rewrite Z.min_comm in K.
      symmetry. f_equal. apply Z.compare_gt_iff. lia.
Qed.

Lemma SFltb_zero r : SFltb (S754_zero false) r = is_pos r.
Proof. destruct r as [s|s| |s m e]; try destruct s; reflexivity. Qed.

Lemma binary_round_aux_negative mx ex lx :
  is_pos (binary_round_aux prec emax true mx ex lx) = false.
Proof.
  unfold binary_round_aux.
  destruct (shr_fexp prec emax mx ex lx) as [mrs' e'].
  destruct (shr_fexp prec emax _ e' loc_Exact) as [mrs'' e''].
  destruct (shr_m mrs''); auto.
  destruct (e'' <=? emax - prec); reflexivity.
Qed.

Lemma shr_1_m mrs : 0 <= shr_m mrs -> shr_m (shr_1 mrs) = shr_m mrs / 2.
Proof.
  destruct mrs as [m r s]. simpl. intros Hm.
  destruct m as [|p|p]; [reflexivity| |lia].
  destruct p as [p|p|]; cbn [shr_m].
  - rewrite Pos2Z.inj_xI. apply Z.div_unique with 1; lia.
  - rewrite Pos2Z.inj_xO. apply Z.div_unique with 0; lia.
  - reflexivity.
Qed.

Lemma iter_shr_1_m n :
  forall mrs, 0 <= shr_m mrs ->
    shr_m (iter_pos shr_1 n mrs) = shr_m mrs / 2 ^ Zpos n.
Proof.
  assert (Hnn : forall a k, 0 <= a -> 0 <= a / 2 ^ Zpos k).
  { intros. apply Z.div_pos; [assumption | apply Z.pow_pos_nonneg; lia]. }
  assert (Hp : forall k, 0 < 2 ^ Zpos k) by (intros; apply Z.pow_pos_nonneg; lia).
  induction n as [n IH|n IH|]; intros mrs Hm; cbn [iter_pos].
  - rewrite IH, IH, shr_1_m; auto.
    + rewrite !Z.div_div by (try apply Hp; lia).
      f_equal. replace (Zpos n~1) with (1 + Zpos n + Zpos n) by lia.
      rewrite !Z.pow_add_r, Z.pow_1_r by lia. lia.
    + rewrite shr_1_m by assumption. apply Z.div_pos; lia.
    + rewrite IH; [|rewrite shr_1_m by assumption; apply Z.div_pos; lia].
      apply Hnn. rewrite shr_1_m by assumption. apply Z.div_pos; lia.
  - rewrite IH, IH; auto.
    + rewrite !Z.div_div by (try apply Hp; lia).
      f_equal. rewrite <- Z.pow_add_r by lia. f_equal. lia.
    + rewrite IH by assumption. now apply Hnn.
  - rewrite shr_1_m by assumption. reflexivity.
Qed.

Lemma shr_record_of_loc_m m l : shr_m (shr_record_of_loc m l) = m.
Proof. destruct l as [|[]]; reflexivity. Qed.

Lemma shr_fexp_positive m e l :
  -1074 <= e ->
  0 < shr_m (fst (shr_fexp prec emax (Zpos m) e l))
  /\ -1074 <= snd (shr_fexp prec emax (Zpos m) e l).
Proof.
  intros He. unfold shr_fexp, shr, fexp, emin, prec, emax. cbn [Zdigits2].
  pose proof (digits2_bounds m) as B.
  destruct (Z.max (Zpos (digits2_pos m) + e - 53) (3 - 1024 - 53) - e) as [|p|p] eqn:E;
    cbn [fst snd]; try (rewrite shr_record_of_loc_m; lia).
  rewrite iter_shr_1_m by (rewrite shr_record_of_loc_m; lia).
  rewrite shr_record_of_loc_m. split; [|lia].
  apply Z.div_str_pos. split; [apply Z.pow_pos_nonneg; lia|].
  eapply Z.le_trans; [|apply B].
  apply Z.pow_le_mono_r; lia.
Qed.

Lemma round_nearest_even_positive m l : 0 < m -> 0 < round_nearest_even m l.
Proof. intros. destruct l as [|[]]; simpl; try destruct (Z.even m); lia. Qed.

Lemma binary_round_aux_positive m e l :
  -1074 <= e -> is_pos (binary_round_aux prec emax false (Zpos m) e l) = true.
Proof.
  intros He. unfold binary_round_aux.
  destruct (shr_fexp_positive m e l He) as [H1 H2].
  destruct (shr_fexp prec emax (Zpos m) e l) as [mrs' e']. cbn [fst snd] in *.
  pose proof (round_nearest_even_positive (shr_m mrs') (loc_of_shr_record mrs') H1) as H3.
  destruct (round_nearest_even (shr_m mrs') (loc_of_shr_record mrs')) as [|q|q]; try lia.
  destruct (shr_fexp_positive q e' loc_Exact H2) as [H4 _].
  destruct (shr_fexp prec emax (Zpos q) e' loc_Exact) as [mrs'' e'']. cbn [fst] in *.
  destruct (shr_m mrs''); try lia.
  destruct (e'' <=? emax - prec); reflexivity.
Qed.

Lemma binary_round_positive m e :
  -1074 <= e -> is_pos (binary_round prec emax false m e) = true.
Proof.
  intros He. unfold binary_round, shl_align.
  destruct (fexp prec emax (Zpos (digits2_pos m) + e) - e) eqn:E;
    apply binary_round_aux_positive; try assumption.
  unfold fexp, emin, prec, emax in *. lia.
Qed.

Lemma binary_round_negative m e :
  is_pos (binary_round prec emax true m e) = false.
Proof.
  unfold binary_round.
  destruct (shl_align m e _). apply binary_round_aux_negative.
Qed.

Lemma binary_normalize_pos d e :
  -1074 <= e ->
  is_pos (binary_normalize prec emax d e false) =
  match d ?= 0 with Gt => true | _ => false end.
Proof.
  intros He. destruct d; simpl.
  - reflexivity.
  - now apply binary_round_positive.
  - apply binary_round_negative.
Qed.

(** The sign of a difference is the outcome of the comparison. *)
Lemma SFsub_positive x y :
  valid_binary x = true -> valid_binary y = true ->
  not_nan x = true -> not_nan y = true ->
  is_pos (SFsub prec emax x y) =
  match SFcompare x y with Some Gt => true | _ => false end.
Proof.
  intros Vx Vy Nx Ny.
  destruct x as [sx|sx| |sx mx ex], y as [sy|sy| |sy my ey];
    try discriminate;
    try (destruct sx; try destruct sy; reflexivity);
    try (destruct sy; reflexivity).
  rewrite compare_aligned by assumption.
  unfold SFsub.
  pose proof (valid_finite _ _ _ Vx) as (Hx & _).
  pose proof (valid_finite _ _ _ Vy) as (Hy & _).
  change (IntDef.Z.min ex ey) with (Z.min ex ey).
  rewrite binary_normalize_pos by lia.
  fold (aligned sx mx ex (Z.min ex ey)). fold (aligned sy my ey (Z.min ex ey)).
  rewrite <- Z.compare_sub. reflexivity.
Qed.

Lemma SFcompare_antisym x y :
  valid_binary x = true -> valid_binary y = true ->
  SFcompare y x = match SFcompare x y with
                  | Some c => Some (CompOpp c)
                  | None => None
                  end.
Proof.
  intros Vx Vy.
  destruct x as [sx|sx| |sx mx ex], y as [sy|sy| |sy my ey];
    try reflexivity;
    try (destruct sx; try destruct sy; reflexivity);
    try (destruct sy; reflexivity).
  rewrite !compare_aligned by assumption.
  rewrite (Z.min_comm ey ex). now rewrite Z.compare_antisym.
Qed.

Lemma SFcompare_not_nan x y :
  not_nan x = true -> not_nan y = true -> SFcompare x y <> None.
Proof.
  destruct x as [sx|sx| |sx mx ex], y as [sy|sy| |sy my ey];
    simpl; try discriminate; intros _ _;
    try destruct sx; try destruct sy; discriminate.
Qed.
End Binary64.

Section Float64.


Lemma isNaN_spec x : isNaN x = negb (not_nan (Prim2SF x)).
Proof.
  unfold isNaN. rewrite classify_spec. unfold SF64classify, SFclassify.
  destruct (Prim2SF x) as [s|s| |s m e]; try destruct s; try reflexivity;
    destruct (Z.eqb _ _); reflexivity.
Qed.

Lemma ascending_spec a b :
  isNaN a = false -> isNaN b = false ->
  ascending a b =
  match SFcompare (Prim2SF a) (Prim2SF b) with Some Gt => true | _ => false end.
Proof.
  intros Ha Hb. rewrite isNaN_spec in Ha, Hb.
  apply negb_false_iff in Ha, Hb.
  unfold ascending, positive_result. rewrite ltb_spec, sub_spec.
  change (Prim2SF 0%float) with (S754_zero false).
  rewrite SFltb_zero. apply SFsub_positive; auto using Prim2SF_valid.
Qed.

Lemma ascending_false_leb a b :
  isNaN a = false -> isNaN b = false ->
  ascending a b = false -> PrimFloat.leb a b = true.
Proof.
  intros Ha Hb H. rewrite ascending_spec in H by assumption.
  rewrite isNaN_spec in Ha, Hb. apply negb_false_iff in Ha, Hb.
  rewrite leb_spec. unfold SFleb.
  pose proof (SFcompare_not_nan _ _ Ha Hb) as Hc.
  destruct (SFcompare (Prim2SF a) (Prim2SF b)) as [[]|]; congruence.
Qed.

Lemma ascending_true_leb a b :
  isNaN a = false -> isNaN b = false ->
  ascending a b = true -> PrimFloat.leb b a = true.
Proof.
  intros Ha Hb H. rewrite ascending_spec in H by assumption.
  rewrite leb_spec. unfold SFleb.
  rewrite SFcompare_antisym by apply Prim2SF_valid.
  destruct (SFcompare (Prim2SF a) (Prim2SF b)) as [[]|]; simpl; congruence.
Qed.

Lemma SFmul_comm x y : SFmul prec emax x y = SFmul prec emax y x.
Proof.
  destruct x as [sx|sx| |sx mx ex], y as [sy|sy| |sy my ey]; simpl;
    try reflexivity; try (now rewrite xorb_comm).
  now rewrite xorb_comm, Pos.mul_comm, Z.add_comm.
Qed.

Lemma float_mul_comm (x y : float) : PrimFloat.mul x y = PrimFloat.mul y x.
Proof. apply Prim2SF_inj. rewrite !mul_spec. apply SFmul_comm. Qed.
End Float64.

(** ** Merge *)

Lemma withSource_length tag rows :
  List.length (withSource tag rows) = List.length rows.
Proof. apply length_map. Qed.

Lemma withSource_tagged tag rows :
  Forall2 (tagged_copy tag) rows (withSource tag rows).
Proof.
  induction rows as [|row rows IH]; simpl; constructor; auto.
  intros k. apply obj_get_spread_with.
Qed.

Lemma withSource_source tag rows :
  Forall (fun row => prop row "source" = JStr tag) (withSource tag rows).
Proof.
  apply Forall_forall. intros row' Hin.
  apply in_map_iff in Hin. destruct Hin as [row [<- _]].
  unfold prop. now rewrite obj_get_spread_with.
Qed.

Lemma determineColumnTypes_merged st :
  merged (determineColumnTypes st) = merged st
  /\ trainCount (determineColumnTypes st) = trainCount st
  /\ testCount (determineColumnTypes st) = testCount st
  /\ columns (determineColumnTypes st) = columns st.
Proof.
  unfold determineColumnTypes. destruct (merged st) eqn:E; simpl; auto.
Qed.

Lemma loadAndMergeDatasets_resolved trainData testData st :
  let st' := fst (loadAndMergeDatasets (Some (Resolved trainData))
                    (Some (Resolved testData)) st) in
  merged st' = withSource "train" trainData ++ withSource "test" testData
  /\ trainCount st' = List.length trainData
  /\ testCount st' = List.length testData.
Proof.
  simpl.
  match goal with
  | |- context [determineColumnTypes ?s] =>
      destruct (determineColumnTypes_merged s) as (Hm & Ht & Hs & _);
      rewrite Hm, Ht, Hs
  end.
  destruct (withSource "train" trainData ++ withSource "test" testData) eqn:E;
    simpl; rewrite !withSource_length; auto.
Qed.

Lemma firstn_length_app {A : Type} (l1 l2 : list A) n :
  n = List.length l1 -> firstn n (l1 ++ l2) = l1 /\ skipn n (l1 ++ l2) = l2.
Proof.
  intros ->. split.
  - rewrite firstn_app, Nat.sub_diag, firstn_all. simpl. apply app_nil_r.
  - rewrite skipn_app, Nat.sub_diag, skipn_all. reflexivity.
Qed.

Lemma Legacy_loadAndMergeData_ok trainRows0 testRows0 g :
  let g' := fst (Legacy.loadAndMergeData
                   (Some {| Legacy.data := trainRows0; Legacy.errors := [] |})
                   (Some {| Legacy.data := testRows0; Legacy.errors := [] |})
                   g) in
  Legacy.mergedData g' =
  withSource "train" trainRows0 ++ withSource "test" testRows0.
Proof. reflexivity. Qed.

(** C2.  The merged dataset of batches of sizes [m] and [n] has exactly
    [m + n] rows in append order: the first [m] rows carry the origin tag
    "train" in their [source] column and the remaining [n] rows carry "test".
    It holds for both variants of the loader and for all batches, the
    non-empty ones in particular. *)
Theorem merge_row_count_and_origin_tags
  (trainData testData : list Row) (st : TitanicData) (g : Legacy.Globals) :
  let m := List.length trainData in
  let n := List.length testData in
  let st' := fst (loadAndMergeDatasets (Some (Resolved trainData))
                    (Some (Resolved testData)) st) in
  let g' := fst (Legacy.loadAndMergeData
                   (Some {| Legacy.data := trainData; Legacy.errors := [] |})
                   (Some {| Legacy.data := testData; Legacy.errors := [] |})
                   g) in
  (List.length (merged st') = m + n
   /\ trainCount st' = m /\ testCount st' = n
   /\ Forall (fun row => prop row "source" = JStr "train")
        (firstn m (merged st'))
   /\ Forall (fun row => prop row "source" = JStr "test")
        (skipn m (merged st')))
  /\ (List.length (Legacy.mergedData g') = m + n
      /\ Forall (fun row => prop row "source" = JStr "train")
           (firstn m (Legacy.mergedData g'))
      /\ Forall (fun row => prop row "source" = JStr "test")
           (skipn m (Legacy.mergedData g'))).
Proof.
  intros m n st' g'.
  destruct (loadAndMergeDatasets_resolved trainData testData st)
    as (Hm & Ht & Hs).
  fold st' in Hm, Ht, Hs.
  assert (Hg : Legacy.mergedData g' =
               withSource "train" trainData ++ withSource "test" testData)
    by apply Legacy_loadAndMergeData_ok.
  assert (Hlen : m = List.length (withSource "train" trainData))
    by (symmetry; apply withSource_length).
  destruct (firstn_length_app (withSource "train" trainData)
              (withSource "test" testData) m Hlen) as [Hf Hk].
  rewrite Hm, Hg, Hf, Hk, length_app, !withSource_length.
  repeat split; auto using withSource_source.
Qed.

(** C10.  Merge copies every field of an input record unchanged into the
    corresponding merged row and adds only the origin tag under [source]:
    whatever the record held under [source] before is replaced by the tag.
    It holds for both variants of the loader. *)
Theorem merge_copies_fields_and_overwrites_source
  (trainData testData : list Row) (st : TitanicData) (g : Legacy.Globals) :
  let m := List.length trainData in
  let st' := fst (loadAndMergeDatasets (Some (Resolved trainData))
                    (Some (Resolved testData)) st) in
  let g' := fst (Legacy.loadAndMergeData
                   (Some {| Legacy.data := trainData; Legacy.errors := [] |})
                   (Some {| Legacy.data := testData; Legacy.errors := [] |})
                   g) in
  (Forall2 (tagged_copy "train") trainData (firstn m (merged st'))
   /\ Forall2 (tagged_copy "test") testData (skipn m (merged st')))
  /\ (Forall2 (tagged_copy "train") trainData (firstn m (Legacy.mergedData g'))
      /\ Forall2 (tagged_copy "test") testData
           (skipn m (Legacy.mergedData g'))).
Proof.
  intros m st' g'.
  destruct (loadAndMergeDatasets_resolved trainData testData st) as (Hm & _).
  fold st' in Hm.
  assert (Hg : Legacy.mergedData g' =
               withSource "train" trainData ++ withSource "test" testData)
    by apply Legacy_loadAndMergeData_ok.
  assert (Hlen : m = List.length (withSource "train" trainData))
    by (symmetry; apply withSource_length).
  destruct (firstn_length_app (withSource "train" trainData)
              (withSource "test" testData) m Hlen) as [Hf Hk].
  rewrite Hm, Hg, Hf, Hk.
  repeat split; apply withSource_tagged.
Qed.

(** A record that already has a [source] field keeps its place for it and
    loses its value. *)
Example merge_overwrites_existing_source :
  withSource "train" [[("source", JStr "kaggle"); ("Age", JNum 22)]]
  = [[("source", JStr "train"); ("Age", JNum 22)]].
Proof. reflexivity. Qed.

(** C1, as stated, fails: a merge with an empty batch is carried out, it is
    not rejected.  With an empty train batch (or an empty test batch) both
    loaders report success and store the rows of the other batch. *)
Lemma merge_with_empty_batch_succeeds :
  let row : Row := [("PassengerId", JNum 3); ("Age", JNum 26)] in
  let r1 := loadAndMergeDatasets (Some (Resolved [])) (Some (Resolved [row]))
              initialData in
  let r2 := loadAndMergeDatasets (Some (Resolved [row])) (Some (Resolved []))
              initialData in
  let r3 := Legacy.loadAndMergeData
              (Some {| Legacy.data := []; Legacy.errors := [] |})
              (Some {| Legacy.data := [row]; Legacy.errors := [] |})
              Legacy.initialGlobals in
  (snd (snd r1) = success
   /\ merged (fst r1)
      = [[("PassengerId", JNum 3); ("Age", JNum 26); ("source", JStr "test")]])
  /\ (snd (snd r2) = success
      /\ merged (fst r2)
         = [[("PassengerId", JNum 3); ("Age", JNum 26);
             ("source", JStr "train")]])
  /\ (snd (snd r3) = Legacy.success
      /\ Legacy.mergedData (fst r3)
         = [[("PassengerId", JNum 3); ("Age", JNum 26);
             ("source", JStr "test")]]).
Proof. vm_compute. repeat split; reflexivity. Qed.

(** C1, amended.  The loaders refuse to merge, with an error status and the
    merged dataset untouched, exactly when an input file is absent or its
    parse is rejected (the later variant: [parseCSV] rejects; the earlier
    one: the parse reports errors).  The later loader then leaves all of
    [titanicData] as it was.  The earlier loader leaves all its globals as
    they were when a file is absent or the train parse is rejected; when
    only the test parse is rejected it has already replaced [trainData] by
    the tagged train rows, and leaves [mergedData], [testData] and
    [dataLoaded] as they were.  An empty parsed batch is no error: for all
    batches, the empty ones included, the merge succeeds and stores the
    tagged train rows followed by the tagged test rows. *)
Theorem merge_refuses_absent_files_only :
  (forall testFile st,
      loadAndMergeDatasets None testFile st
      = (st, ("Please select both train.csv and test.csv files", error)))
  /\ (forall trainFile st,
         loadAndMergeDatasets trainFile None st
         = (st, ("Please select both train.csv and test.csv files", error)))
  /\ (forall message testOutcome st,
         let r := loadAndMergeDatasets (Some (Rejected message))
                    (Some testOutcome) st in
         fst r = st /\ snd (snd r) = error)
  /\ (forall trainRows0 message st,
         let r := loadAndMergeDatasets (Some (Resolved trainRows0))
                    (Some (Rejected message)) st in
         fst r = st /\ snd (snd r) = error)
  /\ (forall trainRows0 testRows0 st,
         let r := loadAndMergeDatasets (Some (Resolved trainRows0))
                    (Some (Resolved testRows0)) st in
         snd (snd r) = success
         /\ merged (fst r)
            = withSource "train" trainRows0 ++ withSource "test" testRows0)
  /\ (forall testFile g,
         Legacy.loadAndMergeData None testFile g
         = (g, ("Please select both train.csv and test.csv files",
                Legacy.error)))
  /\ (forall trainFile g,
         Legacy.loadAndMergeData trainFile None g
         = (g, ("Please select both train.csv and test.csv files",
                Legacy.error)))
  /\ (forall trainRows0 message more testResults g,
         Legacy.loadAndMergeData
           (Some {| Legacy.data := trainRows0;
                    Legacy.errors := message :: more |})
           (Some testResults) g
         = (g, (("Error parsing train.csv: " ++ message)%string,
                Legacy.error)))
  /\ (forall trainRows0 testRows0 message more g,
         let r := Legacy.loadAndMergeData
                    (Some {| Legacy.data := trainRows0; Legacy.errors := [] |})
                    (Some {| Legacy.data := testRows0;
                             Legacy.errors := message :: more |})
                    g in
         snd r = (("Error parsing test.csv: " ++ message)%string, Legacy.error)
         /\ Legacy.mergedData (fst r) = Legacy.mergedData g
         /\ Legacy.testData (fst r) = Legacy.testData g
         /\ Legacy.dataLoaded (fst r) = Legacy.dataLoaded g
         /\ Legacy.trainData (fst r) = withSource "train" trainRows0)
  /\ (forall trainRows0 testRows0 g,
         let r := Legacy.loadAndMergeData
                    (Some {| Legacy.data := trainRows0; Legacy.errors := [] |})
                    (Some {| Legacy.data := testRows0; Legacy.errors := [] |})
                    g in
         snd (snd r) = Legacy.success
         /\ Legacy.mergedData (fst r)
            = withSource "train" trainRows0 ++ withSource "test" testRows0).
Proof.
  split; [reflexivity|].
  split; [intros trainFile st; destruct trainFile; reflexivity|].
  split; [intros message testOutcome st; destruct testOutcome; split; reflexivity|].
  split; [intros; split; reflexivity|].
  split.
  { intros trainRows0 testRows0 st r. split; [reflexivity|].
    apply (loadAndMergeDatasets_resolved trainRows0 testRows0 st). }
  split; [reflexivity|].
  split; [intros trainFile g; destruct trainFile; reflexivity|].
  split; [reflexivity|].
  split; [intros; repeat split; reflexivity|].
  intros; split; reflexivity.
Qed.

(** A rejected test parse in the earlier variant: the run ends with the
    error, nothing is merged, and [trainData] no longer holds what it held
    before. *)
Example rejected_test_parse_keeps_the_merged_rows :
  let r := Legacy.loadAndMergeData
             (Some {| Legacy.data := [[("Age", JNum 26)]];
                      Legacy.errors := [] |})
             (Some {| Legacy.data := [];
                      Legacy.errors := ["Too few fields"] |})
             scenarioGlobals in
  snd r = ("Error parsing test.csv: Too few fields", Legacy.error)
  /\ Legacy.mergedData (fst r) = Legacy.mergedData scenarioGlobals
  /\ Legacy.trainData (fst r)
     = [[("Age", JNum 26); ("source", JStr "train")]]
  /\ Legacy.trainData (fst r) <> Legacy.trainData scenarioGlobals.
Proof. vm_compute. repeat split; try reflexivity. discriminate. Qed.

(** ** Column type inference *)

Lemma fold_obj_set_get {V : Type} (f : string -> V) cols :
  forall (acc : JsObject V) c,
    obj_get (fold_left (fun o col => obj_set o col (f col)) cols acc) c =
    if in_dec string_dec c cols then Some (f c) else obj_get acc c.
Proof.
  induction cols as [|c0 cols IH]; intros acc c; simpl.
  - reflexivity.
  - rewrite IH. destruct (in_dec string_dec c cols) as [Hin|Hnin].
    + destruct (string_dec c0 c); reflexivity.
    + rewrite obj_get_set. destruct (string_dec c0 c) as [->|Hne].
      * now rewrite String.eqb_refl.
      * destruct (String.eqb c c0) eqn:E; auto.
        apply String.eqb_eq in E. congruence.
Qed.

Lemma scanSample_spec column sample :
  forall n,
    let vs := filter (fun v => negb (absent v))
                (map (fun row => prop row column) sample) in
    fst (scanSample column sample n)
    = negb (existsb (fun v => negb (is_number v)) vs)
    /\ (fst (scanSample column sample n) = true ->
        snd (scanSample column sample n) = n + List.length vs).
Proof.
  induction sample as [|row sample IH]; intros n; simpl.
  - split; auto.
  - fold (absent (prop row column)).
    destruct (absent (prop row column)) eqn:Ea; simpl.
    + apply IH.
    + destruct (is_number (prop row column)) eqn:En; simpl.
      * destruct (IH (S n)) as [H1 H2]. split; auto.
        intros H. rewrite (H2 H). lia.
      * split; [reflexivity | discriminate].
Qed.

Lemma columnTypeOf_inferKind column sample :
  columnTypeOf column sample =
  if String.eqb column "source" then categorical
  else inferKind (map (fun row => prop row column) sample).
Proof.
  unfold columnTypeOf, inferKind.
  destruct (String.eqb column "source"); auto.
  destruct (scanSample_spec column sample 0) as [H1 H2].
  destruct (scanSample column sample 0) as [isNumeric numericCount].
  simpl in H1, H2.
  set (vs := filter (fun v => negb (absent v))
               (map (fun row => prop row column) sample)) in *.
  destruct (existsb (fun v => negb (is_number v)) vs) eqn:Ex;
    simpl in H1; subst isNumeric; simpl; auto.
  rewrite (H2 eq_refl).
  assert (Hall : forall v, In v vs -> is_number v = true).
  { intros v Hv. destruct (is_number v) eqn:E; auto.
    assert (existsb (fun v => negb (is_number v)) vs = true)
      by (apply existsb_exists; exists v; rewrite E; auto).
    congruence. }
  destruct vs as [|v vs']; simpl; auto.
  rewrite (Hall v) by now left. reflexivity.
Qed.

Lemma firstn_min_length {A : Type} (l : list A) n :
  firstn (Nat.min n (List.length l)) l = firstn n l.
Proof.
  destruct (Nat.le_ge_cases n (List.length l)) as [H|H].
  - now rewrite Nat.min_l.
  - rewrite Nat.min_r by auto. rewrite firstn_all.
    symmetry. now apply firstn_all2.
Qed.

Lemma determineColumnTypes_types st :
  merged st <> [] ->
  columnTypes (determineColumnTypes st) =
  fold_left
    (fun types column =>
       obj_set types column (columnTypeOf column (firstn 100 (merged st))))
    (columns st) [].
Proof.
  intros Hne. unfold determineColumnTypes.
  rewrite firstn_min_length.
  destruct (merged st); [contradiction | reflexivity].
Qed.

(** C6.  Type inference is a function of the first [min(100, rowCount)] rows
    in dataset order: for every column the inferred type is [inferKind] of
    the column's values in that sample (absent values skipped, any present
    non-number gives categorical, at least one present number and nothing
    else gives numeric, no present value gives categorical), [source] is
    categorical whatever its values, and two datasets with the same columns
    and the same first 100 rows get the same types. *)
Theorem column_types_inferred_from_first_100_rows
  (st st2 : TitanicData) (row0 : Row) (rest : list Row) :
  merged st = row0 :: rest ->
  columns st2 = columns st ->
  firstn 100 (merged st2) = firstn 100 (merged st) ->
  let sample := firstn (Nat.min 100 (List.length (merged st))) (merged st) in
  Forall
    (fun column =>
       obj_get (columnTypes (determineColumnTypes st)) column
       = Some (if String.eqb column "source" then categorical
               else inferKind (map (fun row => prop row column) sample)))
    (columns st)
  /\ columnTypes (determineColumnTypes st2)
     = columnTypes (determineColumnTypes st).
Proof.
  intros Hm Hc Hs sample.
  assert (Hne : merged st <> []) by (rewrite Hm; discriminate).
  assert (Hne2 : merged st2 <> []).
  { intros E. rewrite E, Hm in Hs. discriminate. }
  subst sample. rewrite firstn_min_length.
  rewrite !determineColumnTypes_types by assumption.
  split.
  - apply Forall_forall. intros column Hin.
    rewrite fold_obj_set_get.
    destruct (in_dec string_dec column (columns st)); [|contradiction].
    now rewrite columnTypeOf_inferKind.
  - now rewrite Hs, Hc.
Qed.


Lemma column_types_inferred_witness :
  merged scenarioData
  = [("PassengerId", JNum 1); ("Sex", JStr "male"); ("Age", JNum 22);
     ("Survived", JNum 0); ("source", JStr "train")]
    :: skipn 1 (merged scenarioData)
  /\ columns scenarioData = columns scenarioData
  /\ firstn 100 (merged scenarioData) = firstn 100 (merged scenarioData)
  /\ (Forall
        (fun column =>
           obj_get (columnTypes (determineColumnTypes scenarioData)) column
           = Some (if String.eqb column "source" then categorical
                   else inferKind
                          (map (fun row => prop row column)
                             (firstn
                                (Nat.min 100
                                   (List.length (merged scenarioData)))
                                (merged scenarioData)))))
        (columns scenarioData)
      /\ columnTypes (determineColumnTypes scenarioData)
         = columnTypes (determineColumnTypes scenarioData)).
Proof.
  split; [reflexivity|]. split; [reflexivity|]. split; [reflexivity|].
  apply (column_types_inferred_from_first_100_rows scenarioData scenarioData
           [("PassengerId", JNum 1); ("Sex", JStr "male"); ("Age", JNum 22);
            ("Survived", JNum 0); ("source", JStr "train")]
           (skipn 1 (merged scenarioData)));
    reflexivity.
Defined.

(** The inferred types of the sample data. *)
Example scenario_column_types :
  columnTypes scenarioData
  = [("PassengerId", numeric); ("Sex", categorical); ("Age", numeric);
     ("Survived", numeric); ("source", categorical)].
Proof. reflexivity. Qed.

(** ** Missing values *)

Lemma missingCountOf_absentCount rows column :
  missingCountOf rows column = absentCount rows column.
Proof.
  unfold missingCountOf.
  induction rows as [|row rows IH]; simpl; auto.
  change (isMissing (prop row column)) with (missingValue (prop row column)).
  destruct (missingValue (prop row column)); simpl; now rewrite IH.
Qed.

Lemma absentCount_le rows column : absentCount rows column <= List.length rows.
Proof.
  induction rows as [|row rows IH]; simpl; auto.
  destruct (missingValue (prop row column)); simpl; lia.
Qed.

Lemma fold_obj_set_skip_get {V : Type} (skip : string -> bool)
  (f : string -> V) cols :
  forall (acc : JsObject V) c,
    obj_get
      (fold_left (fun o col => if skip col then o else obj_set o col (f col))
         cols acc) c =
    if in_dec string_dec c cols
    then (if skip c then obj_get acc c else Some (f c))
    else obj_get acc c.
Proof.
  induction cols as [|c0 cols IH]; intros acc c; simpl.
  - reflexivity.
  - rewrite IH. destruct (string_dec c0 c) as [->|Hne].
    + destruct (skip c) eqn:Es.
      * destruct (in_dec string_dec c cols); reflexivity.
      * rewrite obj_get_set_same.
        destruct (in_dec string_dec c cols); reflexivity.
    + assert (Hg : obj_get (if skip c0 then acc else obj_set acc c0 (f c0)) c
                   = obj_get acc c).
      { destruct (skip c0); auto. now apply obj_get_set_other. }
      rewrite Hg. destruct (in_dec string_dec c cols); reflexivity.
Qed.

Lemma missingInfoOf_spec rows column :
  missingInfoOf rows column =
  {| mv_count := absentCount rows column;
     mv_percentage :=
       toFixed (percentOf (absentCount rows column) (List.length rows)) 2 |}.
Proof.
  unfold missingInfoOf, percentOf. now rewrite missingCountOf_absentCount.
Qed.

(** C7.  For every column that is not excluded, the missing-value report
    holds the number of rows of the whole merged dataset whose value at the
    column is absent ([null], [undefined], the empty string or a NaN number),
    and the percentage [100 * count / totalRows] over the full row count
    (evaluated in binary64 as [count / totalRows * 100]; the later variant
    stores it rounded to two decimals); so [0 <= count <= totalRows].  The
    earlier variant excludes no column and reports every column of the first
    row. *)
Theorem missing_report_counts_absent_rows
  (st : TitanicData) (g : Legacy.Globals) :
  let total := List.length (merged st) in
  let report := missingValues (calculateMissingValues st) in
  Forall
    (fun column =>
       if includes EXCLUDED_COLUMNS column
       then obj_get report column = None
       else obj_get report column
            = Some {| mv_count := absentCount (merged st) column;
                      mv_percentage :=
                        toFixed
                          (percentOf (absentCount (merged st) column) total)
                          2 |}
            /\ 0 <= absentCount (merged st) column <= total)
    (columns st)
  /\ Forall
       (fun entry =>
          Legacy.missingCount entry
          = absentCount (Legacy.mergedData g) (Legacy.column entry)
          /\ Legacy.missingPercent entry
             = percentOf (Legacy.missingCount entry)
                 (List.length (Legacy.mergedData g))
          /\ 0 <= Legacy.missingCount entry
             <= List.length (Legacy.mergedData g))
       (Legacy.analyzeMissingValues g)
  /\ Permutation
       (map Legacy.column (Legacy.analyzeMissingValues g))
       (match Legacy.mergedData g with
        | [] => []
        | row0 :: _ => Object_keys row0
        end).
Proof.
  intros total report. split; [|split].
  - apply Forall_forall. intros column Hin.
    subst report. unfold calculateMissingValues. simpl missingValues.
    rewrite (fold_obj_set_skip_get (includes EXCLUDED_COLUMNS)
               (missingInfoOf (merged st))).
    destruct (in_dec string_dec column (columns st)); [|contradiction].
    destruct (includes EXCLUDED_COLUMNS column); [reflexivity|].
    rewrite missingInfoOf_spec. split; [reflexivity|].
    split; [lia | apply absentCount_le].
  - unfold Legacy.analyzeMissingValues.
    destruct (Legacy.mergedData g) as [|row0 rest] eqn:E; [constructor|].
    apply Array_sort_Forall. apply Forall_forall. intros entry Hin.
    apply in_map_iff in Hin. destruct Hin as [col [<- _]].
    unfold Legacy.missingEntryOf, percentOf. simpl.
    rewrite missingCountOf_absentCount. repeat split; try lia.
    apply (absentCount_le (row0 :: rest)).
  - unfold Legacy.analyzeMissingValues.
    destruct (Legacy.mergedData g) as [|row0 rest] eqn:E; [constructor|].
    rewrite (Permutation_map Legacy.column
               (Array_sort_perm Legacy.byPercentDescending _)).
    rewrite map_map. simpl. now rewrite map_id.
Qed.

(** The report of the sample data: [Survived] is missing in the one test
    row out of three. *)
Example scenario_missing_report :
  missingValues (calculateMissingValues scenarioData)
  = [("Sex", {| mv_count := 0; mv_percentage := "0.00" |});
     ("Age", {| mv_count := 0; mv_percentage := "0.00" |});
     ("Survived", {| mv_count := 1; mv_percentage := "33.33" |});
     ("source", {| mv_count := 0; mv_percentage := "0.00" |})].
Proof. vm_compute. reflexivity. Qed.

(** ** Numeric summaries *)

Lemma numericValuesOf_valid values :
  Forall (fun x => isNaN x = false) (numericValuesOf values).
Proof.
  unfold numericValuesOf. apply Forall_forall. intros x Hin.
  apply in_flat_map in Hin. destruct Hin as [v [_ Hin]].
  destruct v as [| | |y|]; simpl in Hin; try contradiction.
  destruct (isNaN y) eqn:E; simpl in Hin; [contradiction|].
  destruct Hin as [<-|[]]. exact E.
Qed.

(** Sorting valid Numbers with [(a, b) => a - b] puts them in ascending
    order. *)
Lemma sort_ascending_sorted xs :
  Forall (fun x => isNaN x = false) xs ->
  Sorted ascendingOrder (Array_sort ascending xs).
Proof.
  apply (Array_sort_sorted ascending ascendingOrder
           (fun x => isNaN x = false)).
  - intros x y Hx Hy. now apply ascending_false_leb.
  - intros x y Hx Hy. now apply ascending_true_leb.
Qed.

Lemma nearestRank_In num den sorted :
  num < den -> sorted <> [] -> In (nearestRank num den sorted) sorted.
Proof.
  intros Hlt Hne. unfold nearestRank. apply nth_In.
  assert (0 < List.length sorted) by (destruct sorted; simpl; [congruence|lia]).
  apply Nat.Div0.div_lt_upper_bound. nia.
Qed.

Lemma statsForColumn_numeric rows column :
  statsForColumn rows (Some numeric) column =
  match numericValuesOf (columnValues rows column) with
  | [] => Omitted
  | _ :: _ =>
      Emitted
        (NumericSummary
           (numericStatsOf (List.length rows)
              (numericValuesOf (columnValues rows column))
              (match rows with
               | row0 :: _ =>
                   if negb (String.eqb column TARGET_COLUMN)
                      && targetAvailable row0
                   then Some (groupedMeans rows column) else None
               | [] => None
               end)))
  end.
Proof.
  unfold statsForColumn. simpl is_numeric_type. cbv iota.
  destruct (numericValuesOf (columnValues rows column)); reflexivity.
Qed.

Lemma statsForColumn_not_raised row0 rest columnType column s message :
  statsForColumn (row0 :: rest) columnType column <> Raised s message.
Proof.
  unfold statsForColumn.
  destruct (is_numeric_type columnType).
  - destruct (Nat.ltb 0 _); discriminate.
  - destruct (String.eqb column TARGET_COLUMN); discriminate.
Qed.

(** A column for which nothing is stored leaves the map as it was. *)
Lemma summarizeColumns_omitted rows types column :
  statsForColumn rows (obj_get types column) column = Omitted ->
  forall cols acc,
    obj_get (fst (summarizeColumns rows types cols acc)) column
    = obj_get acc column.
Proof.
  intros Hom. induction cols as [|c cols IH]; intros acc; simpl; auto.
  destruct (string_dec c column) as [->|Hne].
  - rewrite Hom. apply IH.
  - destruct (statsForColumn rows (obj_get types c) c); simpl.
    + rewrite IH. now apply obj_get_set_other.
    + apply IH.
    + now apply obj_get_set_other.
Qed.

(** Without a failure, a listed column with a summary has it stored. *)
Lemma summarizeColumns_emitted row0 rest types column s :
  statsForColumn (row0 :: rest) (obj_get types column) column = Emitted s ->
  forall cols acc,
    In column cols ->
    obj_get (fst (summarizeColumns (row0 :: rest) types cols acc)) column
    = Some s.
Proof.
  intros Hem.
  assert (Hkeep : forall cols acc,
             obj_get acc column = Some s ->
             obj_get (fst (summarizeColumns (row0 :: rest) types cols acc))
               column = Some s).
  { induction cols as [|c cols IH]; intros acc Hacc; simpl; auto.
    destruct (statsForColumn (row0 :: rest) (obj_get types c) c) eqn:E.
    - apply IH. rewrite obj_get_set.
      destruct (String.eqb column c) eqn:Ec; auto.
      apply String.eqb_eq in Ec. subst c. congruence.
    - now apply IH.
    - exfalso. eapply statsForColumn_not_raised; eauto. }
  induction cols as [|c cols IH]; intros acc Hin; simpl; [contradiction|].
  destruct Hin as [->|Hin].
  - rewrite Hem. apply Hkeep. apply obj_get_set_same.
  - destruct (statsForColumn (row0 :: rest) (obj_get types c) c) eqn:E.
    + now apply IH.
    + now apply IH.
    + exfalso. eapply statsForColumn_not_raised; eauto.
Qed.

Lemma summarizeColumns_no_failure row0 rest types cols :
  forall acc, snd (summarizeColumns (row0 :: rest) types cols acc) = None.
Proof.
  induction cols as [|c cols IH]; intros acc; simpl; auto.
  destruct (statsForColumn (row0 :: rest) (obj_get types c) c) eqn:E; auto.
  exfalso. eapply statsForColumn_not_raised; eauto.
Qed.




(** The numeric summary of [Age] in the sample data. *)
Example scenario_age_summary :
  statsForColumn (merged scenarioData) (Some numeric) "Age"
  = Emitted
      (NumericSummary
         {| num_count := 3; num_missing := 0;
            num_mean := "28.67"; num_median := "26.00"; num_stdDev := "6.80";
            num_min := "22.00"; num_max := "38.00";
            num_q1 := "22.00"; num_q3 := "38.00";
            num_groupedBySurvived :=
              Some {| survivedMean := "38.00"; notSurvivedMean := "22.00";
                      difference := "16.00" |} |}).
Proof. vm_compute. reflexivity. Qed.




(** A numeric column whose values are all absent or NaN is left out. *)
Example all_NaN_column_is_omitted :
  statsForColumn
    [[("Age", JNum PrimFloat.nan); ("source", JStr "train")];
     [("Age", JNull); ("source", JStr "test")]]
    (Some numeric) "Age" = Omitted.
Proof. vm_compute. reflexivity. Qed.

(** ** Categorical summaries *)

Section SortStability.
Context {A : Type} (gt : A -> A -> bool) (p : A -> bool).
Hypothesis same_class :
  forall x y, p x = true -> p y = true -> gt x y = false.


End SortStability.



Lemma countsOf_keys keys :
  forall acc,
    map fst (fold_left countStep keys acc) = firstSeenFrom (map fst acc) keys.
Proof.
  induction keys as [|k keys IH]; intros acc; simpl; auto.
  rewrite IH. unfold countStep. now rewrite obj_set_keys.
Qed.

Lemma countsOf_count keys :
  forall acc k,
    match obj_get (fold_left countStep keys acc) k with
    | Some c => c | None => 0
    end
    = match obj_get acc k with Some c => c | None => 0 end
      + occurrences keys k.
Proof.
  unfold occurrences.
  induction keys as [|k0 keys IH]; intros acc k; simpl; [lia|].
  rewrite IH. unfold countStep. rewrite obj_get_set.
  destruct (string_dec k0 k) as [->|Hne].
  - rewrite String.eqb_refl. lia.
  - destruct (String.eqb k k0) eqn:E; [|reflexivity].
    apply String.eqb_eq in E. congruence.
Qed.

Lemma firstSeenFrom_In keys :
  forall seen k, In k (firstSeenFrom seen keys) <-> In k seen \/ In k keys.
Proof.
  induction keys as [|k0 keys IH]; intros seen k; simpl.
  - tauto.
  - rewrite IH. destruct (in_dec string_dec k0 seen) as [Hin|Hnin].
    + split; [tauto|]. intros [?|[<-|?]]; auto.
    + rewrite in_app_iff. simpl. tauto.
Qed.

Lemma countsOf_get keys k :
  In k keys -> obj_get (countsOf keys) k = Some (occurrences keys k).
Proof.
  intros Hin.
  pose proof (countsOf_count keys [] k) as Hc.
  pose proof (countsOf_keys keys []) as Hk.
  change (fold_left countStep keys []) with (countsOf keys) in Hc, Hk.
  destruct (obj_get (countsOf keys) k) as [c|] eqn:E.
  - simpl in Hc. now subst c.
  - apply obj_get_None_iff in E. exfalso. apply E.
    rewrite Hk. apply firstSeenFrom_In. now right.
Qed.

Lemma Object_keys_enumerationOrder {V : Type} (o : JsObject V) :
  Object_keys o = enumerationOrder (map fst o).
Proof. reflexivity. Qed.

Lemma enumerationOrder_In ks k : In k (enumerationOrder ks) <-> In k ks.
Proof.
  unfold enumerationOrder. rewrite in_app_iff, index_keys_In, filter_In.
  destruct (is_array_index k); simpl; intuition congruence.
Qed.

(** [Object.entries] of the counts: every distinct key with its number of
    occurrences, in the enumeration order of the keys created in
    first-encountered order. *)
Lemma countsOf_entries keys :
  Object_entries (countsOf keys)
  = map (fun k => (k, occurrences keys k)) (enumerationOrder (firstSeen keys)).
Proof.
  unfold Object_entries. rewrite Object_keys_enumerationOrder.
  pose proof (countsOf_keys keys []) as Hk.
  change (fold_left countStep keys []) with (countsOf keys) in Hk.
  rewrite Hk. fold (firstSeen keys).
  assert (H : forall ks, (forall k, In k ks -> In k keys) ->
            flat_map (fun k => match obj_get (countsOf keys) k with
                               | Some v => [(k, v)] | None => [] end) ks
            = map (fun k => (k, occurrences keys k)) ks).
  { induction ks as [|k ks IH]; intros Hks; simpl; auto.
    rewrite countsOf_get by (apply Hks; now left).
    simpl. f_equal. apply IH. intros; apply Hks; now right. }
  apply H. intros k Hin. rewrite enumerationOrder_In in Hin.
  unfold firstSeen in Hin. rewrite firstSeenFrom_In in Hin.
  destruct Hin as [[]|]; assumption.
Qed.

(** *** The tally object of the code and the counts *)

Lemma obj_get_countedObject counts k :
  obj_get (countedObject counts) k = option_map Count (obj_get counts k).
Proof.
  unfold countedObject.
  induction counts as [|[k' c] counts IH]; [reflexivity|].
  cbn [map counted fst snd obj_get].
  destruct (String.eqb k' k); [reflexivity|exact IH].
Qed.

Lemma obj_set_countedObject counts k c :
  obj_set (countedObject counts) k (Count c)
  = countedObject (obj_set counts k c).
Proof.
  unfold countedObject.
  induction counts as [|[k' c'] counts IH]; [reflexivity|].
  cbn [map counted fst snd obj_set].
  destruct (String.eqb k' k); [reflexivity|]. cbn [map counted fst snd].
  now rewrite IH.
Qed.

Lemma Object_prototype_plain key :
  namesBuiltIn key = false -> isProto key = false ->
  Object_prototype key = None.
Proof.
  unfold namesBuiltIn, isProto, Object_prototype. intros Hb Hp. rewrite Hp in *.
  destruct (String.eqb key "constructor"); [discriminate|].
  destruct (existsb _ _); [discriminate|reflexivity].
Qed.

Lemma isProto_prototype key :
  isProto key = true -> Object_prototype key = Some Prototype.
Proof. unfold isProto, Object_prototype. now intros ->. Qed.

(** On a key that names nothing inherited the code's step is the counting
    step, and [__proto__] leaves the tally as it is. *)
Lemma tallyStep_counted counts key :
  namesBuiltIn key = false -> isProto key = false ->
  tallyStep (countedObject counts) key = countedObject (countStep counts key).
Proof.
  intros Hb Hp. unfold tallyStep, obj_read, countStep.
  rewrite obj_get_countedObject, (Object_prototype_plain key Hb Hp).
  destruct (obj_get counts key) as [c|]; cbn [option_map];
    apply obj_set_countedObject.
Qed.

Lemma tallyStep_proto counts key :
  isProto key = true -> obj_get counts key = None ->
  tallyStep (countedObject counts) key = countedObject counts.
Proof.
  intros Hp Hn. unfold tallyStep, obj_read.
  rewrite obj_get_countedObject, Hn, (isProto_prototype key Hp).
  reflexivity.
Qed.

Lemma tally_counted keys :
  forallb (fun k => negb (namesBuiltIn k)) keys = true ->
  forall counts,
    obj_get counts "__proto__" = None ->
    fold_left tallyStep keys (countedObject counts)
    = countedObject (fold_left countStep (talliedKeys keys) counts).
Proof.
  induction keys as [|k keys IH]; intros Hk counts Hn; [reflexivity|].
  cbn [forallb] in Hk. apply andb_prop in Hk. destruct Hk as [Hb Hk].
  apply negb_true_iff in Hb.
  cbn [fold_left talliedKeys filter].
  destruct (isProto k) eqn:Hp; cbn [negb].
  - assert (Ek : k = "__proto__") by now apply String.eqb_eq.
    subst k. rewrite tallyStep_proto by assumption.
    now apply IH.
  - rewrite tallyStep_counted by assumption. cbn [fold_left].
    apply IH; [exact Hk|].
    unfold countStep. rewrite obj_get_set_other; [exact Hn|].
    intros E. subst k. discriminate.
Qed.

Lemma forallb_mapped {A B : Type} (p : B -> bool) (f : A -> B) l :
  forallb p (map f l) = forallb (fun x => p (f x)) l.
Proof. induction l as [|x l IH]; simpl; [reflexivity|]. now rewrite IH. Qed.

Lemma tally_countsOf keys :
  forallb (fun k => negb (namesBuiltIn k)) keys = true ->
  tally keys = countedObject (countsOf (talliedKeys keys)).
Proof.
  intros Hk. exact (tally_counted keys Hk [] eq_refl).
Qed.

Lemma Object_keys_countedObject counts :
  Object_keys (countedObject counts) = Object_keys counts.
Proof.
  unfold Object_keys, countedObject. rewrite map_map.
  now rewrite (map_ext (fun x => fst (counted x)) fst) by reflexivity.
Qed.

Lemma Object_entries_countedObject counts :
  Object_entries (countedObject counts) = map counted (Object_entries counts).
Proof.
  unfold Object_entries. rewrite Object_keys_countedObject.
  induction (Object_keys counts) as [|k ks IH]; [reflexivity|].
  cbn [flat_map]. rewrite map_app, IH, obj_get_countedObject.
  destruct (obj_get counts k); reflexivity.
Qed.

Lemma Array_sort_map {A B : Type} (gt : A -> A -> bool) (gt' : B -> B -> bool)
  (f : A -> B) :
  (forall x y, gt' (f x) (f y) = gt x y) ->
  forall l, Array_sort gt' (map f l) = map f (Array_sort gt l).
Proof.
  intros Hf.
  assert (Hi : forall x l,
             sort_insert gt' (f x) (map f l) = map f (sort_insert gt x l)).
  { intros x l. induction l as [|y l IH]; [reflexivity|].
    cbn [map sort_insert]. rewrite Hf.
    destruct (gt x y); cbn [map]; [now rewrite IH|reflexivity]. }
  induction l as [|x l IH]; [reflexivity|].
  cbn [map Array_sort]. now rewrite IH, Hi.
Qed.

(** The top values of a tally that holds counts only. *)
Lemma topValuesOf_counted counts :
  topValuesOf (countedObject counts)
  = map counted (firstn 10 (Array_sort smallerCount (Object_entries counts))).
Proof.
  unfold topValuesOf. rewrite Object_entries_countedObject.
  rewrite (Array_sort_map smallerCount byCountDescending counted)
    by reflexivity.
  apply firstn_map.
Qed.

(** What the engine stores for an analysed column that is not of numeric
    type. *)
Lemma categorical_summary_stored st column :
  merged st <> [] ->
  In column (columnsToAnalyze st) ->
  obj_get (columnTypes st) column <> Some numeric ->
  exists grouped,
    obj_get (stats (fst (calculateStatisticalSummaries st))) column
    = Some (CategoricalSummary
              (categoricalStatsOf (List.length (merged st))
                 (columnValues (merged st) column) grouped)).
Proof.
  intros Hne Hin Htype.
  destruct (merged st) as [|row0 rest] eqn:Em; [contradiction|].
  assert (Hcat : is_numeric_type (obj_get (columnTypes st) column) = false).
  { destruct (obj_get (columnTypes st) column) as [[|]|];
      [contradiction| |]; reflexivity. }
  assert (Hem : exists grouped,
             statsForColumn (row0 :: rest) (obj_get (columnTypes st) column)
               column
             = Emitted
                 (CategoricalSummary
                    (categoricalStatsOf (List.length (row0 :: rest))
                       (columnValues (row0 :: rest) column) grouped))).
  { unfold statsForColumn. rewrite Hcat.
    destruct (String.eqb column TARGET_COLUMN); eexists; reflexivity. }
  destruct Hem as [grouped Hem]. exists grouped.
  unfold calculateStatisticalSummaries. rewrite Em.
  destruct (summarizeColumns (row0 :: rest) (columnTypes st)
              (columnsToAnalyze st) []) as [ss raised] eqn:Es.
  cbn [fst stats set_stats].
  replace ss with (fst (summarizeColumns (row0 :: rest) (columnTypes st)
                          (columnsToAnalyze st) [])) by now rewrite Es.
  now apply summarizeColumns_emitted.
Qed.




Lemma index_keys_perm ks :
  Permutation (map snd (index_keys ks)) (filter is_array_index ks).
Proof.
  induction ks as [|k ks IH]; simpl; auto.
  unfold is_array_index at 1.
  destruct (array_index k) as [n|] eqn:E; auto.
  rewrite (Permutation_map snd (insert_index_perm n k (index_keys ks))).
  simpl. now constructor.
Qed.




(** Without array-index values the enumeration order is the
    first-encountered order, as in the sample data. *)
Example scenario_sex_top_values :
  exists s,
    obj_get (stats (fst (runFullEDA scenarioData))) "Sex"
    = Some (CategoricalSummary s)
    /\ cat_topValues s = [("male", Count 2); ("female", Count 1)]
    /\ cat_topValues s
       = map counted
           (specTopValues (columnValues (merged scenarioData) "Sex")).
Proof. eexists. split; [|split]; vm_compute; reflexivity. Qed.

(** A value that prints as [__proto__] is counted as present but gets no
    pair, and one that prints as the name of a function of
    [Object.prototype] gets a pair whose count is a text. *)
Example tally_of_inherited_names :
  tally ["__proto__"; "Smith"; "__proto__"] = [("Smith", Count 1)]
  /\ tally ["constructor"; "Smith"; "constructor"]
     = [("constructor", Text "function Object() { [native code] }11");
        ("Smith", Count 1)]
  /\ tally ["valueOf"]
     = [("valueOf", Text "function valueOf() { [native code] }1")].
Proof. repeat split; reflexivity. Qed.

Example summary_of_inherited_names :
  exists s,
    obj_get (stats (fst (runFullEDA protoNamesData))) "Name"
    = Some (CategoricalSummary s)
    /\ cat_count s = 3
    /\ cat_uniqueValues s = 1
    /\ cat_topValues s = [("Smith", Count 1)].
Proof. eexists. repeat split; vm_compute; reflexivity. Qed.

(** *** Grouped tallies *)

Lemma groupedStep_get column key counts row :
  Object_prototype key = None ->
  obj_get (groupedStep column counts row) key
  = if groupedRow column key row
    then let '(s, n) :=
           match obj_get counts key with Some c => c | None => (0, 0) end in
         Some (if labelIsOne row then (S s, n) else (s, S n))
    else obj_get counts key.
Proof.
  intros Hplain. unfold groupedStep, groupedRow, labelIsOne.
  destruct (negb (is_null (prop row column))
            && negb (is_undefined (prop row column))
            && negb (is_null (prop row TARGET_COLUMN))
            && negb (is_undefined (prop row TARGET_COLUMN)));
    cbn [andb]; [|reflexivity].
  unfold obj_read.
  destruct (String.eqb (String_of (prop row column)) key) eqn:Ek.
  - apply String.eqb_eq in Ek. rewrite Ek, Hplain.
    destruct (obj_get counts key) as [[s n]|];
      destruct (strict_eq_num (prop row TARGET_COLUMN) 1%float);
      now rewrite obj_get_set_same.
  - apply String.eqb_neq in Ek.
    destruct (obj_get counts (String_of (prop row column))) as [[s n]|];
      [|destruct (Object_prototype (String_of (prop row column)));
        [reflexivity|]];
      destruct (strict_eq_num (prop row TARGET_COLUMN) 1%float);
      now rewrite obj_get_set_other.
Qed.

(** A key that names an inherited property never gets an entry. *)
Lemma groupedStep_inherited column key counts row i :
  Object_prototype key = Some i ->
  obj_get counts key = None ->
  obj_get (groupedStep column counts row) key = None.
Proof.
  intros Hi Hn. unfold groupedStep.
  destruct (negb (is_null (prop row column))
            && negb (is_undefined (prop row column))
            && negb (is_null (prop row TARGET_COLUMN))
            && negb (is_undefined (prop row TARGET_COLUMN)));
    [|exact Hn].
  unfold obj_read.
  destruct (String.eqb (String_of (prop row column)) key) eqn:Ek.
  - apply String.eqb_eq in Ek. rewrite Ek, Hn, Hi. exact Hn.
  - apply String.eqb_neq in Ek.
    destruct (obj_get counts (String_of (prop row column))) as [[s n]|];
      [|destruct (Object_prototype (String_of (prop row column)));
        [exact Hn|]];
      destruct (strict_eq_num (prop row TARGET_COLUMN) 1%float);
      now rewrite obj_get_set_other.
Qed.

(** What the categorical grouping tallies for a value: nothing when the
    value prints as the name of an inherited property; otherwise the
    survivors are the considered rows whose label is the Number 1, and every
    other considered row, whatever its label, is counted as not survived. *)
Lemma groupedCounts_tallies trainData column key :
  let considered := filter (groupedRow column key) trainData in
  let survived := List.length (filter labelIsOne considered) in
  let notSurvived :=
    List.length (filter (fun row => negb (labelIsOne row)) considered) in
  obj_get (groupedCounts trainData column) key
  = match Object_prototype key, considered with
    | None, _ :: _ => Some (survived, notSurvived)
    | _, _ => None
    end.
Proof.
  unfold groupedCounts. cbv zeta.
  destruct (Object_prototype key) as [i|] eqn:Hkey.
  - assert (H : forall rows acc,
               obj_get acc key = None ->
               obj_get (fold_left (groupedStep column) rows acc) key = None).
    { induction rows as [|row rows IH]; intros acc Hn; [exact Hn|].
      cbn [fold_left]. apply IH.
      now apply (groupedStep_inherited column key acc row i). }
    now apply H.
  - assert (H : forall rows acc,
               obj_get (fold_left (groupedStep column) rows acc) key
               = match filter (groupedRow column key) rows with
                 | [] => obj_get acc key
                 | considered =>
                     let '(s, n) :=
                       match obj_get acc key with
                       | Some c => c | None => (0, 0)
                       end in
                     Some
                       (s + List.length (filter labelIsOne considered),
                        n + List.length
                              (filter (fun row => negb (labelIsOne row))
                                 considered))
                 end).
    { induction rows as [|row rows IH]; intros acc; [reflexivity|].
      cbn [fold_left filter].
      rewrite IH, (groupedStep_get column key acc row Hkey). clear IH.
      destruct (groupedRow column key row) eqn:Eg; [|reflexivity].
      destruct (obj_get acc key) as [[s n]|];
        destruct (filter (groupedRow column key) rows) as [|r rs];
        cbn [filter]; destruct (labelIsOne row); cbn [negb];
        cbn [List.length]; f_equal; f_equal; lia. }
    rewrite H.
    destruct (filter (groupedRow column key) trainData); reflexivity.
Qed.

(** C3.  A train row whose label is outside {0, 1} should be left out of the
    grouped tally; the categorical grouping of the later variant counts it as
    not survived instead: in [labelTwoData] the row ("male", label 2) gives
    "male" one non-survivor.  The numeric grouping of the same data does
    leave the row out (the mean of the non-survivors is taken over no
    value). *)
Theorem grouped_tally_counts_label_two_as_negative :
  groupedCounts (trainRows (merged labelTwoData)) "Sex"
  = [("male", (0, 1)); ("female", (1, 0))]
  /\ (exists s,
         obj_get (stats (fst (runFullEDA labelTwoData))) "Sex"
         = Some (CategoricalSummary s)
         /\ cat_groupedBySurvived s
            = Some [ {| sr_value := "female"; sr_survived := 1;
                        sr_notSurvived := 0; sr_survivalRate := "100.0" |};
                     {| sr_value := "male"; sr_survived := 0;
                        sr_notSurvived := 1; sr_survivalRate := "0.0" |} ])
  /\ (exists s,
         obj_get (stats (fst (runFullEDA labelTwoData))) "Age"
         = Some (NumericSummary s)
         /\ num_groupedBySurvived s
            = Some {| survivedMean := "40.00"; notSurvivedMean := "0.00";
                      difference := "40.00" |}).
Proof.
  split; [reflexivity|].
  split; eexists; split; vm_compute; reflexivity.
Qed.

(** ** Correlation matrix *)

Lemma fold_left_map_arg {A B C : Type} (f : A -> C -> A) (g : B -> C) l :
  forall a, fold_left f (map g l) a = fold_left (fun acc x => f acc (g x)) l a.
Proof. induction l as [|x l IH]; intros a; simpl; auto. Qed.

Lemma fold_left_pointwise {A B : Type} (f g : A -> B -> A) l :
  (forall a x, f a x = g a x) ->
  forall a, fold_left f l a = fold_left g l a.
Proof.
  intros H. induction l as [|x l IH]; intros a; simpl; auto.
  now rewrite H, IH.
Qed.

Lemma validPairs_swap trainData col1 col2 :
  validPairs trainData col2 col1 = map swap_pair (validPairs trainData col1 col2).
Proof.
  unfold validPairs. induction trainData as [|row rows IH]; simpl; auto.
  rewrite map_app, <- IH. f_equal.
  destruct (prop row col1) as [| | |x|], (prop row col2) as [| | |y|];
    try reflexivity.
  rewrite andb_comm. destruct (negb (isNaN x) && negb (isNaN y)); reflexivity.
Qed.

Lemma correlationOf_swap pairs :
  correlationOf (map swap_pair pairs) = correlationOf pairs.
Proof.
  unfold correlationOf. rewrite length_map.
  destruct (Nat.ltb 0 (List.length pairs)); [|reflexivity].
  rewrite !fold_left_map_arg. cbn [swap_pair fst snd].
  set (n := Number_of_nat (List.length pairs)).
  set (meanX := PrimFloat.div
                  (fold_left (fun sum p => PrimFloat.add sum (fst p)) pairs
                     0%float) n).
  set (meanY := PrimFloat.div
                  (fold_left (fun sum p => PrimFloat.add sum (snd p)) pairs
                     0%float) n).
  set (denomX := PrimFloat.sqrt
                   (fold_left
                      (fun sum p =>
                         PrimFloat.add sum
                           (Math_pow2 (PrimFloat.sub (fst p) meanX)))
                      pairs 0%float)).
  set (denomY := PrimFloat.sqrt
                   (fold_left
                      (fun sum p =>
                         PrimFloat.add sum
                           (Math_pow2 (PrimFloat.sub (snd p) meanY)))
                      pairs 0%float)).
  rewrite (float_mul_comm denomY denomX).
  rewrite (fold_left_pointwise
             (fun acc x =>
                PrimFloat.add acc
                  (PrimFloat.mul (PrimFloat.sub (snd x) meanY)
                                 (PrimFloat.sub (fst x) meanX)))
             (fun sum p =>
                PrimFloat.add sum
                  (PrimFloat.mul (PrimFloat.sub (fst p) meanX)
                                 (PrimFloat.sub (snd p) meanY))));
    [reflexivity|].
  intros a x. now rewrite float_mul_comm.
Qed.

Lemma correlationEntry_symmetric trainData cols i j :
  correlationEntry trainData cols i j = correlationEntry trainData cols j i.
Proof.
  unfold correlationEntry. rewrite (Nat.eqb_sym j i).
  destruct (Nat.eqb i j); [reflexivity|].
  now rewrite validPairs_swap, correlationOf_swap.
Qed.

Lemma matrix_entry (e : nat -> nat -> float) n i j :
  entry (map (fun i => map (fun j => e i j) (seq 0 n)) (seq 0 n)) i j
  = if Nat.ltb i n && Nat.ltb j n then e i j else 0%float.
Proof.
  unfold entry.
  assert (Hrow : forall (f : nat -> float) k,
             nth k (map f (seq 0 n)) 0%float
             = if Nat.ltb k n then f k else 0%float).
  { intros f k. destruct (Nat.ltb k n) eqn:E.
    - apply Nat.ltb_lt in E.
      rewrite (nth_indep _ 0%float (f 0)) by now rewrite length_map, length_seq.
      rewrite map_nth, seq_nth by assumption. reflexivity.
    - apply Nat.ltb_ge in E. apply nth_overflow.
      now rewrite length_map, length_seq. }
  set (f := fun i => map (fun j => e i j) (seq 0 n)).
  destruct (Nat.ltb i n) eqn:Ei; simpl.
  - apply Nat.ltb_lt in Ei.
    rewrite (nth_indep _ [] (f 0)) by now rewrite length_map, length_seq.
    rewrite (map_nth f), seq_nth by assumption. apply Hrow.
  - apply Nat.ltb_ge in Ei.
    rewrite (nth_overflow (map f (seq 0 n)))
      by now rewrite length_map, length_seq.
    now destruct j.
Qed.

(** C4, as stated, fails: an entry can leave [-1, 1] by far more than a
    rounding error.  For the perfectly correlated tiny values the squared
    deviations are rounded to whole units of the smallest subnormal and the
    entry is 4/3; for the huge values the sums overflow and the entry is
    NaN. *)
Lemma correlation_entry_outside_unit_interval :
  (exists M,
      correlations tinyValuesData = Some M
      /\ entry M 0 1 = 0x1.5555555555555p+0%float
      /\ PrimFloat.ltb 1.25%float (entry M 0 1) = true)
  /\ (exists M,
         correlations hugeValuesData = Some M
         /\ isNaN (entry M 0 1) = true
         /\ PrimFloat.leb (entry M 0 1) 1%float = false).
Proof.
  split; eexists; (split; [vm_compute; reflexivity|]);
    split; vm_compute; reflexivity.
Qed.

(** C4, amended.  Every correlation matrix is square over the chosen
    columns, every diagonal entry equals 1 exactly and the matrix is
    symmetric, [M[i][j] = M[j][i]] bit for bit.  An off-diagonal entry is the
    binary64 value the code computes for the two columns (0 without a valid
    pair or with a zero denominator, else numerator over denominator); it is
    not clamped to [-1, 1]. *)
Theorem correlation_matrix_diagonal_and_symmetry
  (st : TitanicData) (M : list (list float)) :
  correlations st = Some M ->
  let cols := numericColumns st in
  let n := List.length cols in
  List.length M = n
  /\ Forall (fun row => List.length row = n) M
  /\ Forall (fun i => entry M i i = 1%float) (seq 0 n)
  /\ (forall i j, entry M i j = entry M j i)
  /\ Forall
       (fun i =>
          Forall
            (fun j =>
               entry M i j
               = if Nat.eqb i j then 1%float
                 else correlationOf
                        (validPairs (trainRows (merged st))
                           (nth i cols "") (nth j cols "")))
            (seq 0 n))
       (seq 0 n).
Proof.
  intros HM cols n. unfold correlations in HM. fold cols in HM. fold n in HM.
  destruct (Nat.ltb n 2); [discriminate|].
  inversion HM as [HM']. clear HM. unfold correlationsOver. fold n.
  set (e := correlationEntry (trainRows (merged st)) cols).
  split; [now rewrite length_map, length_seq|].
  split.
  { apply Forall_forall. intros row Hin. apply in_map_iff in Hin.
    destruct Hin as [i [<- _]]. now rewrite length_map, length_seq. }
  split.
  { apply Forall_forall. intros i Hin. apply in_seq in Hin.
    rewrite (matrix_entry e).
    assert (Hi : Nat.ltb i n = true) by (apply Nat.ltb_lt; lia).
    rewrite Hi. simpl. subst e. unfold correlationEntry.
    now rewrite Nat.eqb_refl. }
  split.
  { intros i j. rewrite !(matrix_entry e), andb_comm.
    destruct (Nat.ltb j n && Nat.ltb i n); [|reflexivity].
    apply correlationEntry_symmetric. }
  apply Forall_forall. intros i Hi. apply Forall_forall. intros j Hj.
  apply in_seq in Hi, Hj. rewrite (matrix_entry e).
  assert (Hi' : Nat.ltb i n = true) by (apply Nat.ltb_lt; lia).
  assert (Hj' : Nat.ltb j n = true) by (apply Nat.ltb_lt; lia).
  rewrite Hi', Hj'. reflexivity.
Qed.

Lemma correlation_matrix_witness :
  correlations scenarioData
  = Some [[1%float; 0x1.ffffffffffffep-1%float];
          [0x1.ffffffffffffep-1%float; 1%float]]
  /\ (List.length [[1%float; 0x1.ffffffffffffep-1%float];
                   [0x1.ffffffffffffep-1%float; 1%float]]
      = List.length (numericColumns scenarioData)
      /\ Forall
           (fun row => List.length row
                       = List.length (numericColumns scenarioData))
           [[1%float; 0x1.ffffffffffffep-1%float];
            [0x1.ffffffffffffep-1%float; 1%float]]
      /\ Forall
           (fun i =>
              entry [[1%float; 0x1.ffffffffffffep-1%float];
                     [0x1.ffffffffffffep-1%float; 1%float]] i i = 1%float)
           (seq 0 (List.length (numericColumns scenarioData)))
      /\ (forall i j,
             entry [[1%float; 0x1.ffffffffffffep-1%float];
                    [0x1.ffffffffffffep-1%float; 1%float]] i j
             = entry [[1%float; 0x1.ffffffffffffep-1%float];
                      [0x1.ffffffffffffep-1%float; 1%float]] j i)
      /\ Forall
           (fun i =>
              Forall
                (fun j =>
                   entry [[1%float; 0x1.ffffffffffffep-1%float];
                          [0x1.ffffffffffffep-1%float; 1%float]] i j
                   = if Nat.eqb i j then 1%float
                     else correlationOf
                            (validPairs (trainRows (merged scenarioData))
                               (nth i (numericColumns scenarioData) "")
                               (nth j (numericColumns scenarioData) "")))
                (seq 0 (List.length (numericColumns scenarioData))))
           (seq 0 (List.length (numericColumns scenarioData)))).
Proof.
  assert (H : correlations scenarioData
              = Some [[1%float; 0x1.ffffffffffffep-1%float];
                      [0x1.ffffffffffffep-1%float; 1%float]])
    by (vm_compute; reflexivity).
  split; [exact H|].
  exact (correlation_matrix_diagonal_and_symmetry scenarioData _ H).
Defined.

(** ** The earlier variant: statistics and correlation *)

Lemma Legacy_numericStats_get trainingData col :
  In col Legacy.numericColumns ->
  obj_get (Legacy.numericStatsOf trainingData) col
  = match Legacy.valuesOf trainingData col with
    | [] => None
    | _ :: _ =>
        Some (Legacy.numericStatOf (List.length trainingData)
                (Legacy.valuesOf trainingData col))
    end.
Proof.
  intros Hin. unfold Legacy.numericStatsOf.
  rewrite (fold_left_pointwise _
             (fun o c =>
                if negb (Nat.ltb 0 (List.length (Legacy.valuesOf trainingData c)))
                then o
                else obj_set o c
                       (Legacy.numericStatOf (List.length trainingData)
                          (Legacy.valuesOf trainingData c)))).
  - rewrite (fold_obj_set_skip_get
               (fun c => negb (Nat.ltb 0
                                 (List.length (Legacy.valuesOf trainingData c))))
               (fun c => Legacy.numericStatOf (List.length trainingData)
                           (Legacy.valuesOf trainingData c))).
    destruct (in_dec string_dec col Legacy.numericColumns); [|contradiction].
    destruct (Legacy.valuesOf trainingData col); reflexivity.
  - intros o c.
    destruct (Nat.ltb 0 (List.length (Legacy.valuesOf trainingData c)));
      reflexivity.
Qed.

(** The earlier variant agrees on the points of C5 and C8 it has: a numeric
    column without a valid value (not [null], not [undefined], not NaN once
    converted to a Number) gets no entry; otherwise the entry's standard
    deviation divides by the number of values and its median is the element
    at index [floor(n / 2)] of the values sorted ascending. *)
Lemma Legacy_numeric_stats trainingData col :
  In col Legacy.numericColumns ->
  let values := Legacy.valuesOf trainingData col in
  let sorted := Array_sort ascending_values values in
  match values with
  | [] => obj_get (Legacy.numericStatsOf trainingData) col = None
  | _ :: _ =>
      exists stat,
        obj_get (Legacy.numericStatsOf trainingData) col = Some stat
        /\ Legacy.count stat = List.length values
        /\ Legacy.median stat = nth (List.length sorted / 2) sorted JUndefined
        /\ Legacy.stdDev stat
           = PrimFloat.sqrt
               (PrimFloat.div
                  (fold_left
                     (fun sq n =>
                        PrimFloat.add sq
                          (Math_pow2
                             (PrimFloat.sub (ToNumber n) (Legacy.mean stat))))
                     values 0%float)
                  (Number_of_nat (List.length values)))
  end
  /\ Permutation sorted values
  /\ Sorted ascendingValues sorted.
Proof.
  intros Hin values sorted. split; [|split].
  - rewrite (Legacy_numericStats_get trainingData col Hin). fold values.
    destruct values as [|v vs]; [reflexivity|].
    eexists. repeat split; reflexivity.
  - apply Array_sort_perm.
  - apply (Array_sort_sorted ascending_values ascendingValues
             (fun v => isNaN (ToNumber v) = false)).
    + intros x y Hx Hy H. now apply ascending_false_leb.
    + intros x y Hx Hy H. now apply ascending_true_leb.
    + apply Forall_forall. intros v Hv. subst values.
      unfold Legacy.valuesOf in Hv. apply filter_In in Hv.
      destruct Hv as [_ Hv]. unfold Legacy.validValue in Hv.
      apply andb_prop in Hv. destruct Hv as [_ Hv].
      now apply negb_true_iff in Hv.
Qed.

Lemma Legacy_pairsOf_swap rows col1 col2 :
  Legacy.pairsOf rows col2 col1 = map swap_pair (Legacy.pairsOf rows col1 col2).
Proof.
  unfold Legacy.pairsOf. rewrite map_map. cbn [swap_pair fst snd].
  f_equal. apply filter_ext. intros row. apply andb_comm.
Qed.

Lemma Legacy_coefficientOf_swap (pairs : list (JsValue * JsValue)) :
  Legacy.coefficientOf (map swap_pair pairs) = Legacy.coefficientOf pairs.
Proof.
  unfold Legacy.coefficientOf. rewrite length_map.
  destruct (Nat.ltb 0 (List.length pairs)); [|reflexivity].
  rewrite !fold_left_map_arg. cbn [swap_pair fst snd].
  set (n := Number_of_nat (List.length pairs)).
  set (sumX := fold_left (fun sum pair => js_add sum (fst pair)) pairs
                 (JNum 0%float)).
  set (sumY := fold_left (fun sum pair => js_add sum (snd pair)) pairs
                 (JNum 0%float)).
  set (sumX2 := fold_left
                  (fun sum pair =>
                     PrimFloat.add sum (Legacy.js_mul (fst pair) (fst pair)))
                  pairs 0%float).
  set (sumY2 := fold_left
                  (fun sum pair =>
                     PrimFloat.add sum (Legacy.js_mul (snd pair) (snd pair)))
                  pairs 0%float).
  rewrite (fold_left_pointwise
             (fun acc x =>
                PrimFloat.add acc (Legacy.js_mul (snd x) (fst x)))
             (fun sum pair =>
                PrimFloat.add sum (Legacy.js_mul (fst pair) (snd pair))))
    by (intros a x; unfold Legacy.js_mul; now rewrite float_mul_comm).
  assert (Hxy : Legacy.js_mul sumY sumX = Legacy.js_mul sumX sumY)
    by (unfold Legacy.js_mul; apply float_mul_comm).
  rewrite Hxy.
  rewrite (float_mul_comm
             (PrimFloat.sub (PrimFloat.mul n sumY2) (Legacy.js_mul sumY sumY))
             (PrimFloat.sub (PrimFloat.mul n sumX2) (Legacy.js_mul sumX sumX))).
  reflexivity.
Qed.

(** The earlier variant's matrix has the exact part of C4 as well: it is
    square over [Age], [Fare] and [Survived], its diagonal is 1 and it is
    symmetric bit for bit. *)
Lemma Legacy_matrix_diagonal_and_symmetry rows :
  let M := Legacy.matrixData rows in
  List.length M = 3
  /\ Forall (fun row => List.length row = 3) M
  /\ Forall (fun i => entry M i i = 1%float) (seq 0 3)
  /\ (forall i j, entry M i j = entry M j i).
Proof.
  intros M. subst M. unfold Legacy.matrixData.
  change (List.length Legacy.labels) with 3.
  split; [reflexivity|].
  split; [repeat constructor|].
  split.
  - apply Forall_forall. intros i Hin. apply in_seq in Hin.
    rewrite (matrix_entry (Legacy.matrixEntry rows)).
    assert (Hi : Nat.ltb i 3 = true) by (apply Nat.ltb_lt; lia).
    rewrite Hi. simpl. unfold Legacy.matrixEntry. now rewrite Nat.eqb_refl.
  - intros i j. rewrite !(matrix_entry (Legacy.matrixEntry rows)), andb_comm.
    destruct (Nat.ltb j 3 && Nat.ltb i 3); [|reflexivity].
    unfold Legacy.matrixEntry. rewrite (Nat.eqb_sym j i).
    destruct (Nat.eqb i j); [reflexivity|].
    now rewrite Legacy_pairsOf_swap, Legacy_coefficientOf_swap.
Qed.

(** The earlier variant's categorical tally has no negative count at all:
    it counts every train row with a value and, among them, the rows whose
    label is 1, so a row with label 2 adds to the total and to nothing
    else. *)
Example Legacy_value_counts_with_label_two :
  Legacy.valueCountsOf (trainRows (merged labelTwoData)) "Sex"
  = [("male", (1, 0)); ("female", (1, 1))].
Proof. reflexivity. Qed.

(** The earlier variant on the sample data: its statistics are taken over
    the two train rows only. *)
Example Legacy_scenario_statistics :
  Legacy.generateStatisticalSummaries scenarioGlobals
  = Legacy.Stored
      [("Age",
        {| Legacy.mean := 30%float; Legacy.median := JNum 38%float;
           Legacy.stdDev := 8%float; Legacy.count := 2;
           Legacy.missing := 0 |})]
      [("Pclass", []); ("Sex", [("male", (1, 0)); ("female", (1, 1))]);
       ("Embarked", []); ("SibSp", []); ("Parch", [])]
  /\ map Legacy.column (Legacy.analyzeMissingValues scenarioGlobals)
     = ["Survived"; "PassengerId"; "Sex"; "Age"; "source"].
Proof. vm_compute. split; reflexivity. Qed.

(* ====================================================================== *)
(** * Part III: further properties of the code                             *)
(* ====================================================================== *)

(** ** Order of the Numbers *)

Section FloatOrder.
Local Open Scope Z_scope.

Lemma valid_finite_upper s m e :
  valid_binary (S754_finite s m e) = true -> e <= 971.
Proof.
  unfold valid_binary, SpecFloat.valid_binary, bounded.
  unfold prec, emax. intros H. apply andb_prop in H. destruct H as [_ H].
  apply Z.leb_le in H. lia.
Qed.

Lemma scaled_finite_bounds s m e :
  valid_binary (S754_finite s m e) = true ->
  0 < Zpos m * 2 ^ (e + 1074) < 2 ^ 2100.
Proof.
  intros H. pose proof (valid_finite_upper _ _ _ H) as Hu.
  apply valid_finite in H. destruct H as (Hl & Hd & _).
  pose proof (digits2_bounds m) as B.
  assert (Hm : Zpos m < 2 ^ 53).
  { eapply Z.lt_le_trans; [apply B|]. apply Z.pow_le_mono_r; lia. }
  assert (Hp : 0 < 2 ^ (e + 1074)) by (apply Z.pow_pos_nonneg; lia).
  assert (Hq : 2 ^ (e + 1074) <= 2 ^ 2045) by (apply Z.pow_le_mono_r; lia).
  assert (Hr : 2 ^ 53 * 2 ^ 2045 < 2 ^ 2100).
  { rewrite <- Z.pow_add_r by lia. apply Z.pow_lt_mono_r; lia. }
  split; [lia|].
  eapply Z.le_lt_trans; [|apply Hr].
  apply Z.mul_le_mono_nonneg; lia.
Qed.

Lemma cond_Zopp_mul s a p : cond_Zopp s a * p = cond_Zopp s (a * p).
Proof. destruct s; simpl; lia. Qed.

Lemma SFcompare_scaled x y :
  valid_binary x = true -> valid_binary y = true ->
  not_nan x = true -> not_nan y = true ->
  SFcompare x y = Some (scaled x ?= scaled y).
Proof.
  intros Vx Vy Nx Ny.
  assert (Hbig : 0 < 2 ^ 2100) by (apply Z.pow_pos_nonneg; lia).
  destruct x as [sx|sx| |sx mx ex]; try discriminate;
    destruct y as [sy|sy| |sy my ey]; try discriminate;
    try (pose proof (scaled_finite_bounds _ _ _ Vx) as Bx);
    try (pose proof (scaled_finite_bounds _ _ _ Vy) as By_).
  1-8: cbn [SFcompare scaled];
    try destruct sx; try destruct sy; f_equal; symmetry;
    first [apply Z.compare_eq_iff | apply Z.compare_lt_iff
          | apply Z.compare_gt_iff];
    unfold cond_Zopp; lia.
  - rewrite compare_aligned by assumption. f_equal.
    pose proof (valid_finite _ _ _ Vx) as (Hx & _).
    pose proof (valid_finite _ _ _ Vy) as (Hy & _).
    unfold aligned. rewrite !shl_align_value by lia.
    set (ez := Z.min ex ey).
    assert (Hez : -1074 <= ez) by (subst ez; lia).
    assert (Hex : ez <= ex) by (subst ez; lia).
    assert (Hey : ez <= ey) by (subst ez; lia).
    cbn [scaled].
    replace (ex + 1074) with ((ex - ez) + (ez + 1074)) by lia.
    replace (ey + 1074) with ((ey - ez) + (ez + 1074)) by lia.
    rewrite (Z.pow_add_r 2 (ex - ez)), (Z.pow_add_r 2 (ey - ez)) by lia.
    rewrite !Z.mul_assoc.
    rewrite <- (cond_Zopp_mul sx (Zpos mx * 2 ^ (ex - ez))).
    rewrite <- (cond_Zopp_mul sy (Zpos my * 2 ^ (ey - ez))).
    apply Zmult_compare_compat_r.
    apply Z.lt_gt, Z.pow_pos_nonneg; lia.
Qed.

End FloatOrder.

Section FloatOrderFacts.

Lemma isNaN_false_not_nan x : isNaN x = false -> not_nan (Prim2SF x) = true.
Proof. rewrite isNaN_spec. now destruct (not_nan (Prim2SF x)). Qed.

Lemma compare_rank a b :
  isNaN a = false -> isNaN b = false ->
  SFcompare (Prim2SF a) (Prim2SF b) = Some (rank a ?= rank b)%Z.
Proof.
  intros Ha Hb. apply SFcompare_scaled;
    auto using Prim2SF_valid, isNaN_false_not_nan.
Qed.

Lemma leb_rank a b :
  isNaN a = false -> isNaN b = false ->
  PrimFloat.leb a b = Z.leb (rank a) (rank b).
Proof.
  intros Ha Hb. rewrite leb_spec. unfold SFleb.
  rewrite (compare_rank a b Ha Hb). unfold Z.leb.
  now destruct (rank a ?= rank b)%Z.
Qed.

Lemma ltb_rank a b :
  isNaN a = false -> isNaN b = false ->
  PrimFloat.ltb a b = Z.ltb (rank a) (rank b).
Proof.
  intros Ha Hb. rewrite ltb_spec. unfold SFltb.
  rewrite (compare_rank a b Ha Hb). unfold Z.ltb.
  now destruct (rank a ?= rank b)%Z.
Qed.

Lemma eqb_rank a b :
  isNaN a = false -> isNaN b = false ->
  PrimFloat.eqb a b = Z.eqb (rank a) (rank b).
Proof.
  intros Ha Hb. rewrite eqb_spec. unfold SFeqb.
  rewrite (compare_rank a b Ha Hb).
  destruct (Z.compare_spec (rank a) (rank b)) as [E|E|E]; symmetry;
    [apply Z.eqb_eq|apply Z.eqb_neq|apply Z.eqb_neq]; lia.
Qed.

Lemma compare_NaN_l a b :
  isNaN a = true -> SFcompare (Prim2SF a) (Prim2SF b) = None.
Proof.
  rewrite isNaN_spec. destruct (Prim2SF a); try discriminate. reflexivity.
Qed.

Lemma compare_NaN_r a b :
  isNaN b = true -> SFcompare (Prim2SF a) (Prim2SF b) = None.
Proof.
  rewrite isNaN_spec. destruct (Prim2SF b); try discriminate.
  now destruct (Prim2SF a).
Qed.

(** A comparison that holds has no NaN operand. *)
Lemma leb_true_numbers a b :
  PrimFloat.leb a b = true -> isNaN a = false /\ isNaN b = false.
Proof.
  rewrite leb_spec. unfold SFleb. intros H.
  destruct (isNaN a) eqn:Ha; [now rewrite compare_NaN_l in H|].
  destruct (isNaN b) eqn:Hb; [now rewrite compare_NaN_r in H|].
  now split.
Qed.

Lemma eqb_true_numbers a b :
  PrimFloat.eqb a b = true -> isNaN a = false /\ isNaN b = false.
Proof.
  rewrite eqb_spec. unfold SFeqb. intros H.
  destruct (isNaN a) eqn:Ha; [now rewrite compare_NaN_l in H|].
  destruct (isNaN b) eqn:Hb; [now rewrite compare_NaN_r in H|].
  now split.
Qed.

Lemma leb_trans a b c :
  PrimFloat.leb a b = true -> PrimFloat.leb b c = true ->
  PrimFloat.leb a c = true.
Proof.
  intros Hab Hbc.
  destruct (leb_true_numbers _ _ Hab) as [Ha Hb].
  destruct (leb_true_numbers _ _ Hbc) as [_ Hc].
  rewrite leb_rank in * by assumption.
  apply Z.leb_le in Hab, Hbc. apply Z.leb_le. lia.
Qed.

Lemma leb_refl a : isNaN a = false -> PrimFloat.leb a a = true.
Proof. intros Ha. rewrite leb_rank by assumption. apply Z.leb_refl. Qed.

(** [x < b] fails exactly when [b <= x], for Numbers. *)
Lemma ltb_negb_leb a b :
  isNaN a = false -> isNaN b = false ->
  PrimFloat.ltb a b = negb (PrimFloat.leb b a).
Proof.
  intros Ha Hb. rewrite ltb_rank, leb_rank by assumption.
  destruct (Z.ltb_spec (rank a) (rank b)), (Z.leb_spec (rank b) (rank a));
    simpl; try reflexivity; lia.
Qed.

(** [b <= x] and [x < b] never hold together. *)
Lemma leb_ltb_false a b :
  PrimFloat.leb b a && PrimFloat.ltb a b = false.
Proof.
  destruct (PrimFloat.leb b a) eqn:H; [|reflexivity].
  destruct (leb_true_numbers _ _ H) as [Hb Ha].
  rewrite ltb_negb_leb, H by assumption. reflexivity.
Qed.

End FloatOrderFacts.

(** ** Order of the numeric summary *)

Lemma StronglySorted_nth {A : Type} (R : A -> A -> Prop) l d :
  StronglySorted R l ->
  forall i j, i < j < List.length l -> R (nth i l d) (nth j l d).
Proof.
  induction 1 as [|x l Hs IH Hall]; intros i j Hij; simpl in Hij; [lia|].
  destruct j as [|j]; [lia|]. destruct i as [|i]; simpl.
  - rewrite Forall_forall in Hall. apply Hall, nth_In. lia.
  - apply IH. lia.
Qed.

Lemma sorted_ascending_nth l :
  Sorted ascendingOrder l -> Forall (fun x => isNaN x = false) l ->
  forall i j, i <= j < List.length l ->
    PrimFloat.leb (nth i l PrimFloat.nan) (nth j l PrimFloat.nan) = true.
Proof.
  intros Hs Hn i j Hij.
  destruct (Nat.eq_dec i j) as [->|Hne].
  - apply leb_refl. rewrite Forall_forall in Hn. apply Hn, nth_In. lia.
  - apply (StronglySorted_nth ascendingOrder l PrimFloat.nan); [|lia].
    apply Sorted_StronglySorted; [|exact Hs].
    intros a b c. apply leb_trans.
Qed.

Lemma is_neg_zero_rank x : is_neg_zero x = true -> rank x = 0%Z.
Proof.
  unfold is_neg_zero, rank. rewrite classify_spec.
  unfold SF64classify, SFclassify.
  destruct (Prim2SF x) as [s|s| |s m e]; try destruct s; try discriminate;
    try reflexivity; destruct (Z.eqb _ _); discriminate.
Qed.

Lemma is_pos_zero_rank x : is_pos_zero x = true -> rank x = 0%Z.
Proof.
  unfold is_pos_zero, rank. rewrite classify_spec.
  unfold SF64classify, SFclassify.
  destruct (Prim2SF x) as [s|s| |s m e]; try destruct s; try discriminate;
    try reflexivity; destruct (Z.eqb _ _); discriminate.
Qed.

Lemma Math_min_fold xs :
  forall lowest,
    isNaN lowest = false -> Forall (fun x => isNaN x = false) xs ->
    let result :=
      fold_left
        (fun lowest x =>
           if isNaN lowest || isNaN x then PrimFloat.nan
           else if is_neg_zero x && is_pos_zero lowest then x
           else if PrimFloat.ltb x lowest then x else lowest)
        xs lowest in
    isNaN result = false
    /\ (rank result <= rank lowest)%Z
    /\ Forall (fun x => (rank result <= rank x)%Z) xs.
Proof.
  induction xs as [|x xs IH]; intros lowest Hl Hxs; simpl.
  - repeat split; [assumption|lia|constructor].
  - inversion Hxs as [|? ? Hx Hxs']; subst.
    rewrite Hl, Hx. cbn [orb].
    set (next := if is_neg_zero x && is_pos_zero lowest then x
                 else if PrimFloat.ltb x lowest then x else lowest).
    assert (Hnext : isNaN next = false
                    /\ (rank next <= rank lowest)%Z /\ (rank next <= rank x)%Z).
    { subst next.
      destruct (is_neg_zero x && is_pos_zero lowest) eqn:Hz.
      - apply andb_prop in Hz. destruct Hz as [Hz1 Hz2].
        rewrite (is_neg_zero_rank _ Hz1), (is_pos_zero_rank _ Hz2).
        repeat split; [assumption|lia|lia].
      - rewrite (ltb_rank x lowest Hx Hl).
        destruct (Z.ltb_spec (rank x) (rank lowest));
          repeat split; try assumption; lia. }
    destruct Hnext as (Hn1 & Hn2 & Hn3).
    destruct (IH next Hn1 Hxs') as (R1 & R2 & R3).
    repeat split; [exact R1|lia|].
    constructor; [lia|exact R3].
Qed.

Lemma Math_max_fold xs :
  forall highest,
    isNaN highest = false -> Forall (fun x => isNaN x = false) xs ->
    let result :=
      fold_left
        (fun highest x =>
           if isNaN highest || isNaN x then PrimFloat.nan
           else if is_pos_zero x && is_neg_zero highest then x
           else if PrimFloat.ltb highest x then x else highest)
        xs highest in
    isNaN result = false
    /\ (rank highest <= rank result)%Z
    /\ Forall (fun x => (rank x <= rank result)%Z) xs.
Proof.
  induction xs as [|x xs IH]; intros highest Hl Hxs; simpl.
  - repeat split; [assumption|lia|constructor].
  - inversion Hxs as [|? ? Hx Hxs']; subst.
    rewrite Hl, Hx. cbn [orb].
    set (next := if is_pos_zero x && is_neg_zero highest then x
                 else if PrimFloat.ltb highest x then x else highest).
    assert (Hnext : isNaN next = false
                    /\ (rank highest <= rank next)%Z /\ (rank x <= rank next)%Z).
    { subst next.
      destruct (is_pos_zero x && is_neg_zero highest) eqn:Hz.
      - apply andb_prop in Hz. destruct Hz as [Hz1 Hz2].
        rewrite (is_pos_zero_rank _ Hz1), (is_neg_zero_rank _ Hz2).
        repeat split; [assumption|lia|lia].
      - rewrite (ltb_rank highest x Hl Hx).
        destruct (Z.ltb_spec (rank highest) (rank x));
          repeat split; try assumption; lia. }
    destruct Hnext as (Hn1 & Hn2 & Hn3).
    destruct (IH next Hn1 Hxs') as (R1 & R2 & R3).
    repeat split; [exact R1|lia|].
    constructor; [lia|exact R3].
Qed.

(** [Math.min] of valid Numbers is a Number at or below each of them, and
    [Math.max] one at or above. *)
Lemma Math_min_below xs x :
  Forall (fun y => isNaN y = false) xs -> In x xs ->
  PrimFloat.leb (Math_min xs) x = true.
Proof.
  intros Hxs Hin.
  destruct (Math_min_fold xs PrimFloat.infinity eq_refl Hxs) as (R1 & _ & R3).
  fold (Math_min xs) in R1, R3.
  rewrite Forall_forall in Hxs, R3.
  rewrite leb_rank by auto. apply Z.leb_le. auto.
Qed.

Lemma Math_max_above xs x :
  Forall (fun y => isNaN y = false) xs -> In x xs ->
  PrimFloat.leb x (Math_max xs) = true.
Proof.
  intros Hxs Hin.
  destruct (Math_max_fold xs PrimFloat.neg_infinity eq_refl Hxs)
    as (R1 & _ & R3).
  fold (Math_max xs) in R1, R3.
  rewrite Forall_forall in Hxs, R3.
  rewrite leb_rank by auto. apply Z.leb_le. auto.
Qed.

(** X1.  The five order statistics of a numeric summary are ordered as
    Numbers: minimum <= first quartile <= median <= third quartile <=
    maximum (the summary stores each printed with two decimals). *)
Theorem numeric_summary_order_statistics_are_ordered
  (rows : list Row) (column : string) (v : float) (vs : list float) :
  numericValuesOf (columnValues rows column) = v :: vs ->
  let sorted := Array_sort ascending (v :: vs) in
  let lo := Math_min (v :: vs) in
  let q1 := nearestRank 1 4 sorted in
  let med := nearestRank 1 2 sorted in
  let q3 := nearestRank 3 4 sorted in
  let hi := Math_max (v :: vs) in
  (exists s,
      statsForColumn rows (Some numeric) column = Emitted (NumericSummary s)
      /\ num_min s = toFixed lo 2 /\ num_q1 s = toFixed q1 2
      /\ num_median s = toFixed med 2 /\ num_q3 s = toFixed q3 2
      /\ num_max s = toFixed hi 2)
  /\ PrimFloat.leb lo q1 = true
  /\ PrimFloat.leb q1 med = true
  /\ PrimFloat.leb med q3 = true
  /\ PrimFloat.leb q3 hi = true.
Proof.
  intros Hv sorted lo q1 med q3 hi.
  pose proof (numericValuesOf_valid (columnValues rows column)) as Hvalid.
  rewrite Hv in Hvalid.
  pose proof (Array_sort_perm ascending (v :: vs)) as Hperm. fold sorted in Hperm.
  assert (Hlen : List.length sorted = S (List.length vs))
    by (rewrite (Permutation_length Hperm); reflexivity).
  assert (Hsorted : Sorted ascendingOrder sorted)
    by now apply sort_ascending_sorted.
  assert (Hnum : Forall (fun x => isNaN x = false) sorted)
    by (apply Array_sort_Forall; exact Hvalid).
  assert (Hne : sorted <> []) by (intros E; rewrite E in Hlen; discriminate).
  assert (Hq1 : q1 = nth (List.length sorted / 4) sorted PrimFloat.nan)
    by (unfold q1, nearestRank; now rewrite Nat.mul_1_l).
  assert (Hmed : med = nth (List.length sorted / 2) sorted PrimFloat.nan)
    by (unfold med, nearestRank; now rewrite Nat.mul_1_l).
  split.
  - eexists. rewrite statsForColumn_numeric, Hv.
    split; [reflexivity|]. cbn [numericStatsOf num_min num_q1 num_median num_q3 num_max].
    fold sorted. rewrite <- Hq1, <- Hmed. repeat split; reflexivity.
  - assert (Hin : forall num, num < 4 -> In (nearestRank num 4 sorted) (v :: vs)).
    { intros num Hnum4. eapply Permutation_in; [exact Hperm|].
      apply nearestRank_In; assumption. }
    split; [apply Math_min_below; [exact Hvalid|apply (Hin 1); lia]|].
    split; [|split].
    + rewrite Hq1, Hmed. apply sorted_ascending_nth; try assumption.
      split; [apply Nat.div_le_compat_l; lia|].
      apply Nat.div_lt; lia.
    + rewrite Hmed. unfold q3, nearestRank.
      apply sorted_ascending_nth; try assumption.
      split.
      * apply Nat.div_le_lower_bound; [lia|].
        pose proof (Nat.Div0.mul_div_le (List.length sorted) 2). lia.
      * apply Nat.Div0.div_lt_upper_bound. lia.
    + apply Math_max_above; [exact Hvalid|apply (Hin 3); lia].
Qed.

Lemma numeric_summary_order_witness :
  numericValuesOf (columnValues (merged scenarioData) "Age")
  = 22%float :: [38%float; 26%float]
  /\ ((exists s,
          statsForColumn (merged scenarioData) (Some numeric) "Age"
          = Emitted (NumericSummary s)
          /\ num_min s = toFixed (Math_min (22%float :: [38%float; 26%float])) 2
          /\ num_q1 s
             = toFixed
                 (nearestRank 1 4
                    (Array_sort ascending (22%float :: [38%float; 26%float]))) 2
          /\ num_median s
             = toFixed
                 (nearestRank 1 2
                    (Array_sort ascending (22%float :: [38%float; 26%float]))) 2
          /\ num_q3 s
             = toFixed
                 (nearestRank 3 4
                    (Array_sort ascending (22%float :: [38%float; 26%float]))) 2
          /\ num_max s = toFixed (Math_max (22%float :: [38%float; 26%float])) 2)
      /\ PrimFloat.leb (Math_min (22%float :: [38%float; 26%float]))
           (nearestRank 1 4
              (Array_sort ascending (22%float :: [38%float; 26%float]))) = true
      /\ PrimFloat.leb
           (nearestRank 1 4
              (Array_sort ascending (22%float :: [38%float; 26%float])))
           (nearestRank 1 2
              (Array_sort ascending (22%float :: [38%float; 26%float]))) = true
      /\ PrimFloat.leb
           (nearestRank 1 2
              (Array_sort ascending (22%float :: [38%float; 26%float])))
           (nearestRank 3 4
              (Array_sort ascending (22%float :: [38%float; 26%float]))) = true
      /\ PrimFloat.leb
           (nearestRank 3 4
              (Array_sort ascending (22%float :: [38%float; 26%float])))
           (Math_max (22%float :: [38%float; 26%float])) = true).
Proof.
  split; [reflexivity|].
  apply (numeric_summary_order_statistics_are_ordered
           (merged scenarioData) "Age" 22%float [38%float; 26%float]).
  reflexivity.
Defined.

(** ** Keys of the objects the code builds *)

Lemma filter_partition_perm {A : Type} (p : A -> bool) l :
  Permutation (filter p l ++ filter (fun x => negb (p x)) l) l.
Proof.
  induction l as [|x l IH]; simpl; [constructor|].
  destruct (p x); simpl.
  - now constructor.
  - symmetry. apply Permutation_cons_app. now symmetry.
Qed.

(** [Object.keys] lists every own key once. *)
Lemma Object_keys_perm {V : Type} (o : JsObject V) :
  Permutation (Object_keys o) (map fst o).
Proof.
  unfold Object_keys.
  rewrite (index_keys_perm (map fst o)). apply filter_partition_perm.
Qed.

Lemma obj_set_NoDup {V : Type} (o : JsObject V) k v :
  NoDup (map fst o) -> NoDup (map fst (obj_set o k v)).
Proof.
  intros H. rewrite obj_set_keys.
  destruct (in_dec string_dec k (map fst o)) as [Hin|Hn]; [exact H|].
  apply NoDup_app; [exact H|repeat constructor; intros []|].
  intros a Ha [<-|[]]. contradiction.
Qed.

Lemma fold_obj_set_NoDup {V K : Type} (key : K -> string) (val : K -> V) l :
  forall acc : JsObject V,
    NoDup (map fst acc) ->
    NoDup (map fst (fold_left (fun o x => obj_set o (key x) (val x)) l acc)).
Proof.
  induction l as [|x l IH]; intros acc H; simpl; [exact H|].
  apply IH, obj_set_NoDup, H.
Qed.

Lemma spread_with_NoDup {V : Type} (o : JsObject V) k v :
  NoDup (map fst (spread_with o k v)).
Proof.
  unfold spread_with, obj_of_entries.
  apply obj_set_NoDup, (fold_obj_set_NoDup fst snd). constructor.
Qed.

Lemma Object_keys_NoDup {V : Type} (o : JsObject V) :
  NoDup (map fst o) -> NoDup (Object_keys o).
Proof.
  intros H. eapply Permutation_NoDup; [|exact H].
  symmetry. apply Object_keys_perm.
Qed.

(** Setting the keys of a duplicate-free list one after the other on a fresh
    object creates them in that order. *)
Lemma fold_obj_set_keys {V : Type} (f : string -> V) cols :
  forall acc : JsObject V,
    NoDup (map fst acc ++ cols) ->
    map fst (fold_left (fun o col => obj_set o col (f col)) cols acc)
    = map fst acc ++ cols.
Proof.
  induction cols as [|c cols IH]; intros acc H; simpl.
  - now rewrite app_nil_r.
  - rewrite IH.
    + rewrite obj_set_keys.
      destruct (in_dec string_dec c (map fst acc)) as [Hin|Hn].
      * exfalso. apply NoDup_remove_2 in H. apply H.
        apply in_or_app. now left.
      * now rewrite <- app_assoc.
    + rewrite obj_set_keys.
      destruct (in_dec string_dec c (map fst acc)) as [Hin|Hn].
      * exfalso. apply NoDup_remove_2 in H. apply H.
        apply in_or_app. now left.
      * now rewrite <- app_assoc.
Qed.

Lemma filter_all {A : Type} (p : A -> bool) l :
  Forall (fun x => p x = true) l -> filter p l = l.
Proof.
  induction 1 as [|x l Hx _ IH]; simpl; [reflexivity|].
  now rewrite Hx, IH.
Qed.

Lemma filter_none {A : Type} (p : A -> bool) l :
  Forall (fun x => p x = false) l -> filter p l = [].
Proof.
  induction 1 as [|x l Hx _ IH]; simpl; [reflexivity|].
  now rewrite Hx.
Qed.

(** ** The merged rows *)

Lemma trainRows_withSource trainData testData :
  trainRows (withSource "train" trainData ++ withSource "test" testData)
  = withSource "train" trainData.
Proof.
  unfold trainRows. rewrite filter_app.
  rewrite filter_all, filter_none; [apply app_nil_r| |].
  - eapply Forall_impl; [|apply withSource_source].
    intros row H. simpl in H. now rewrite H.
  - eapply Forall_impl; [|apply withSource_source].
    intros row H. simpl in H. now rewrite H.
Qed.

Lemma withSource_In tag rows row' :
  In row' (withSource tag rows) ->
  exists row, In row rows /\ row' = spread_with row "source" (JStr tag).
Proof.
  intros H. apply in_map_iff in H. destruct H as [row [<- Hin]]. eauto.
Qed.

Lemma prop_withSource tag row column :
  column <> "source" ->
  prop (spread_with row "source" (JStr tag)) column = prop row column.
Proof.
  intros H. unfold prop. rewrite obj_get_spread_with.
  destruct (String.eqb_spec column "source"); [contradiction|reflexivity].
Qed.

(** X2.  After a load, filtering the merged rows by [source === 'train']
    gives back exactly the tagged train batch, in order: no test row takes
    part in a statistic or a chart computed from the train rows.  In the
    earlier variant the charts are drawn from that batch alone. *)
Theorem train_filter_selects_the_train_batch
  (trainData testData : list Row) (st : TitanicData) (g : Legacy.Globals) :
  let st' := fst (loadAndMergeDatasets (Some (Resolved trainData))
                    (Some (Resolved testData)) st) in
  let g' := fst (Legacy.loadAndMergeData
                   (Some {| Legacy.data := trainData; Legacy.errors := [] |})
                   (Some {| Legacy.data := testData; Legacy.errors := [] |})
                   g) in
  let batch := withSource "train" trainData in
  trainRows (merged st') = batch
  /\ trainRows (Legacy.mergedData g') = batch
  /\ Legacy.trainData g' = batch
  /\ Legacy.generateAllCharts g'
     = match trainData ++ testData with
       | [] => None
       | _ :: _ =>
           Some {| Legacy.categoricalChart :=
                     Legacy.generateCategoricalChart batch;
                   Legacy.ageChart := Legacy.generateAgeChart batch;
                   Legacy.fareChart := Legacy.generateFareChart batch;
                   Legacy.correlationChart :=
                     match Legacy.generateFareChart batch with
                     | Legacy.Drawn _ => Some (Legacy.matrixData batch)
                     | Legacy.Thrown _ => None
                     end |}
       end.
Proof.
  intros st' g' batch.
  destruct (loadAndMergeDatasets_resolved trainData testData st) as (Hm & _).
  fold st' in Hm.
  pose proof (Legacy_loadAndMergeData_ok trainData testData g) as Hg.
  fold g' in Hg. cbv zeta in Hg.
  split; [rewrite Hm; apply trainRows_withSource|].
  split; [rewrite Hg; apply trainRows_withSource|].
  split; [reflexivity|].
  unfold Legacy.generateAllCharts. rewrite Hg, trainRows_withSource.
  fold batch. unfold withSource.
  destruct trainData as [|r rs]; [destruct testData as [|r rs]|]; reflexivity.
Qed.

Lemma loadAndMergeDatasets_columns trainData testData st row0 rest :
  withSource "train" trainData ++ withSource "test" testData = row0 :: rest ->
  let st' := fst (loadAndMergeDatasets (Some (Resolved trainData))
                    (Some (Resolved testData)) st) in
  let cols := filter (fun col => negb (String.eqb col "source"))
                (Object_keys row0) ++ ["source"] in
  columns st' = cols
  /\ columnTypes st'
     = fold_left
         (fun types column =>
            obj_set types column
              (columnTypeOf column (firstn 100 (row0 :: rest))))
         cols [].
Proof.
  intros E st' cols. subst st'. cbn [loadAndMergeDatasets fst].
  cbn [merged]. rewrite E.
  match goal with
  | |- context [determineColumnTypes ?s] =>
      destruct (determineColumnTypes_merged s) as (_ & _ & _ & Hc);
      rewrite Hc;
      rewrite (determineColumnTypes_types s) by (cbn; discriminate)
  end.
  split; reflexivity.
Qed.

Lemma loadAndMergeDatasets_nothing_loaded st :
  fst (loadAndMergeDatasets (Some (Resolved [])) (Some (Resolved [])) st)
  = {| merged := []; trainCount := 0; testCount := 0;
       columns := columns st; columnTypes := columnTypes st;
       missingValues := missingValues st; stats := stats st |}.
Proof. reflexivity. Qed.

(** X3.  After a load that brought at least one row, [columns] lists every
    key of the first merged row exactly once with [source] last, and
    [columnTypes] has exactly these columns as keys, in the same order, with
    [source] categorical.  After a load of two empty files the old column
    list and types stay in place. *)
Theorem columns_after_load
  (trainData testData : list Row) (st : TitanicData) :
  let st' := fst (loadAndMergeDatasets (Some (Resolved trainData))
                    (Some (Resolved testData)) st) in
  match merged st' with
  | [] => columns st' = columns st /\ columnTypes st' = columnTypes st
  | row0 :: _ =>
      columns st'
      = filter (fun col => negb (String.eqb col "source")) (Object_keys row0)
        ++ ["source"]
      /\ NoDup (columns st')
      /\ (forall column, In column (columns st') <-> obj_get row0 column <> None)
      /\ map fst (columnTypes st') = columns st'
      /\ obj_get (columnTypes st') "source" = Some categorical
  end.
Proof.
  intros st'.
  destruct (loadAndMergeDatasets_resolved trainData testData st) as (Hm & _).
  fold st' in Hm. rewrite Hm.
  destruct (withSource "train" trainData ++ withSource "test" testData)
    as [|row0 rest] eqn:E.
  - apply app_eq_nil in E. destruct E as [E1 E2].
    destruct trainData; [|discriminate]. destruct testData; [|discriminate].
    subst st'. rewrite loadAndMergeDatasets_nothing_loaded. now split.
  - destruct (loadAndMergeDatasets_columns trainData testData st row0 rest E)
      as [Hc Ht].
    fold st' in Hc, Ht. cbv zeta in Hc, Ht.
    assert (Hrow : exists tag row, row0 = spread_with row "source" (JStr tag)).
    { assert (Hin : In row0 (withSource "train" trainData
                            ++ withSource "test" testData))
        by (rewrite E; now left).
      apply in_app_or in Hin.
      destruct Hin as [Hin|Hin]; apply withSource_In in Hin;
        destruct Hin as [row [_ ->]]; eauto. }
    destruct Hrow as (tag & row & Hrow).
    assert (Hkeys : NoDup (Object_keys row0))
      by (subst row0; apply Object_keys_NoDup, spread_with_NoDup).
    assert (Hsrc : In "source" (Object_keys row0)).
    { apply Object_keys_In.
      destruct (obj_get_None_iff row0 "source") as [_ Hn].
      destruct (in_dec string_dec "source" (map fst row0)) as [Hi|Hi];
        [exact Hi|].
      specialize (Hn Hi). subst row0.
      rewrite obj_get_spread_with in Hn. discriminate. }
    assert (Hnd : NoDup (columns st')).
    { rewrite Hc. apply NoDup_app.
      - now apply NoDup_filter.
      - repeat constructor. intros [].
      - intros a Ha [<-|[]]. apply filter_In in Ha. destruct Ha as [_ Ha].
        discriminate. }
    split; [exact Hc|]. split; [exact Hnd|]. split; [|split].
    + assert (Hiff : forall c, In c (map fst row0) <-> obj_get row0 c <> None).
      { intros c. pose proof (obj_get_None_iff row0 c) as Hn.
        destruct (in_dec string_dec c (map fst row0)); tauto. }
      intros column. rewrite Hc, in_app_iff, filter_In, Object_keys_In.
      rewrite Object_keys_In in Hsrc. rewrite <- Hiff.
      destruct (String.eqb_spec column "source") as [->|Hne]; simpl.
      * split; [intros _; exact Hsrc|intros _; right; now left].
      * split.
        -- intros [[H _]|[H|[]]]; [exact H|congruence].
        -- intros H. left. now split.
    + rewrite Ht, <- Hc.
      rewrite (fold_obj_set_keys
                 (fun column =>
                    columnTypeOf column (firstn 100 (row0 :: rest)))).
      * reflexivity.
      * exact Hnd.
    + rewrite Ht.
      rewrite (fold_obj_set_get
                 (fun column =>
                    columnTypeOf column (firstn 100 (row0 :: rest)))).
      destruct (in_dec string_dec "source" _) as [Hi|Hi].
      * reflexivity.
      * exfalso. apply Hi. apply in_or_app. right. now left.
Qed.

(** ** Missing values of the merged rows *)

Lemma absentCount_app rows1 rows2 column :
  absentCount (rows1 ++ rows2) column
  = absentCount rows1 column + absentCount rows2 column.
Proof. induction rows1 as [|r rows1 IH]; simpl; [reflexivity|]. rewrite IH. lia. Qed.

Lemma absentCount_withSource tag rows column :
  column <> "source" ->
  absentCount (withSource tag rows) column = absentCount rows column.
Proof.
  intros H. induction rows as [|r rows IH]; simpl; [reflexivity|].
  now rewrite prop_withSource, IH.
Qed.

Lemma absentCount_source tag rows :
  tag <> "" -> absentCount (withSource tag rows) "source" = 0.
Proof.
  intros H. induction rows as [|r rows IH]; simpl; [reflexivity|].
  rewrite IH. unfold prop. rewrite obj_get_spread_with. simpl.
  unfold missingValue, absent, is_empty_string. simpl.
  destruct (String.eqb_spec tag ""); [contradiction|reflexivity].
Qed.

Lemma absentCount_merged trainData testData column :
  absentCount (withSource "train" trainData ++ withSource "test" testData)
    column
  = if String.eqb column "source" then 0
    else absentCount trainData column + absentCount testData column.
Proof.
  rewrite absentCount_app.
  destruct (String.eqb_spec column "source") as [->|Hne].
  - now rewrite !absentCount_source by discriminate.
  - now rewrite !absentCount_withSource by assumption.
Qed.

Lemma missingValues_get st column :
  obj_get (missingValues (calculateMissingValues st)) column
  = if in_dec string_dec column (columns st)
    then (if includes EXCLUDED_COLUMNS column then None
          else Some (missingInfoOf (merged st) column))
    else None.
Proof.
  unfold calculateMissingValues. cbn [missingValues set_missingValues].
  rewrite (fold_obj_set_skip_get (includes EXCLUDED_COLUMNS)
             (missingInfoOf (merged st))).
  reflexivity.
Qed.

(** X4.  In the missing-values report of freshly merged data, the count of
    a column is the sum of its missing counts in the two batches as they
    were parsed, and the [source] column is never missing.  The earlier
    variant's entries obey the same rule. *)
Theorem missing_counts_add_over_the_batches
  (trainData testData : list Row) (st : TitanicData) (g : Legacy.Globals)
  (column : string) (info : MissingInfo) :
  let st' := fst (loadAndMergeDatasets (Some (Resolved trainData))
                    (Some (Resolved testData)) st) in
  let g' := fst (Legacy.loadAndMergeData
                   (Some {| Legacy.data := trainData; Legacy.errors := [] |})
                   (Some {| Legacy.data := testData; Legacy.errors := [] |})
                   g) in
  let expected c :=
    if String.eqb c "source" then 0
    else absentCount trainData c + absentCount testData c in
  obj_get (missingValues (calculateMissingValues st')) column = Some info ->
  mv_count info = expected column
  /\ Forall
       (fun entry =>
          Legacy.missingCount entry = expected (Legacy.column entry))
       (Legacy.analyzeMissingValues g').
Proof.
  intros st' g' expected Hget.
  destruct (loadAndMergeDatasets_resolved trainData testData st) as (Hm & _).
  fold st' in Hm.
  pose proof (Legacy_loadAndMergeData_ok trainData testData g) as Hg.
  fold g' in Hg. cbv zeta in Hg.
  split.
  - rewrite missingValues_get in Hget.
    destruct (in_dec string_dec column (columns st')); [|discriminate].
    destruct (includes EXCLUDED_COLUMNS column); [discriminate|].
    injection Hget as <-. rewrite missingInfoOf_spec. cbn [mv_count].
    rewrite Hm. apply absentCount_merged.
  - unfold Legacy.analyzeMissingValues. rewrite Hg.
    destruct (withSource "train" trainData ++ withSource "test" testData)
      as [|row0 rest] eqn:E; [constructor|].
    apply Array_sort_Forall. apply Forall_forall. intros entry Hin.
    apply in_map_iff in Hin. destruct Hin as [c [<- _]].
    unfold Legacy.missingEntryOf. cbn [Legacy.missingCount Legacy.column].
    rewrite missingCountOf_absentCount, <- E. apply absentCount_merged.
Qed.

Lemma missing_counts_witness :
  obj_get (missingValues (calculateMissingValues scenarioData)) "Survived"
  = Some {| mv_count := 1; mv_percentage := "33.33" |}
  /\ (mv_count {| mv_count := 1; mv_percentage := "33.33" |}
      = (if String.eqb "Survived" "source" then 0
         else absentCount scenarioTrain "Survived"
              + absentCount scenarioTest "Survived")
      /\ Forall
           (fun entry =>
              Legacy.missingCount entry
              = (if String.eqb (Legacy.column entry) "source" then 0
                 else absentCount scenarioTrain (Legacy.column entry)
                      + absentCount scenarioTest (Legacy.column entry)))
           (Legacy.analyzeMissingValues scenarioGlobals)).
Proof.
  split; [reflexivity|].
  apply (missing_counts_add_over_the_batches scenarioTrain scenarioTest
           initialData Legacy.initialGlobals "Survived"
           {| mv_count := 1; mv_percentage := "33.33" |}).
  reflexivity.
Defined.

(** ** [runFullEDA] on loaded rows *)

Lemma runFullEDA_on_data st row0 rest :
  merged st = row0 :: rest ->
  runFullEDA st
  = (set_stats (calculateMissingValues st)
       (fst (summarizeColumns (merged st) (columnTypes st)
               (columnsToAnalyze st) [])),
     ("EDA analysis complete!", success)).
Proof.
  intros E. unfold runFullEDA. rewrite E.
  unfold calculateStatisticalSummaries.
  change (merged (calculateMissingValues st)) with (merged st).
  change (columnTypes (calculateMissingValues st)) with (columnTypes st).
  change (columnsToAnalyze (calculateMissingValues st))
    with (columnsToAnalyze st).
  rewrite E.
  pose proof (summarizeColumns_no_failure row0 rest (columnTypes st)
                (columnsToAnalyze st) []) as Hn.
  destruct (summarizeColumns (row0 :: rest) (columnTypes st)
              (columnsToAnalyze st) []) as [ss raised].
  simpl in Hn. subst raised. reflexivity.
Qed.

(** ** Which columns get a summary *)

Lemma summarizeColumns_get row0 rest types cols :
  forall acc column,
    obj_get (fst (summarizeColumns (row0 :: rest) types cols acc)) column
    = if in_dec string_dec column cols
      then match statsForColumn (row0 :: rest) (obj_get types column) column with
           | Emitted s => Some s
           | _ => obj_get acc column
           end
      else obj_get acc column.
Proof.
  induction cols as [|c cols IH]; intros acc column; [reflexivity|].
  destruct (in_dec string_dec column (c :: cols)) as [Hin|Hn].
  - destruct (statsForColumn (row0 :: rest) (obj_get types column) column)
      as [s| |s message] eqn:E.
    + now apply summarizeColumns_emitted.
    + now apply summarizeColumns_omitted.
    + exfalso. exact (statsForColumn_not_raised _ _ _ _ _ _ E).
  - cbn [summarizeColumns].
    assert (Hc : c <> column) by (intros ->; apply Hn; now left).
    assert (Hcols : ~ In column cols) by (intros H; apply Hn; now right).
    destruct (statsForColumn (row0 :: rest) (obj_get types c) c)
      as [s| |s message] eqn:E.
    + rewrite IH. destruct (in_dec string_dec column cols); [contradiction|].
      now apply obj_get_set_other.
    + rewrite IH. now destruct (in_dec string_dec column cols).
    + exfalso. exact (statsForColumn_not_raised _ _ _ _ _ _ E).
Qed.

Lemma columnValues_length rows column :
  List.length (columnValues rows column) <= List.length rows.
Proof.
  unfold columnValues.
  rewrite <- (length_map (fun row => prop row column) rows).
  apply filter_length_le.
Qed.

Lemma numericValuesOf_length values :
  List.length (numericValuesOf values) <= List.length values.
Proof.
  induction values as [|v values IH]; simpl; [lia|].
  rewrite length_app.
  destruct v as [| | |x|]; simpl; try lia. destruct (isNaN x); simpl; lia.
Qed.

(** X6.  After an analysis of loaded rows a column has a summary only if it
    is one of [columns], is not excluded and is not [source]; the summary is
    numeric exactly when the column's inferred type is numeric; and in either
    kind [count + missing] is the number of merged rows. *)
Theorem summaries_exist_for_analysed_columns_only
  (st : TitanicData) (column : string) (summary : ColumnStats) :
  merged st <> [] ->
  obj_get (stats (fst (runFullEDA st))) column = Some summary ->
  In column (columns st)
  /\ includes EXCLUDED_COLUMNS column = false
  /\ column <> "source"
  /\ match summary with
     | NumericSummary s =>
         obj_get (columnTypes st) column = Some numeric
         /\ 0 < num_count s
         /\ num_count s + num_missing s = List.length (merged st)
     | CategoricalSummary s =>
         obj_get (columnTypes st) column <> Some numeric
         /\ cat_count s + cat_missing s = List.length (merged st)
     end.
Proof.
  intros Hne Hget.
  destruct (merged st) as [|row0 rest] eqn:E; [contradiction|].
  rewrite (runFullEDA_on_data st row0 rest E) in Hget.
  cbn [fst stats set_stats] in Hget. rewrite E in Hget.
  rewrite summarizeColumns_get in Hget.
  destruct (in_dec string_dec column (columnsToAnalyze st)) as [Hin|];
    [|discriminate].
  unfold columnsToAnalyze in Hin. apply filter_In in Hin.
  destruct Hin as [Hin Hflt]. apply andb_prop in Hflt.
  destruct Hflt as [Hex Hsrc].
  apply negb_true_iff in Hex, Hsrc. apply String.eqb_neq in Hsrc.
  split; [exact Hin|]. split; [exact Hex|]. split; [exact Hsrc|].
  pose proof (columnValues_length (row0 :: rest) column) as Hlen.
  pose proof (numericValuesOf_length (columnValues (row0 :: rest) column))
    as Hlen2.
  unfold statsForColumn in Hget.
  destruct (obj_get (columnTypes st) column) as [[|]|] eqn:Ht;
    cbn [is_numeric_type] in Hget.
  - destruct (Nat.ltb_spec 0
                (List.length
                   (numericValuesOf (columnValues (row0 :: rest) column))))
      as [Hpos|Hpos]; [|discriminate].
    injection Hget as <-. cbn [numericStatsOf num_count num_missing].
    split; [reflexivity|]. split; [exact Hpos|].
    cbn [List.length] in *. lia.
  - destruct (String.eqb column TARGET_COLUMN); injection Hget as <-;
      cbn [categoricalStatsOf cat_count cat_missing];
      (split; [discriminate|cbn [List.length] in *; lia]).
  - destruct (String.eqb column TARGET_COLUMN); injection Hget as <-;
      cbn [categoricalStatsOf cat_count cat_missing];
      (split; [discriminate|cbn [List.length] in *; lia]).
Qed.

Lemma summaries_exist_witness :
  merged scenarioData <> []
  /\ obj_get (stats (fst (runFullEDA scenarioData))) "Age"
     = Some (NumericSummary
               {| num_count := 3; num_missing := 0;
                  num_mean := "28.67"; num_median := "26.00";
                  num_stdDev := "6.80";
                  num_min := "22.00"; num_max := "38.00";
                  num_q1 := "22.00"; num_q3 := "38.00";
                  num_groupedBySurvived :=
                    Some {| survivedMean := "38.00";
                            notSurvivedMean := "22.00";
                            difference := "16.00" |} |})
  /\ In "Age" (columns scenarioData)
  /\ includes EXCLUDED_COLUMNS "Age" = false
  /\ "Age" <> "source"
  /\ obj_get (columnTypes scenarioData) "Age" = Some numeric
  /\ 0 < 3
  /\ 3 + 0 = List.length (merged scenarioData).
Proof.
  assert (Hne : merged scenarioData <> []) by discriminate.
  assert (Hget : obj_get (stats (fst (runFullEDA scenarioData))) "Age"
                 = Some (NumericSummary
                           {| num_count := 3; num_missing := 0;
                              num_mean := "28.67"; num_median := "26.00";
                              num_stdDev := "6.80";
                              num_min := "22.00"; num_max := "38.00";
                              num_q1 := "22.00"; num_q3 := "38.00";
                              num_groupedBySurvived :=
                                Some {| survivedMean := "38.00";
                                        notSurvivedMean := "22.00";
                                        difference := "16.00" |} |}))
    by (vm_compute; reflexivity).
  split; [exact Hne|]. split; [exact Hget|].
  exact (summaries_exist_for_analysed_columns_only scenarioData "Age" _
           Hne Hget).
Defined.

(** ** Counting distinct values *)

Lemma firstSeenFrom_NoDup keys :
  forall seen, NoDup seen -> NoDup (firstSeenFrom seen keys).
Proof.
  induction keys as [|k keys IH]; intros seen H; simpl; [exact H|].
  apply IH. destruct (in_dec string_dec k seen) as [Hin|Hn]; [exact H|].
  apply NoDup_app; [exact H|repeat constructor; intros []|].
  intros a Ha [<-|[]]. contradiction.
Qed.

Lemma enumerationOrder_perm ks : Permutation (enumerationOrder ks) ks.
Proof.
  unfold enumerationOrder. rewrite (index_keys_perm ks).
  apply filter_partition_perm.
Qed.

Lemma list_sum_indicator (a : string) ks :
  NoDup ks -> In a ks ->
  list_sum (map (fun k => if string_dec a k then 1 else 0) ks) = 1.
Proof.
  induction 1 as [|k ks Hk Hnd IH]; intros Hin; [contradiction|].
  simpl. destruct (string_dec a k) as [->|Hne].
  - f_equal. clear IH Hin Hnd. induction ks as [|k' ks IH]; [reflexivity|].
    simpl. destruct (string_dec k k') as [->|_].
    + exfalso. apply Hk. now left.
    + apply IH. intros H. apply Hk. now right.
  - destruct Hin as [->|Hin]; [contradiction|]. now apply IH.
Qed.

Lemma list_sum_map_add {A : Type} (f g : A -> nat) l :
  list_sum (map (fun x => f x + g x) l)
  = list_sum (map f l) + list_sum (map g l).
Proof. induction l as [|x l IH]; simpl; [reflexivity|]. rewrite IH. lia. Qed.

(** Over a duplicate-free list of keys that covers [keys], the occurrence
    counts add up to the number of keys. *)
Lemma occurrences_sum keys :
  forall ks, NoDup ks -> (forall k, In k keys -> In k ks) ->
    list_sum (map (occurrences keys) ks) = List.length keys.
Proof.
  induction keys as [|a keys IH]; intros ks Hnd Hcov.
  - simpl. induction ks as [|k ks IHks]; [reflexivity|].
    simpl. apply IHks; [now inversion Hnd|intros k' []].
  - rewrite (map_ext (occurrences (a :: keys))
               (fun k => (if string_dec a k then 1 else 0)
                         + occurrences keys k)).
    + rewrite list_sum_map_add, list_sum_indicator, IH.
      * reflexivity.
      * exact Hnd.
      * intros k Hin. apply Hcov. now right.
      * exact Hnd.
      * apply Hcov. now left.
    + intros k. unfold occurrences. simpl.
      destruct (string_dec a k); reflexivity.
Qed.

Lemma list_sum_firstn n l : list_sum (firstn n l) <= list_sum l.
Proof.
  rewrite <- (firstn_skipn n l) at 2. rewrite list_sum_app. lia.
Qed.

Lemma In_firstn {A : Type} n (l : list A) x : In x (firstn n l) -> In x l.
Proof.
  intros H. rewrite <- (firstn_skipn n l). apply in_or_app. now left.
Qed.

Lemma NoDup_firstn {A : Type} n (l : list A) : NoDup l -> NoDup (firstn n l).
Proof.
  intros H. rewrite <- (firstn_skipn n l) in H.
  now apply NoDup_app_remove_r in H.
Qed.

(** X7.  For an analysed column that is not of numeric type and none of
    whose present values prints as the name of a function of
    [Object.prototype], the stored summary counts as follows, over the
    printed present values other than "__proto__": [uniqueValues] is the
    number of distinct ones and is at most their number; the top values are
    distinct, each listed with the number of times it occurs (at least
    once); their counts add up to the number of these values when there are
    at most ten distinct ones, and to no more otherwise.  [count] is the
    number of all present values. *)
Theorem categorical_summary_counts (st : TitanicData) (column : string) :
  merged st <> [] ->
  In column (columnsToAnalyze st) ->
  obj_get (columnTypes st) column <> Some numeric ->
  forallb (fun v => negb (namesBuiltIn (String_of v)))
    (columnValues (merged st) column) = true ->
  let values := columnValues (merged st) column in
  let keys := talliedKeys (map String_of values) in
  exists (s : CategoricalStats) (counts : list nat),
    obj_get (stats (fst (calculateStatisticalSummaries st))) column
    = Some (CategoricalSummary s)
    /\ cat_count s = List.length values
    /\ cat_uniqueValues s = List.length (firstSeen keys)
    /\ cat_uniqueValues s <= List.length keys <= cat_count s
    /\ List.length (cat_topValues s) = Nat.min 10 (cat_uniqueValues s)
    /\ NoDup (map fst (cat_topValues s))
    /\ Forall (fun e => snd e = Count (occurrences keys (fst e))
                        /\ 1 <= occurrences keys (fst e))
         (cat_topValues s)
    /\ map snd (cat_topValues s) = map Count counts
    /\ if Nat.leb (cat_uniqueValues s) 10
       then list_sum counts = List.length keys
       else list_sum counts <= List.length keys.
Proof.
  intros Hne Hin Htype Hplain values keys.
  destruct (categorical_summary_stored st column Hne Hin Htype)
    as [grouped Hstored].
  fold values in Hstored.
  set (order := enumerationOrder (firstSeen keys)).
  set (entries := map (fun k => (k, occurrences keys k)) order).
  set (sorted := Array_sort smallerCount entries).
  eexists. exists (map snd (firstn 10 sorted)).
  split; [exact Hstored|].
  cbn [categoricalStatsOf cat_uniqueValues cat_count cat_topValues].
  assert (Htally : tally (map String_of values)
                   = countedObject (countsOf keys))
    by (apply tally_countsOf; now rewrite forallb_mapped).
  rewrite Htally, topValuesOf_counted, Object_keys_countedObject.
  assert (Hentries : Object_entries (countsOf keys) = entries)
    by apply countsOf_entries.
  assert (Hkeys : Object_keys (countsOf keys) = order).
  { rewrite <- Object_entries_keys, Hentries. unfold entries.
    rewrite map_map. apply map_id. }
  assert (Hperm : Permutation order (firstSeen keys))
    by apply enumerationOrder_perm.
  assert (Hnd0 : NoDup (firstSeen keys))
    by (apply firstSeenFrom_NoDup; constructor).
  assert (Hnd : NoDup order)
    by (eapply Permutation_NoDup; [symmetry; exact Hperm|exact Hnd0]).
  assert (Hcov : forall k, In k order <-> In k keys).
  { intros k. unfold order. rewrite enumerationOrder_In.
    unfold firstSeen. rewrite firstSeenFrom_In. simpl. tauto. }
  assert (Hlen : List.length keys <= List.length values).
  { unfold keys, talliedKeys.
    rewrite <- (length_map String_of values). apply filter_length_le. }
  rewrite Hentries, Hkeys. fold sorted.
  assert (Hsorted : Permutation sorted entries) by apply Array_sort_perm.
  assert (Hsum : list_sum (map snd sorted) = List.length keys).
  { rewrite (Permutation_map snd Hsorted). unfold entries.
    rewrite map_map. cbn [snd].
    rewrite occurrences_sum; [reflexivity|exact Hnd|].
    intros k. apply Hcov. }
  assert (Hslen : List.length sorted = List.length order).
  { rewrite (Permutation_length Hsorted). unfold entries. apply length_map. }
  split; [reflexivity|].
  split; [apply Permutation_length, Hperm|].
  split.
  { split; [|exact Hlen].
    apply NoDup_incl_length; [exact Hnd|]. intros k. apply Hcov. }
  split; [rewrite length_map, length_firstn, Hslen; reflexivity|].
  split.
  { rewrite map_map. cbn [counted fst]. rewrite <- firstn_map.
    apply NoDup_firstn.
    eapply Permutation_NoDup;
      [symmetry; apply (Permutation_map fst Hsorted)|].
    unfold entries. rewrite map_map. cbn [fst]. now rewrite map_id. }
  split.
  { apply Forall_forall. intros e He. apply in_map_iff in He.
    destruct He as [[k c] [<- He]]. apply In_firstn in He.
    apply (Permutation_in _ Hsorted) in He. unfold entries in He.
    apply in_map_iff in He. destruct He as [k' [Heq Hk]].
    injection Heq as -> <-. cbn [counted fst snd].
    split; [reflexivity|].
    apply Hcov in Hk. unfold occurrences.
    apply (count_occ_In string_dec) in Hk. lia. }
  split; [now rewrite !map_map|].
  rewrite <- firstn_map.
  destruct (Nat.leb_spec (List.length order) 10) as [Hle|Hgt].
  - rewrite firstn_all2 by (rewrite length_map; lia). exact Hsum.
  - rewrite <- Hsum. apply list_sum_firstn.
Qed.

Lemma categorical_summary_counts_witness :
  merged protoNamesData <> []
  /\ In "Name" (columnsToAnalyze protoNamesData)
  /\ obj_get (columnTypes protoNamesData) "Name" <> Some numeric
  /\ forallb (fun v => negb (namesBuiltIn (String_of v)))
       (columnValues (merged protoNamesData) "Name") = true
  /\ let values := columnValues (merged protoNamesData) "Name" in
     let keys := talliedKeys (map String_of values) in
     exists (s : CategoricalStats) (counts : list nat),
       obj_get (stats (fst (calculateStatisticalSummaries protoNamesData)))
         "Name"
       = Some (CategoricalSummary s)
       /\ cat_count s = List.length values
       /\ cat_uniqueValues s = List.length (firstSeen keys)
       /\ cat_uniqueValues s <= List.length keys <= cat_count s
       /\ List.length (cat_topValues s) = Nat.min 10 (cat_uniqueValues s)
       /\ NoDup (map fst (cat_topValues s))
       /\ Forall (fun e => snd e = Count (occurrences keys (fst e))
                           /\ 1 <= occurrences keys (fst e))
            (cat_topValues s)
       /\ map snd (cat_topValues s) = map Count counts
       /\ if Nat.leb (cat_uniqueValues s) 10
          then list_sum counts = List.length keys
          else list_sum counts <= List.length keys.
Proof.
  assert (H1 : merged protoNamesData <> []) by discriminate.
  assert (H2 : In "Name" (columnsToAnalyze protoNamesData))
    by (left; reflexivity).
  assert (H3 : obj_get (columnTypes protoNamesData) "Name" <> Some numeric)
    by discriminate.
  assert (H4 : forallb (fun v => negb (namesBuiltIn (String_of v)))
                 (columnValues (merged protoNamesData) "Name") = true)
    by (vm_compute; reflexivity).
  split; [exact H1|]. split; [exact H2|]. split; [exact H3|].
  split; [exact H4|].
  exact (categorical_summary_counts protoNamesData "Name" H1 H2 H3 H4).
Defined.

(** ** Grouping by survival *)

Lemma filter_split_length {A : Type} (p : A -> bool) l :
  List.length (filter p l) + List.length (filter (fun x => negb (p x)) l)
  = List.length l.
Proof.
  induction l as [|x l IH]; simpl; [reflexivity|].
  destruct (p x); simpl; lia.
Qed.

Lemma meanWhere_nothing_selected label vs :
  filter (fun v : float * float => PrimFloat.eqb (snd v) label) vs = [] ->
  meanWhere label vs = 0%float.
Proof.
  intros H. unfold meanWhere. rewrite H. vm_compute. reflexivity.
Qed.

Lemma survivedValues_label trainData column v :
  In v (survivedValues trainData column) ->
  exists row, In row trainData /\ prop row TARGET_COLUMN = JNum (snd v).
Proof.
  intros H. unfold survivedValues in H. apply in_flat_map in H.
  destruct H as [row [Hrow Hv]]. exists row. split; [exact Hrow|].
  destruct (prop row column); try contradiction.
  destruct (prop row TARGET_COLUMN); try contradiction.
  destruct Hv as [<-|[]]. reflexivity.
Qed.

(** X8.  When no train row carries the label 1, the numeric summary reports
    the survivors' mean as ["0.00"]: the mean of no value is taken as 0
    divided by 1, not as NaN, and the difference is 0 minus the other
    mean. *)
Theorem grouped_mean_without_survivors_is_zero
  (rows : list Row) (column : string) :
  Forall (fun row => strict_eq_num (prop row TARGET_COLUMN) 1%float = false)
    (trainRows rows) ->
  let vs := survivedValues (trainRows rows) column in
  meanWhere 1%float vs = 0%float
  /\ survivedMean (groupedMeans rows column) = "0.00"
  /\ difference (groupedMeans rows column)
     = toFixed (PrimFloat.sub 0%float (meanWhere 0%float vs)) 2.
Proof.
  intros Hall vs.
  assert (Hmean : meanWhere 1%float vs = 0%float).
  { apply meanWhere_nothing_selected. apply filter_none.
    apply Forall_forall. intros v Hv.
    apply survivedValues_label in Hv. destruct Hv as [row [Hrow Hlabel]].
    rewrite Forall_forall in Hall. specialize (Hall row Hrow).
    rewrite Hlabel in Hall. exact Hall. }
  split; [exact Hmean|].
  unfold groupedMeans. cbn [survivedMean difference]. fold vs.
  rewrite Hmean. split; reflexivity.
Qed.

Lemma grouped_mean_without_survivors_witness :
  Forall (fun row => strict_eq_num (prop row TARGET_COLUMN) 1%float = false)
    (trainRows (merged noSurvivorData))
  /\ meanWhere 1%float
       (survivedValues (trainRows (merged noSurvivorData)) "Age") = 0%float
  /\ survivedMean (groupedMeans (merged noSurvivorData) "Age") = "0.00"
  /\ difference (groupedMeans (merged noSurvivorData) "Age")
     = toFixed
         (PrimFloat.sub 0%float
            (meanWhere 0%float
               (survivedValues (trainRows (merged noSurvivorData)) "Age"))) 2.
Proof.
  assert (H : Forall
                (fun row =>
                   strict_eq_num (prop row TARGET_COLUMN) 1%float = false)
                (trainRows (merged noSurvivorData)))
    by (repeat constructor).
  split; [exact H|].
  exact (grouped_mean_without_survivors_is_zero (merged noSurvivorData) "Age" H).
Defined.

Lemma groupedCounts_NoDup column trainData :
  forall acc, NoDup (map fst acc) ->
    NoDup (map fst (fold_left (groupedStep column) trainData acc)).
Proof.
  induction trainData as [|row rows IH]; intros acc H; simpl; [exact H|].
  apply IH. unfold groupedStep.
  destruct (negb (is_null (prop row column))
            && negb (is_undefined (prop row column))
            && negb (is_null (prop row TARGET_COLUMN))
            && negb (is_undefined (prop row TARGET_COLUMN))); [|exact H].
  destruct (obj_read acc (String_of (prop row column))) as [[s n]|i|];
    [|exact H|];
    destruct (strict_eq_num (prop row TARGET_COLUMN) 1%float);
    now apply obj_set_NoDup.
Qed.

(** X9.  The grouped survival rates of a categorical column list at most ten
    distinct values.  For each of them at least one train row is counted
    (a row whose value and label are neither [null] nor [undefined]), the
    survivors are the counted rows labelled 1, survivors and non-survivors
    together are all counted rows, and the rate is the survivors' share of
    them in percent, printed with one decimal. *)
Theorem grouped_survival_rates_count_every_considered_row
  (rows : list Row) (column : string) :
  let rates := groupedSurvivalRates rows column in
  List.length rates <= 10
  /\ NoDup (map sr_value rates)
  /\ Forall
       (fun r =>
          let considered :=
            filter (groupedRow column (sr_value r)) (trainRows rows) in
          0 < List.length considered
          /\ sr_survived r = List.length (filter labelIsOne considered)
          /\ sr_survived r + sr_notSurvived r = List.length considered
          /\ sr_survivalRate r
             = toFixed
                 (PrimFloat.mul
                    (PrimFloat.div (Number_of_nat (sr_survived r))
                       (Number_of_nat (List.length considered)))
                    100%float) 1)
       rates.
Proof.
  intros rates. subst rates. unfold groupedSurvivalRates.
  set (counts := groupedCounts (trainRows rows) column).
  set (entries := Object_entries counts).
  set (sorted := Array_sort bySurvivalRateDescending
                   (map survivalRateOf entries)).
  assert (Hperm : Permutation sorted (map survivalRateOf entries))
    by apply Array_sort_perm.
  assert (Hvalue : forall e, sr_value (survivalRateOf e) = fst e)
    by (intros [k [s n]]; reflexivity).
  split; [rewrite length_firstn; lia|].
  split.
  { rewrite <- firstn_map. apply NoDup_firstn.
    eapply Permutation_NoDup;
      [symmetry; apply (Permutation_map sr_value Hperm)|].
    rewrite map_map. rewrite (map_ext _ fst Hvalue).
    unfold entries. rewrite Object_entries_keys.
    apply Object_keys_NoDup. unfold counts, groupedCounts.
    apply groupedCounts_NoDup. constructor. }
  apply Forall_forall. intros r Hr. apply In_firstn in Hr.
  apply (Permutation_in _ Hperm) in Hr. apply in_map_iff in Hr.
  destruct Hr as [[k [s n]] [<- He]].
  pose proof (Object_entries_agree counts) as Hagree.
  rewrite Forall_forall in Hagree. specialize (Hagree _ He).
  cbn [fst snd] in Hagree. unfold counts in Hagree.
  rewrite groupedCounts_tallies in Hagree.
  destruct (Object_prototype k); [discriminate|].
  cbn [survivalRateOf sr_value sr_survived sr_notSurvived sr_survivalRate].
  set (considered := filter (groupedRow column k) (trainRows rows)) in *.
  pose proof (filter_split_length labelIsOne considered) as Hsplit.
  assert (Hc : 0 < List.length considered
               /\ s = List.length (filter labelIsOne considered)
               /\ n = List.length
                        (filter (fun row => negb (labelIsOne row)) considered)).
  { destruct considered as [|row0 rest]; [discriminate|].
    injection Hagree as <- <-.
    split; [simpl; lia|]. split; reflexivity. }
  destruct Hc as (Hpos & Hs & Hn). rewrite <- Hs, <- Hn in Hsplit.
  split; [exact Hpos|]. split; [exact Hs|]. split; [exact Hsplit|].
  rewrite Hsplit.
  destruct (Nat.ltb_spec 0 (List.length considered)); [reflexivity|lia].
Qed.

(** ** The correlation matrix and the train batch *)

Lemma numericColumns_not_source st column :
  In column (numericColumns st) -> column <> "source".
Proof.
  unfold numericColumns. intros H. apply in_app_or in H.
  destruct H as [H|H].
  - apply filter_In in H. destruct H as [H _].
    simpl in H. intuition (subst; discriminate).
  - destruct (is_numeric_type (obj_get (columnTypes st) TARGET_COLUMN));
      simpl in H; intuition (subst; discriminate).
Qed.

Lemma validPairs_withSource tag rows col1 col2 :
  col1 <> "source" -> col2 <> "source" ->
  validPairs (withSource tag rows) col1 col2 = validPairs rows col1 col2.
Proof.
  intros H1 H2. unfold validPairs, withSource.
  induction rows as [|row rows IH]; [reflexivity|].
  cbn [map flat_map]. rewrite IH.
  now rewrite !prop_withSource.
Qed.

(** X10.  The correlation matrix of freshly merged data is computed from the
    train batch as it was parsed: each entry off the diagonal is the
    coefficient of the valid pairs of the train records, whatever the test
    file holds. *)
Theorem correlation_matrix_is_computed_from_the_train_batch
  (trainData testData : list Row) (st : TitanicData) (M : list (list float)) :
  let st' := fst (loadAndMergeDatasets (Some (Resolved trainData))
                    (Some (Resolved testData)) st) in
  correlations st' = Some M ->
  let cols := numericColumns st' in
  Forall
    (fun i =>
       Forall
         (fun j =>
            entry M i j
            = if Nat.eqb i j then 1%float
              else correlationOf
                     (validPairs trainData (nth i cols "") (nth j cols "")))
         (seq 0 (List.length cols)))
    (seq 0 (List.length cols)).
Proof.
  intros st' HM cols.
  destruct (loadAndMergeDatasets_resolved trainData testData st) as (Hm & _).
  fold st' in Hm.
  unfold correlations in HM. fold cols in HM.
  destruct (Nat.ltb (List.length cols) 2); [discriminate|].
  injection HM as <-. unfold correlationsOver.
  rewrite Hm, trainRows_withSource.
  set (e := correlationEntry (withSource "train" trainData) cols).
  apply Forall_forall. intros i Hi. apply Forall_forall. intros j Hj.
  apply in_seq in Hi, Hj. rewrite (matrix_entry e).
  assert (Hi' : Nat.ltb i (List.length cols) = true) by (apply Nat.ltb_lt; lia).
  assert (Hj' : Nat.ltb j (List.length cols) = true) by (apply Nat.ltb_lt; lia).
  rewrite Hi', Hj'. cbn [andb]. subst e. unfold correlationEntry.
  destruct (Nat.eqb i j); [reflexivity|].
  rewrite validPairs_withSource; [reflexivity| |];
    apply (numericColumns_not_source st'), nth_In; fold cols; lia.
Qed.

Lemma correlation_train_batch_witness :
  correlations scenarioData
  = Some [[1%float; 0x1.ffffffffffffep-1%float];
          [0x1.ffffffffffffep-1%float; 1%float]]
  /\ Forall
       (fun i =>
          Forall
            (fun j =>
               entry [[1%float; 0x1.ffffffffffffep-1%float];
                      [0x1.ffffffffffffep-1%float; 1%float]] i j
               = if Nat.eqb i j then 1%float
                 else correlationOf
                        (validPairs scenarioTrain
                           (nth i (numericColumns scenarioData) "")
                           (nth j (numericColumns scenarioData) "")))
            (seq 0 (List.length (numericColumns scenarioData))))
       (seq 0 (List.length (numericColumns scenarioData))).
Proof.
  split; [vm_compute; reflexivity|].
  apply (correlation_matrix_is_computed_from_the_train_batch
           scenarioTrain scenarioTest initialData).
  vm_compute. reflexivity.
Defined.

(** ** Reloading and the stored analysis *)

Lemma Object_keys_length {V : Type} (o : JsObject V) :
  List.length (Object_keys o) = List.length o.
Proof.
  rewrite (Permutation_length (Object_keys_perm o)). apply length_map.
Qed.

Lemma determineColumnTypes_analysis st :
  missingValues (determineColumnTypes st) = missingValues st
  /\ stats (determineColumnTypes st) = stats st.
Proof.
  unfold determineColumnTypes. destruct (merged st); split; reflexivity.
Qed.

(** X12.  Loading never touches the stored analysis: whatever the outcome of
    a load, [missingValues] and [stats] stay as they were, so until the
    analysis is run again [exportStatistics] writes the summaries of the
    previous rows under the row counts of the new ones. *)
Theorem loading_keeps_the_previous_analysis
  (trainFile testFile : option ParseOutcome) (st : TitanicData) :
  let st' := fst (loadAndMergeDatasets trainFile testFile st) in
  missingValues st' = missingValues st
  /\ stats st' = stats st
  /\ fst (exportStatistics st') = fst (exportStatistics st)
  /\ match snd (exportStatistics st') with
     | None => stats st = []
     | Some exported =>
         exp_statistics exported = stats st
         /\ exp_missingValues exported = missingValues st
         /\ meta_totalRows (exp_metadata exported) = List.length (merged st')
         /\ meta_trainRows (exp_metadata exported) = trainCount st'
         /\ meta_testRows (exp_metadata exported) = testCount st'
     end.
Proof.
  intros st'.
  assert (H : missingValues st' = missingValues st /\ stats st' = stats st).
  { subst st'. unfold loadAndMergeDatasets.
    destruct trainFile as [[trainData|m1]|]; [| |now split];
      (destruct testFile as [[testData|m2]|]; [| |now split]);
      try (now split).
    cbn [fst].
    match goal with
    | |- context [determineColumnTypes ?s] =>
        destruct (determineColumnTypes_analysis s) as [H1 H2];
        rewrite H1, H2
    end.
    destruct (withSource "train" trainData ++ withSource "test" testData);
      split; reflexivity. }
  destruct H as [Hmv Hst]. split; [exact Hmv|]. split; [exact Hst|].
  unfold exportStatistics. rewrite Hst, Hmv, !Object_keys_length.
  destruct (stats st) as [|e es]; simpl.
  - split; reflexivity.
  - split; [reflexivity|]. repeat split; reflexivity.
Qed.

(** ** The bar chart of a categorical column *)

Lemma barValueCounts_tally trainData column :
  barValueCounts trainData column
  = tally
      (map String_of
         (filter (fun v => negb (is_null v) && negb (is_undefined v))
            (map (fun row => prop row column) trainData))).
Proof.
  unfold barValueCounts, tally. generalize (@nil (string * Tallied)).
  induction trainData as [|row rows IH]; intros acc; [reflexivity|].
  cbn [fold_left map filter]. rewrite IH.
  destruct (negb (is_null (prop row column))
            && negb (is_undefined (prop row column))); reflexivity.
Qed.

Lemma barSurvivalRates_get trainData column labels label :
  obj_get (barSurvivalRates trainData column labels) label
  = if in_dec string_dec label labels
    then match categoryRows trainData column label with
         | [] => None
         | rows =>
             Some (toFixed
                     (PrimFloat.mul
                        (PrimFloat.div
                           (Number_of_nat
                              (List.length
                                 (filter
                                    (fun row =>
                                       strict_eq_num (prop row TARGET_COLUMN)
                                         1%float)
                                    rows)))
                           (Number_of_nat (List.length rows)))
                        100%float) 1)
         end
    else None.
Proof.
  unfold barSurvivalRates.
  rewrite (fold_left_pointwise _
             (fun o l =>
                if negb (Nat.ltb 0
                           (List.length (categoryRows trainData column l)))
                then o
                else obj_set o l
                       (toFixed
                          (PrimFloat.mul
                             (PrimFloat.div
                                (Number_of_nat
                                   (List.length
                                      (filter
                                         (fun row =>
                                            strict_eq_num
                                              (prop row TARGET_COLUMN) 1%float)
                                         (categoryRows trainData column l))))
                                (Number_of_nat
                                   (List.length
                                      (categoryRows trainData column l))))
                             100%float) 1))).
  - rewrite (fold_obj_set_skip_get
               (fun l => negb (Nat.ltb 0
                                 (List.length (categoryRows trainData column l))))
               (fun l =>
                  toFixed
                    (PrimFloat.mul
                       (PrimFloat.div
                          (Number_of_nat
                             (List.length
                                (filter
                                   (fun row =>
                                      strict_eq_num
                                        (prop row TARGET_COLUMN) 1%float)
                                   (categoryRows trainData column l))))
                          (Number_of_nat
                             (List.length (categoryRows trainData column l))))
                       100%float) 1)).
    destruct (in_dec string_dec label labels); [|reflexivity].
    destruct (categoryRows trainData column label); reflexivity.
  - intros o l.
    destruct (Nat.ltb 0 (List.length (categoryRows trainData column l)));
      reflexivity.
Qed.

Lemma talliedKeys_plain keys k :
  forallb (fun k => negb (namesBuiltIn k)) keys = true ->
  In k (talliedKeys keys) -> Object_prototype k = None.
Proof.
  intros Hk Hin. unfold talliedKeys in Hin. apply filter_In in Hin.
  destruct Hin as [Hin Hp]. apply negb_true_iff in Hp.
  rewrite forallb_forall in Hk. specialize (Hk k Hin).
  apply negb_true_iff in Hk. now apply Object_prototype_plain.
Qed.

(** X13.  When no value of the column in the train rows prints as the name
    of a function of [Object.prototype], the bar chart has one bar per
    distinct printed value, other than "__proto__", of the train rows that
    have a value ([null] and [undefined] left out); a bar's height is the
    number of these rows printing as its label, so the heights add up to the
    number of such rows.  The survival rate of a label is taken over the
    train rows printing as the label whose target is not [undefined], and is
    shown as the Number 0 when there is no such row. *)
Theorem bar_chart_counts_every_train_row_with_a_value
  (st : TitanicData) (column : string) :
  let trainData := trainRows (merged st) in
  let values :=
    filter (fun v => negb (is_null v) && negb (is_undefined v))
      (map (fun row => prop row column) trainData) in
  forallb (fun v => negb (namesBuiltIn (String_of v))) values = true ->
  let chart := createBarChart st column in
  let keys := talliedKeys (map String_of values) in
  NoDup (bar_labels chart)
  /\ (forall label, In label (bar_labels chart) <-> In label keys)
  /\ bar_counts chart
     = map (fun label => Count (occurrences keys label)) (bar_labels chart)
  /\ list_sum (map (occurrences keys) (bar_labels chart)) = List.length keys
  /\ bar_survivalRates chart
     = map
         (fun label =>
            match categoryRows trainData column label with
            | [] => Shown (JNum 0%float)
            | rows =>
                Shown
                  (JStr (toFixed
                           (PrimFloat.mul
                              (PrimFloat.div
                                 (Number_of_nat
                                    (List.length
                                       (filter
                                          (fun row =>
                                             strict_eq_num
                                               (prop row TARGET_COLUMN) 1%float)
                                          rows)))
                                 (Number_of_nat (List.length rows)))
                              100%float) 1))
            end)
         (bar_labels chart).
Proof.
  intros trainData values Hplain chart keys. subst chart.
  unfold createBarChart.
  cbn [bar_labels bar_counts bar_survivalRates]. fold trainData.
  rewrite barValueCounts_tally. fold values.
  assert (Hkeys0 : forallb (fun k => negb (namesBuiltIn k))
                     (map String_of values) = true)
    by now rewrite forallb_mapped.
  rewrite (tally_countsOf _ Hkeys0). fold keys.
  rewrite Object_keys_countedObject, Object_entries_countedObject.
  set (order := enumerationOrder (firstSeen keys)).
  assert (Hentries : Object_entries (countsOf keys)
                     = map (fun k => (k, occurrences keys k)) order)
    by apply countsOf_entries.
  assert (Hkeys : Object_keys (countsOf keys) = order).
  { rewrite <- Object_entries_keys, Hentries.
    rewrite map_map. apply map_id. }
  assert (Hnd : NoDup order).
  { eapply Permutation_NoDup; [symmetry; apply enumerationOrder_perm|].
    apply firstSeenFrom_NoDup. constructor. }
  assert (Hcov : forall k, In k order <-> In k keys).
  { intros k. unfold order. rewrite enumerationOrder_In.
    unfold firstSeen. rewrite firstSeenFrom_In. simpl. tauto. }
  rewrite Hkeys, Hentries, !map_map. cbn [counted fst snd].
  split; [exact Hnd|]. split; [exact Hcov|]. split; [reflexivity|].
  split; [rewrite occurrences_sum; [reflexivity|exact Hnd|apply Hcov]|].
  apply map_ext_in. intros label Hin.
  unfold obj_read. rewrite barSurvivalRates_get.
  destruct (in_dec string_dec label order); [|contradiction].
  assert (Hlabel : Object_prototype label = None).
  { apply (talliedKeys_plain (map String_of values)); [exact Hkeys0|].
    now apply Hcov. }
  rewrite Hlabel.
  destruct (categoryRows trainData column label); reflexivity.
Qed.

Lemma bar_chart_witness :
  let trainData := trainRows (merged scenarioData) in
  let values :=
    filter (fun v => negb (is_null v) && negb (is_undefined v))
      (map (fun row => prop row "Sex") trainData) in
  let chart := createBarChart scenarioData "Sex" in
  let keys := talliedKeys (map String_of values) in
  forallb (fun v => negb (namesBuiltIn (String_of v))) values = true
  /\ NoDup (bar_labels chart)
  /\ (forall label, In label (bar_labels chart) <-> In label keys)
  /\ bar_counts chart
     = map (fun label => Count (occurrences keys label)) (bar_labels chart)
  /\ list_sum (map (occurrences keys) (bar_labels chart)) = List.length keys
  /\ bar_survivalRates chart
     = map
         (fun label =>
            match categoryRows trainData "Sex" label with
            | [] => Shown (JNum 0%float)
            | rows =>
                Shown
                  (JStr (toFixed
                           (PrimFloat.mul
                              (PrimFloat.div
                                 (Number_of_nat
                                    (List.length
                                       (filter
                                          (fun row =>
                                             strict_eq_num
                                               (prop row TARGET_COLUMN) 1%float)
                                          rows)))
                                 (Number_of_nat (List.length rows)))
                              100%float) 1))
            end)
         (bar_labels chart).
Proof.
  cbv zeta.
  assert (H : forallb (fun v => negb (namesBuiltIn (String_of v)))
                (filter (fun v => negb (is_null v) && negb (is_undefined v))
                   (map (fun row => prop row "Sex")
                      (trainRows (merged scenarioData)))) = true)
    by (vm_compute; reflexivity).
  split; [exact H|].
  exact (bar_chart_counts_every_train_row_with_a_value scenarioData "Sex" H).
Defined.

(** The bar chart of [Sex] in the sample data. *)
Example scenario_bar_chart :
  createBarChart scenarioData "Sex"
  = {| bar_labels := ["male"; "female"];
       bar_counts := [Count 1; Count 1];
       bar_survivalRates := [Shown (JStr "0.0"); Shown (JStr "100.0")] |}.
Proof. vm_compute. reflexivity. Qed.

(** A label that names a function of [Object.prototype] shows a text as its
    count and, having no rate of its own, the inherited function as its
    rate. *)
Example bar_chart_of_inherited_names :
  createBarChart
    {| merged := [[("Name", JStr "toString"); ("source", JStr "train")];
                  [("Name", JStr "__proto__"); ("source", JStr "train")]];
       trainCount := 2; testCount := 0; columns := ["Name"; "source"];
       columnTypes := []; missingValues := []; stats := [] |}
    "Name"
  = {| bar_labels := ["toString"];
       bar_counts := [Text "function toString() { [native code] }1"];
       bar_survivalRates := [ShownInherited (BuiltIn "toString")] |}.
Proof. vm_compute. reflexivity. Qed.

(** ** The earlier variant: overview, gender analysis and session *)

(** X14.  In the overview of freshly merged data the total is the sum of the
    two batch sizes, and the rows reported as lacking [Survived] are all test
    rows plus the train rows whose [Survived] is [null] or [undefined]. *)
Theorem overview_counts_after_load
  (trainData testData : list Row) (g : Legacy.Globals) :
  let g' := fst (Legacy.loadAndMergeData
                   (Some {| Legacy.data := trainData; Legacy.errors := [] |})
                   (Some {| Legacy.data := testData; Legacy.errors := [] |})
                   g) in
  let overview := Legacy.displayDatasetOverview g' in
  Legacy.ov_trainRows overview = List.length trainData
  /\ Legacy.ov_testRows overview = List.length testData
  /\ Legacy.ov_totalRows overview
     = Legacy.ov_trainRows overview + Legacy.ov_testRows overview
  /\ Legacy.ov_missingSurvived overview
     = List.length testData
       + List.length
           (filter
              (fun row => is_null (prop row "Survived")
                          || is_undefined (prop row "Survived"))
              trainData).
Proof.
  intros g' overview. subst overview g'.
  unfold Legacy.displayDatasetOverview.
  cbn [Legacy.ov_trainRows Legacy.ov_testRows Legacy.ov_totalRows
       Legacy.ov_missingSurvived].
  cbn [Legacy.loadAndMergeData Legacy.errors Legacy.data fst
       Legacy.mergedData Legacy.trainData Legacy.testData].
  rewrite length_app, !withSource_length.
  split; [reflexivity|]. split; [reflexivity|]. split; [reflexivity|].
  rewrite filter_app, length_app, Nat.add_comm. f_equal.
  - rewrite filter_all; [apply withSource_length|].
    eapply Forall_impl; [|apply withSource_source].
    intros row H. simpl in H. now rewrite H.
  - unfold withSource. induction trainData as [|row rows IH]; [reflexivity|].
    cbn [map filter].
    rewrite (prop_withSource "train" row "Survived") by discriminate.
    assert (Hs : prop (spread_with row "source" (JStr "train")) "source"
                 = JStr "train")
      by (unfold prop; now rewrite obj_get_spread_with).
    rewrite Hs. cbn [strict_eq_str String.eqb Ascii.eqb Bool.eqb orb].
    destruct (is_null (prop row "Survived") || is_undefined (prop row "Survived"));
      simpl; now rewrite IH.
Qed.

Lemma div_by_NaN x : PrimFloat.div x PrimFloat.nan = PrimFloat.nan.
Proof.
  apply Prim2SF_inj. rewrite div_spec.
  change (Prim2SF PrimFloat.nan) with S754_nan.
  now destruct (Prim2SF x) as [s|s| |s m e].
Qed.

Lemma filter_filter_nil {A : Type} (p q : A -> bool) l :
  filter p l = [] -> filter p (filter q l) = [].
Proof.
  intros H. induction l as [|x l IH]; [reflexivity|].
  simpl in H. destruct (p x) eqn:Ep; [discriminate|].
  simpl. destruct (q x); simpl; [rewrite Ep|]; auto.
Qed.

(** X15.  Without a male passenger among the train rows the gender analysis
    stores NaN as the male survival rate and as the survival ratio (the
    overall rates divide by the size of the group unguarded), while every
    per-class male rate is the fallback ["0"]. *)
Theorem gender_analysis_without_male_passengers
  (g : Legacy.Globals) (analysis : Legacy.GenderAnalysis) :
  Legacy.analyzeGenderImpact g = Some analysis ->
  Legacy.malePassengers analysis = 0 ->
  isNaN (Legacy.maleSurvivalRate analysis) = true
  /\ isNaN (Legacy.survivalRatio analysis) = true
  /\ map fst (Legacy.genderByClass analysis) = ["1"; "2"; "3"]
  /\ Forall
       (fun entry => Legacy.maleRate (snd entry) = "0"
                     /\ Legacy.maleCount (snd entry) = 0)
       (Legacy.genderByClass analysis).
Proof.
  unfold Legacy.analyzeGenderImpact.
  destruct (Legacy.mergedData g) as [|row0 rest]; [discriminate|].
  cbv zeta. set (trainingData := trainRows (row0 :: rest)).
  intros Ha Hmale. injection Ha as <-.
  cbn [Legacy.malePassengers] in Hmale.
  apply length_zero_iff_nil in Hmale.
  cbn [Legacy.maleSurvivalRate Legacy.survivalRatio Legacy.genderByClass].
  rewrite Hmale. cbn [filter List.length].
  change (Legacy.percentText 0 0) with "NaN".
  change (parseFloat "NaN") with PrimFloat.nan.
  rewrite div_by_NaN.
  split; [reflexivity|]. split; [reflexivity|].
  split; [vm_compute; reflexivity|].
  assert (Hclass : forall pclass,
             Legacy.maleRate (Legacy.classRatesOf trainingData pclass) = "0"
             /\ Legacy.maleCount (Legacy.classRatesOf trainingData pclass) = 0).
  { intros pclass. unfold Legacy.classRatesOf.
    cbn [Legacy.maleRate Legacy.maleCount].
    rewrite (filter_filter_nil Legacy.isMale _ trainingData Hmale).
    split; reflexivity. }
  cbn [fold_left].
  change (Number_toString 1%float) with "1".
  change (Number_toString 2%float) with "2".
  change (Number_toString 3%float) with "3".
  cbn [obj_set String.eqb Ascii.eqb Bool.eqb].
  repeat constructor; apply Hclass.
Qed.

Lemma gender_analysis_without_male_witness :
  Legacy.analyzeGenderImpact femaleOnlyGlobals = Some femaleOnlyAnalysis
  /\ Legacy.malePassengers femaleOnlyAnalysis = 0
  /\ isNaN (Legacy.maleSurvivalRate femaleOnlyAnalysis) = true
  /\ isNaN (Legacy.survivalRatio femaleOnlyAnalysis) = true
  /\ map fst (Legacy.genderByClass femaleOnlyAnalysis) = ["1"; "2"; "3"]
  /\ Forall
       (fun entry => Legacy.maleRate (snd entry) = "0"
                     /\ Legacy.maleCount (snd entry) = 0)
       (Legacy.genderByClass femaleOnlyAnalysis).
Proof.
  assert (H : Legacy.analyzeGenderImpact femaleOnlyGlobals
              = Some femaleOnlyAnalysis) by (vm_compute; reflexivity).
  split; [exact H|]. split; [reflexivity|].
  exact (gender_analysis_without_male_passengers femaleOnlyGlobals
           femaleOnlyAnalysis H eq_refl).
Defined.

(** X16.  [resetAll] empties the globals, so that after it the analysis and
    the CSV export refuse and their buttons are disabled; it does not clear
    what [window] keeps, so the statistics of the last analysis are exported
    as before and the Export Statistics button stays as it was. *)
Theorem reset_clears_the_data_but_not_the_statistics (s : Legacy.Session) :
  let s' := fst (fst (Legacy.resetAll s)) in
  let ui := snd (fst (Legacy.resetAll s)) in
  Legacy.globals s' = Legacy.initialGlobals
  /\ Legacy.runFullEDA s'
     = (s', ("Please load data first", Legacy.error), None)
  /\ Legacy.exportMergedData s' = (("No data to export", Legacy.error), None)
  /\ Legacy.exportStatistics s' = Legacy.exportStatistics s
  /\ Legacy.runEdaBtn_disabled ui = true
  /\ Legacy.showChartsBtn_disabled ui = true
  /\ Legacy.exportCsvBtn_disabled ui = true
  /\ Legacy.exportStatsBtn_disabled ui
     = Legacy.exportStatsBtn_disabled (Legacy.updateUIState s)
  /\ snd (Legacy.resetAll s)
     = ("Application reset successfully", Legacy.success).
Proof.
  destruct s as [g cs ga]. cbn.
  repeat split; reflexivity.
Qed.


(** ** The age histogram *)

Ltac split_comparisons :=
  repeat match goal with
         | |- context [Z.leb ?a ?b] =>
             destruct (Z.leb_spec a b); try (exfalso; lia)
         | |- context [Z.ltb ?a ?b] =>
             destruct (Z.ltb_spec a b); try (exfalso; lia)
         end.

(** The loop over the bins stops at the bin whose interval holds the age. *)
Lemma ageBin_found x i :
  isNaN x = false -> i < 8 ->
  match find (Legacy.ageBinHit x) (seq 0 8) with
  | Some j => Nat.eqb j i
  | None => false
  end = inAgeBin i x.
Proof.
  intros Hx Hi. unfold Legacy.ageBinHit, inAgeBin.
  assert (Hc : (rank 0%float < rank 10%float < rank 20%float)%Z
               /\ (rank 20%float < rank 30%float < rank 40%float)%Z
               /\ (rank 40%float < rank 50%float < rank 60%float)%Z
               /\ (rank 60%float < rank 70%float < rank 80%float)%Z)
    by (vm_compute; repeat split; reflexivity).
  do 8 (destruct i as [|i]; [
    cbn [seq find nth Legacy.ageBins List.length Nat.sub Nat.add Nat.eqb];
    rewrite ?leb_rank, ?ltb_rank by (assumption || reflexivity);
    revert Hc;
    generalize (rank 0%float), (rank 10%float), (rank 20%float),
      (rank 30%float), (rank 40%float), (rank 50%float), (rank 60%float),
      (rank 70%float), (rank 80%float), (rank x);
    intros c0 c1 c2 c3 c4 c5 c6 c7 c8 r Hc;
    split_comparisons; reflexivity |]).
  lia.
Qed.

Lemma increment_length i counts :
  List.length (increment i counts) = List.length counts.
Proof.
  revert i. induction counts as [|c counts IH]; intros [|i]; simpl; auto.
Qed.

Lemma increment_nth i counts j :
  nth j (increment i counts) 0
  = nth j counts 0
    + (if Nat.eqb i j && Nat.ltb i (List.length counts) then 1 else 0).
Proof.
  revert i j. induction counts as [|c counts IH]; intros i j.
  - destruct i, j; simpl; try reflexivity; now rewrite andb_false_r.
  - destruct i as [|i], j as [|j]; simpl; try lia.
    rewrite IH. reflexivity.
Qed.

(** Counting into bins: after the loop, bin [j] holds what it held before
    plus the number of items sent to it. *)
Lemma binning_fold {A : Type} (binOf : A -> option nat) items :
  forall counts,
    let result :=
      fold_left
        (fun groups item =>
           match binOf item with
           | Some i => increment i groups
           | None => groups
           end)
        items counts in
    List.length result = List.length counts
    /\ forall j, j < List.length counts ->
         nth j result 0
         = nth j counts 0
           + List.length
               (filter
                  (fun item => match binOf item with
                               | Some i => Nat.eqb i j
                               | None => false
                               end)
                  items).
Proof.
  induction items as [|item items IH]; intros counts; cbn zeta.
  - split; [reflexivity|]. intros j _. simpl. lia.
  - cbn [fold_left filter].
    destruct (binOf item) as [i|] eqn:E.
    + destruct (IH (increment i counts)) as [Hl Hn]. cbn zeta in Hl, Hn.
      rewrite increment_length in Hl, Hn.
      split; [exact Hl|]. intros j Hj. rewrite (Hn j Hj), increment_nth.
      destruct (Nat.eqb_spec i j) as [->|Hne]; cbn [andb].
      * assert (Hlt : Nat.ltb j (List.length counts) = true)
          by now apply Nat.ltb_lt.
        rewrite Hlt. simpl. lia.
      * lia.
    + destruct (IH counts) as [Hl Hn]. split; [exact Hl|exact Hn].
Qed.

Lemma nth_repeat_zero n j : nth j (repeat 0 n) 0 = 0.
Proof.
  revert j. induction n as [|n IH]; intros [|j]; simpl; auto.
Qed.

Lemma list_sum_double_count {A B : Type} (p : A -> B -> bool) la lb :
  list_sum (map (fun a => List.length (filter (p a) lb)) la)
  = list_sum (map (fun b => List.length (filter (fun a => p a b) la)) lb).
Proof.
  induction la as [|a la IH]; simpl.
  - induction lb as [|b lb IHb]; simpl; auto.
  - rewrite IH. clear IH. induction lb as [|b lb IHb]; simpl; [reflexivity|].
    destruct (p a b); simpl; lia.
Qed.

Lemma length_filter_sum {A : Type} (p : A -> bool) l :
  List.length (filter p l)
  = list_sum (map (fun x => if p x then 1 else 0) l).
Proof.
  induction l as [|x l IH]; simpl; [reflexivity|].
  destruct (p x); simpl; lia.
Qed.

(** A Number at or above 0 lies in exactly one age bin, a negative one in
    none. *)
Lemma age_bins_partition x :
  isNaN x = false ->
  List.length (filter (fun i => inAgeBin i x) (seq 0 8))
  = if PrimFloat.leb 0%float x then 1 else 0.
Proof.
  intros Hx. unfold inAgeBin.
  assert (Hc : (rank 0%float < rank 10%float < rank 20%float)%Z
               /\ (rank 20%float < rank 30%float < rank 40%float)%Z
               /\ (rank 40%float < rank 50%float < rank 60%float)%Z
               /\ (rank 60%float < rank 70%float < rank 80%float)%Z)
    by (vm_compute; repeat split; reflexivity).
  cbn [seq filter nth Legacy.ageBins Nat.add Nat.eqb orb].
  rewrite ?leb_rank, ?ltb_rank by (assumption || reflexivity).
  revert Hc.
  generalize (rank 0%float), (rank 10%float), (rank 20%float),
    (rank 30%float), (rank 40%float), (rank 50%float), (rank 60%float),
    (rank 70%float), (rank 80%float), (rank x).
  intros c0 c1 c2 c3 c4 c5 c6 c7 c8 r Hc.
  split_comparisons; reflexivity.
Qed.

(** X17.  The age histogram has the eight bars 0-10, ..., 70-80.  Every age
    that passes the validity filter is counted in the bar whose interval
    [10 i <= age < 10 (i + 1)] holds it; the last bar also takes every age of
    80 and above, and an age below 0 is counted in no bar: the bars add up
    to the number of valid ages that are at least 0. *)
Theorem age_histogram_counts_each_age_once (rows : list Row) :
  let chart := Legacy.generateAgeChart rows in
  let ages :=
    map ToNumber
      (filter Legacy.validValue (map (fun row => prop row "Age") rows)) in
  Legacy.age_labels chart
  = ["0-10"; "10-20"; "20-30"; "30-40"; "40-50"; "50-60"; "60-70"; "70-80"]
  /\ Legacy.ageGroups chart
     = map (fun i => List.length (filter (inAgeBin i) ages)) (seq 0 8)
  /\ list_sum (Legacy.ageGroups chart)
     = List.length (filter (PrimFloat.leb 0%float) ages).
Proof.
  intros chart ages.
  set (values := filter Legacy.validValue (map (fun row => prop row "Age") rows))
    in *.
  assert (Hvalid : Forall (fun x => isNaN x = false) ages).
  { apply Forall_forall. intros x Hx. apply in_map_iff in Hx.
    destruct Hx as [v [<- Hv]]. apply filter_In in Hv. destruct Hv as [_ Hv].
    unfold Legacy.validValue in Hv. apply andb_prop in Hv.
    destruct Hv as [_ Hv]. now apply negb_true_iff in Hv. }
  assert (Hgroups : Legacy.ageGroups chart
                    = map (fun i => List.length (filter (inAgeBin i) ages))
                        (seq 0 8)).
  { subst chart. unfold Legacy.generateAgeChart. cbn [Legacy.ageGroups].
    fold values.
    change (List.length Legacy.ageBins - 1) with 8.
    destruct (binning_fold Legacy.ageBinOf values (repeat 0 8)) as [Hl Hn].
    cbn zeta in Hl, Hn. rewrite repeat_length in Hl, Hn.
    apply (nth_ext _ _ 0 0).
    - now rewrite Hl, length_map, length_seq.
    - intros j Hj. rewrite Hl in Hj. rewrite (Hn j Hj), nth_repeat_zero.
      rewrite (nth_indep _ 0 (List.length (filter (inAgeBin 0) ages)))
        by now rewrite length_map, length_seq.
      rewrite (map_nth (fun i => List.length (filter (inAgeBin i) ages))).
      rewrite seq_nth by exact Hj. cbn [Nat.add].
      unfold ages. clear Hl Hn.
      assert (Hv : Forall (fun v => isNaN (ToNumber v) = false) values).
      { apply Forall_forall. intros v Hv. rewrite Forall_forall in Hvalid.
        apply Hvalid. unfold ages. now apply in_map. }
      clear Hvalid. induction Hv as [|v vs Hv _ IH]; [reflexivity|].
      cbn [map filter]. unfold Legacy.ageBinOf at 1.
      change (List.length Legacy.ageBins - 1) with 8.
      rewrite (ageBin_found (ToNumber v) j Hv Hj).
      destruct (inAgeBin j (ToNumber v)); simpl; rewrite <- IH; reflexivity. }
  split; [vm_compute; reflexivity|]. split; [exact Hgroups|].
  rewrite Hgroups.
  etransitivity;
    [exact (list_sum_double_count (fun i x => inAgeBin i x) (seq 0 8) ages)|].
  rewrite length_filter_sum. f_equal.
  apply map_ext_in. intros x Hx. rewrite Forall_forall in Hvalid.
  now apply age_bins_partition, Hvalid.
Qed.

(** An age that is a string is binned by the Number it reads as, white
    space of any script dropped. *)
Example age_histogram_of_text :
  Legacy.ageGroups
    (Legacy.generateAgeChart
       [[("Age", JStr (NBSP ++ "+5"))]; [("Age", JStr "0x50")];
        [("Age", JStr "5 years")]; [("Age", JNum 31%float)]])
  = [1; 0; 0; 1; 0; 0; 0; 1].
Proof. vm_compute. reflexivity. Qed.

(** ** The fare histogram *)

Lemma fare_bin_same_bounds (m : float) (i : nat) fares :
  Nat.eqb i (Legacy.binCount - 1) = false ->
  forall groups,
    fold_left
      (fun counts fare =>
         if PrimFloat.leb m (ToNumber fare)
            && (Nat.eqb i (Legacy.binCount - 1)
                || PrimFloat.ltb (ToNumber fare) m)
         then increment i counts else counts)
      fares groups
    = groups.
Proof.
  intros Hi groups.
  rewrite (fold_left_pointwise _ (fun counts _ => counts)).
  - induction fares as [|fare fares IH]; [reflexivity|exact IH].
  - intros counts fare. rewrite Hi. cbn [orb].
    now rewrite leb_ltb_false.
Qed.

Lemma fareLoop_few_fares fares sortedFares binSize :
  List.length sortedFares <= 9 ->
  binSize = (List.length sortedFares + 9) / 10 ->
  forall indices labels groups,
    match Legacy.fareLoop fares sortedFares binSize indices labels groups with
    | Legacy.Drawn chart =>
        Legacy.fareGroups chart = groups
        /\ List.length (Legacy.fare_labels chart)
           = List.length labels
             + List.length
                 (filter (fun i => Nat.ltb i (List.length sortedFares)) indices)
        /\ Forall
             (fun i => i < List.length sortedFares ->
                       is_number (nth i sortedFares JUndefined) = true)
             indices
    | Legacy.Thrown _ =>
        existsb (fun fare => negb (is_number fare)) sortedFares = true
    end.
Proof.
  intros Hn Hb.
  assert (Hsize : binSize = if Nat.eqb (List.length sortedFares) 0
                            then 0 else 1).
  { subst binSize. revert Hn. generalize (List.length sortedFares). intros n Hn.
    do 10 (destruct n as [|n]; [reflexivity|]). lia. }
  clear Hb.
  induction indices as [|i indices IH]; intros labels groups.
  - cbn [Legacy.fareLoop Legacy.fareGroups Legacy.fare_labels filter
         List.length]. split; [reflexivity|]. split; [lia|constructor].
  - cbn [Legacy.fareLoop filter].
    assert (Hstart : Nat.ltb (i * binSize) (List.length sortedFares)
                     = Nat.ltb i (List.length sortedFares)).
    { rewrite Hsize. destruct (List.length sortedFares) as [|n].
      - simpl. rewrite Nat.mul_0_r. reflexivity.
      - simpl. now rewrite Nat.mul_1_r. }
    rewrite Hstart.
    destruct (Nat.ltb_spec i (List.length sortedFares)) as [Hlt|Hge].
    + assert (Hone : binSize = 1).
      { rewrite Hsize. destruct (List.length sortedFares); [lia|reflexivity]. }
      rewrite Hone in IH |- *. rewrite Nat.mul_1_r.
      replace (Nat.min (Nat.min (i + 1) (List.length sortedFares) - 1)
                 (List.length sortedFares - 1)) with i by lia.
      destruct (nth i sortedFares JUndefined) as [| |b|m|t] eqn:E;
        try (apply existsb_exists; exists (nth i sortedFares JUndefined);
             split; [now apply nth_In|now rewrite E]).
      rewrite fare_bin_same_bounds
        by (apply Nat.eqb_neq; unfold Legacy.binCount; lia).
      specialize (IH (labels ++ [("$" ++ toFixed m 0 ++ "-" ++ toFixed m 0)%string])
                    groups).
      destruct (Legacy.fareLoop fares sortedFares 1 indices _ groups);
        [|exact IH].
      destruct IH as (IH1 & IH2 & IH3). split; [exact IH1|]. split.
      * rewrite IH2, length_app. simpl. lia.
      * constructor; [|exact IH3]. intros _. now rewrite E.
    + specialize (IH labels groups).
      destruct (Legacy.fareLoop fares sortedFares binSize indices labels groups);
        [|exact IH].
      destruct IH as (IH1 & IH2 & IH3). split; [exact IH1|].
      split; [exact IH2|]. constructor; [lia|exact IH3].
Qed.

(** X18.  With nine valid fares or fewer, each fare is a bin of its own and
    is printed with [toFixed] as both bounds of its bin.  If every valid
    fare is a Number the chart is drawn, with one label per fare and ten
    zero counts: a bin other than the tenth counts the fares from its
    smallest up to, but not including, its largest, which are none.  If
    some valid fare is not a Number (a string that reads as one, or a
    boolean), the function raises and nothing is drawn. *)
Theorem fare_histogram_of_few_fares_is_empty (rows : list Row) :
  let fares :=
    filter Legacy.validValue (map (fun row => prop row "Fare") rows) in
  List.length fares <= 9 ->
  match Legacy.generateFareChart rows with
  | Legacy.Drawn chart =>
      forallb is_number fares = true
      /\ Legacy.fareGroups chart = repeat 0 10
      /\ List.length (Legacy.fare_labels chart) = List.length fares
  | Legacy.Thrown _ =>
      existsb (fun fare => negb (is_number fare)) fares = true
  end.
Proof.
  intros fares Hn. unfold Legacy.generateFareChart. fold fares.
  set (sortedFares := Array_sort ascending_values fares).
  assert (Hperm : Permutation sortedFares fares) by apply Array_sort_perm.
  assert (Hlen : List.length sortedFares = List.length fares)
    by apply Permutation_length, Hperm.
  pose proof (fareLoop_few_fares fares sortedFares
                ((List.length sortedFares + (Legacy.binCount - 1))
                 / Legacy.binCount)
                ltac:(lia) eq_refl (seq 0 Legacy.binCount) []
                (repeat 0 Legacy.binCount)) as H.
  destruct (Legacy.fareLoop fares sortedFares _ _ _ _) as [chart|message].
  - destruct H as (H1 & H2 & H3). split; [|split; [exact H1|]].
    + apply forallb_forall. intros fare Hfare.
      apply (Permutation_in _ (Permutation_sym Hperm)) in Hfare.
      destruct (In_nth _ _ JUndefined Hfare) as [i [Hi <-]].
      rewrite Forall_forall in H3. apply H3; [|exact Hi].
      apply in_seq. unfold Legacy.binCount. lia.
    + rewrite H2, Hlen. simpl List.length at 1. cbn [Nat.add].
      clear - Hn. revert Hn. generalize (List.length fares). intros n Hn.
      do 10 (destruct n as [|n]; [reflexivity|]). lia.
  - apply existsb_exists in H. destruct H as [fare [Hin Hfare]].
    apply existsb_exists. exists fare. split; [|exact Hfare].
    now apply (Permutation_in _ Hperm).
Qed.

Lemma fare_histogram_witness :
  List.length
    (filter Legacy.validValue (map (fun row => prop row "Fare") fareRows)) <= 9
  /\ match Legacy.generateFareChart fareRows with
     | Legacy.Drawn chart =>
         forallb is_number
           (filter Legacy.validValue
              (map (fun row => prop row "Fare") fareRows)) = true
         /\ Legacy.fareGroups chart = repeat 0 10
         /\ List.length (Legacy.fare_labels chart)
            = List.length
                (filter Legacy.validValue
                   (map (fun row => prop row "Fare") fareRows))
     | Legacy.Thrown _ =>
         existsb (fun fare => negb (is_number fare))
           (filter Legacy.validValue
              (map (fun row => prop row "Fare") fareRows)) = true
     end.
Proof.
  assert (H : List.length
                (filter Legacy.validValue
                   (map (fun row => prop row "Fare") fareRows)) <= 9)
    by (vm_compute; repeat constructor).
  split; [exact H|].
  exact (fare_histogram_of_few_fares_is_empty fareRows H).
Defined.

(** The two outcomes on sample rows: three Numbers are drawn as three
    empty bins, and a fare that reads as a Number without being one (the
    boolean [true], or "+5" behind a no-break space) raises. *)
Example fare_histogram_outcomes :
  Legacy.generateFareChart fareRows
  = Legacy.Drawn
      {| Legacy.fare_labels := ["$7-7"; "$9-9"; "$72-72"];
         Legacy.fareGroups := repeat 0 10 |}
  /\ Legacy.generateFareChart [[("Fare", JNum 7.25%float)];
                               [("Fare", JBool true)]]
     = Legacy.Thrown "minFare.toFixed is not a function"
  /\ Legacy.generateFareChart [[("Fare", JStr (NBSP ++ "+5"))]]
     = Legacy.Thrown "minFare.toFixed is not a function".
Proof. vm_compute. repeat split; reflexivity. Qed.

(** ** The categorical chart *)

Lemma eqb_true_iff a b :
  PrimFloat.eqb a b = true
  <-> isNaN a = false /\ isNaN b = false /\ rank a = rank b.
Proof.
  split.
  - intros H. destruct (eqb_true_numbers _ _ H) as [Ha Hb].
    rewrite eqb_rank in H by assumption. apply Z.eqb_eq in H. auto.
  - intros (Ha & Hb & Hr). rewrite eqb_rank by assumption.
    now apply Z.eqb_eq.
Qed.

Lemma is_neg_zero_number x : is_neg_zero x = true -> isNaN x = false.
Proof.
  unfold is_neg_zero, isNaN. now destruct (classify x).
Qed.

Lemma same_value_zero_sym a b : same_value_zero a b = same_value_zero b a.
Proof.
  destruct a as [| |x|x|s], b as [| |y|y|t]; try reflexivity.
  - simpl. now destruct x, y.
  - simpl. rewrite (andb_comm (isNaN x)). f_equal.
    destruct (PrimFloat.eqb x y) eqn:E.
    + symmetry. apply eqb_true_iff. apply eqb_true_iff in E.
      destruct E as (A & B & C). auto.
    + destruct (PrimFloat.eqb y x) eqn:E'; [|reflexivity].
      apply eqb_true_iff in E'. destruct E' as (A & B & C).
      assert (PrimFloat.eqb x y = true) by (apply eqb_true_iff; auto).
      congruence.
  - simpl. apply String.eqb_sym.
Qed.

Lemma same_value_zero_refl a : same_value_zero a a = true.
Proof.
  destruct a as [| |x|x|s]; simpl; try reflexivity.
  - now destruct x.
  - destruct (isNaN x) eqn:E; [apply orb_true_r|].
    apply orb_true_iff. left. apply eqb_true_iff. auto.
  - apply String.eqb_refl.
Qed.

(** Two values strictly equal to a third are the same value. *)
Lemma strict_eq_common v a b :
  strict_eq v a = true -> strict_eq v b = true -> same_value_zero a b = true.
Proof.
  destruct v as [| |z|z|u], a as [| |x|x|s]; simpl; try discriminate;
    destruct b as [| |y|y|t]; simpl; try discriminate; try reflexivity.
  - destruct z, x, y; simpl; congruence.
  - intros Ha Hb. apply eqb_true_iff in Ha, Hb.
    destruct Ha as (A1 & A2 & A3), Hb as (B1 & B2 & B3).
    apply orb_true_iff. left. apply eqb_true_iff. repeat split; congruence.
  - intros Ha Hb. apply String.eqb_eq in Ha, Hb. subst.
    apply String.eqb_refl.
Qed.

(** What a [Set] stores for [v]. *)
Lemma stored_same_value v e :
  same_value_zero
    (match v with
     | JNum x => if is_neg_zero x then JNum 0%float else v
     | _ => v
     end) e
  = same_value_zero v e.
Proof.
  destruct v as [| |b|x|s]; try reflexivity.
  destruct (is_neg_zero x) eqn:E; [|reflexivity].
  destruct e as [| |b|y|t]; try reflexivity. simpl.
  pose proof (is_neg_zero_number x E) as Hx.
  pose proof (is_neg_zero_rank x E) as Hr.
  rewrite Hx. change (isNaN 0%float) with false. cbn [andb]. f_equal.
  destruct (isNaN y) eqn:Hy.
  - destruct (PrimFloat.eqb 0 y) eqn:E1;
      [apply eqb_true_iff in E1; destruct E1 as (_ & E1 & _); congruence|].
    destruct (PrimFloat.eqb x y) eqn:E2;
      [apply eqb_true_iff in E2; destruct E2 as (_ & E2 & _); congruence|].
    reflexivity.
  - rewrite !eqb_rank by (assumption || reflexivity). now rewrite Hr.
Qed.

Lemma stored_present v :
  negb (is_null v) && negb (is_undefined v) = true ->
  negb (is_null (match v with
                 | JNum x => if is_neg_zero x then JNum 0%float else v
                 | _ => v
                 end))
  && negb (is_undefined (match v with
                         | JNum x => if is_neg_zero x then JNum 0%float else v
                         | _ => v
                         end)) = true.
Proof.
  destruct v as [| |b|x|s]; try (intros; assumption).
  intros _. now destruct (is_neg_zero x).
Qed.

(** The elements of a [Set] built from present values: present, pairwise
    different, and one of them is the same value as any value added. *)
Lemma Set_values_spec values :
  Forall (fun v => negb (is_null v) && negb (is_undefined v) = true) values ->
  let elements := Set_values values in
  Forall (fun u => negb (is_null u) && negb (is_undefined u) = true) elements
  /\ ForallOrdPairs (fun a b => same_value_zero a b = false) elements
  /\ Forall (fun v => existsb (same_value_zero v) elements = true) values.
Proof.
  unfold Set_values.
  assert (H : forall vs acc,
             Forall (fun v => negb (is_null v) && negb (is_undefined v) = true)
               vs ->
             Forall (fun u => negb (is_null u) && negb (is_undefined u) = true)
               acc ->
             ForallOrdPairs (fun a b => same_value_zero a b = false) acc ->
             let elements := fold_left Set_add vs acc in
             Forall (fun u => negb (is_null u) && negb (is_undefined u) = true)
               elements
             /\ ForallOrdPairs (fun a b => same_value_zero a b = false) elements
             /\ Forall (fun v => existsb (same_value_zero v) elements = true) vs
             /\ (forall w, existsb (same_value_zero w) acc = true ->
                           existsb (same_value_zero w) elements = true)).
  { induction vs as [|v vs IH]; intros acc Hvs Hp Hd; cbn zeta.
    - repeat split; auto.
    - inversion Hvs as [|? ? Hv Hvs']; subst. cbn [fold_left].
      assert (Hstep :
                Forall (fun u => negb (is_null u) && negb (is_undefined u) = true)
                  (Set_add acc v)
                /\ ForallOrdPairs (fun a b => same_value_zero a b = false)
                     (Set_add acc v)
                /\ existsb (same_value_zero v) (Set_add acc v) = true
                /\ (forall w, existsb (same_value_zero w) acc = true ->
                              existsb (same_value_zero w) (Set_add acc v) = true)).
      { unfold Set_add. destruct (existsb (same_value_zero v) acc) eqn:E.
        - repeat split; auto.
        - split; [|split; [|split]].
          + apply Forall_app. split; [exact Hp|].
            constructor; [now apply stored_present|constructor].
          + clear - Hd E.
            induction Hd as [|a l Ha Hd IHd]; simpl.
            * repeat constructor.
            * simpl in E. apply orb_false_iff in E. destruct E as [E1 E2].
              constructor; [|now apply IHd].
              apply Forall_app. split; [exact Ha|].
              constructor; [|constructor].
              now rewrite same_value_zero_sym, stored_same_value.
          + rewrite existsb_app. apply orb_true_iff. right. simpl.
            rewrite same_value_zero_sym, stored_same_value.
            now rewrite same_value_zero_refl.
          + intros w Hw. rewrite existsb_app, Hw. reflexivity. }
      destruct Hstep as (S1 & S2 & S3 & S4).
      destruct (IH (Set_add acc v) Hvs' S1 S2) as (I1 & I2 & I3 & I4).
      repeat split; auto. }
  intros Hvs. destruct (H values [] Hvs) as (H1 & H2 & H3 & _);
    [constructor|constructor|]. auto.
Qed.

Lemma filter_at_most_one {A : Type} (R : A -> A -> bool) (p : A -> bool) l :
  ForallOrdPairs (fun a b => R a b = false) l ->
  (forall a b, p a = true -> p b = true -> R a b = true) ->
  List.length (filter p l) = if existsb p l then 1 else 0.
Proof.
  intros Hd Hp. induction Hd as [|a l Ha Hd IH]; [reflexivity|].
  simpl. destruct (p a) eqn:Ea; simpl; [|exact IH].
  f_equal. apply length_zero_iff_nil. apply filter_none.
  rewrite Forall_forall in Ha |- *. intros b Hb.
  destruct (p b) eqn:Eb; [|reflexivity].
  specialize (Ha b Hb). rewrite (Hp a b Ea Eb) in Ha. discriminate.
Qed.

Lemma same_value_strict v u :
  countable v = true -> same_value_zero v u = true -> strict_eq v u = true.
Proof.
  unfold countable.
  destruct v as [| |b|x|s]; try discriminate; try (intros _ H; exact H).
  destruct u as [| |b|y|t]; try (intros _ H; exact H).
  simpl. intros Hx H. apply negb_true_iff in Hx. rewrite Hx in H.
  simpl in H. now rewrite orb_false_r in H.
Qed.

(** Among the distinct values of a column, a countable value is strictly
    equal to exactly one, and any other value to none. *)
Lemma unique_value_class values v :
  Forall (fun w => negb (is_null w) && negb (is_undefined w) = true) values ->
  (negb (is_null v) && negb (is_undefined v) = true -> In v values) ->
  List.length (filter (fun u => strict_eq v u) (Set_values values))
  = if countable v then 1 else 0.
Proof.
  intros Hvalues Hin.
  destruct (Set_values_spec values Hvalues) as (Hp & Hd & Hc).
  rewrite (filter_at_most_one same_value_zero (fun u => strict_eq v u)
             (Set_values values) Hd (strict_eq_common v)).
  destruct (countable v) eqn:Ec.
  - assert (Hv : negb (is_null v) && negb (is_undefined v) = true)
      by (unfold countable in Ec; now apply andb_prop in Ec).
    rewrite Forall_forall in Hc. specialize (Hc v (Hin Hv)).
    apply existsb_exists in Hc. destruct Hc as [u [Hu Hsame]].
    assert (He : existsb (fun u => strict_eq v u) (Set_values values) = true).
    { apply existsb_exists. exists u. split; [exact Hu|].
      now apply same_value_strict. }
    now rewrite He.
  - assert (He : existsb (fun u => strict_eq v u) (Set_values values) = false).
    { destruct (existsb (fun u => strict_eq v u) (Set_values values)) eqn:E;
        [|reflexivity].
      apply existsb_exists in E. destruct E as [u [Hu Heq]].
      rewrite Forall_forall in Hp. specialize (Hp u Hu).
      unfold countable in Ec.
      destruct v as [| |b|x|s], u as [| |b'|y|t]; simpl in *;
        try discriminate.
      apply eqb_true_iff in Heq. destruct Heq as (Hx & _).
      now rewrite Hx in Ec. }
    now rewrite He.
Qed.

Lemma count_by_class (category : string) (q : Row -> bool) uniq rows :
  (forall row, In row rows ->
     List.length (filter (fun u => strict_eq (prop row category) u) uniq)
     = if countable (prop row category) then 1 else 0) ->
  list_sum
    (map (fun value =>
            List.length
              (filter (fun row => strict_eq (prop row category) value && q row)
                 rows))
         uniq)
  = List.length
      (filter q (filter (fun row => countable (prop row category)) rows)).
Proof.
  intros Hrows.
  etransitivity;
    [exact (list_sum_double_count
              (fun value row => strict_eq (prop row category) value && q row)
              uniq rows)|].
  induction rows as [|row rows IH]; [reflexivity|].
  cbn [map filter].
  match goal with
  | |- list_sum (?a :: ?l) = _ => change (list_sum (a :: l)) with (a + list_sum l)
  end.
  rewrite IH by (intros r Hr; apply Hrows; now right).
  assert (Hone : List.length
                   (filter (fun u => strict_eq (prop row category) u && q row)
                      uniq)
                 = if countable (prop row category) && q row then 1 else 0).
  { destruct (q row).
    - rewrite andb_true_r.
      rewrite (filter_ext _ (fun u => strict_eq (prop row category) u))
        by (intros u; apply andb_true_r).
      apply Hrows. now left.
    - rewrite andb_false_r.
      rewrite (filter_ext _ (fun _ => false))
        by (intros u; apply andb_false_r).
      clear. induction uniq; auto. }
  rewrite Hone.
  destruct (countable (prop row category)); cbn [andb filter];
    [destruct (q row)|]; reflexivity.
Qed.

(** X19.  In the categorical chart every row whose value in the category is
    countable (not [null], not [undefined], not NaN) is counted in exactly
    one bar of that category, and no other row is counted: over the bars of
    a category, survived and not survived add up to the number of such rows,
    and survived alone to the number of them with [Survived === 1].  The
    chart lists the bars of [Sex], [Pclass] and [Embarked] in that order. *)
Theorem categorical_chart_counts_each_row_once
  (rows : list Row) (category : string) :
  let bars := Legacy.categoryBars rows category in
  let counted := filter (fun row => countable (prop row category)) rows in
  list_sum (map (fun bar => snd (fst bar) + snd bar) bars)
  = List.length counted
  /\ list_sum (map (fun bar => snd (fst bar)) bars)
     = List.length (filter Legacy.survivedOne counted)
  /\ Legacy.cc_labels (Legacy.generateCategoricalChart rows)
     = map (fun bar => fst (fst bar))
         (Legacy.categoryBars rows "Sex" ++ Legacy.categoryBars rows "Pclass"
          ++ Legacy.categoryBars rows "Embarked")
  /\ Legacy.survivedData (Legacy.generateCategoricalChart rows)
     = map (fun bar => snd (fst bar))
         (Legacy.categoryBars rows "Sex" ++ Legacy.categoryBars rows "Pclass"
          ++ Legacy.categoryBars rows "Embarked")
  /\ Legacy.notSurvivedData (Legacy.generateCategoricalChart rows)
     = map snd
         (Legacy.categoryBars rows "Sex" ++ Legacy.categoryBars rows "Pclass"
          ++ Legacy.categoryBars rows "Embarked").
Proof.
  intros bars counted. subst bars. unfold Legacy.categoryBars.
  set (values := filter (fun val => negb (is_null val) && negb (is_undefined val))
                   (map (fun row => prop row category) rows)).
  assert (Hvalues : Forall (fun w => negb (is_null w) && negb (is_undefined w)
                                     = true) values).
  { apply Forall_forall. intros w Hw. unfold values in Hw.
    apply filter_In in Hw. tauto. }
  assert (Hrows : forall row, In row rows ->
             List.length
               (filter (fun u => strict_eq (prop row category) u)
                  (Set_values values))
             = if countable (prop row category) then 1 else 0).
  { intros row Hrow. apply unique_value_class; [exact Hvalues|].
    intros Hv. unfold values. apply filter_In. split; [|exact Hv].
    apply in_map_iff. exists row. now split. }
  rewrite !map_map. cbn [fst snd]. subst counted.
  split; [|split].
  - rewrite <- (filter_all (fun _ : Row => true)
                  (filter (fun row => countable (prop row category)) rows))
      by (apply Forall_forall; reflexivity).
    rewrite <- (count_by_class category (fun _ => true) (Set_values values)
                  rows Hrows).
    f_equal. apply map_ext. intros value.
    rewrite (filter_ext
               (fun row => strict_eq (prop row category) value && true)
               (fun row => strict_eq (prop row category) value))
      by (intros row; apply andb_true_r).
    pose proof (filter_length_le Legacy.survivedOne
                  (filter (fun row => strict_eq (prop row category) value)
                     rows)).
    lia.
  - rewrite <- (count_by_class category Legacy.survivedOne (Set_values values)
                  rows Hrows).
    f_equal. apply map_ext. intros value. f_equal.
    clear. induction rows as [|row rows IH]; [reflexivity|].
    cbn [filter].
    destruct (strict_eq (prop row category) value); cbn [andb filter];
      [destruct (Legacy.survivedOne row)|]; cbn; now rewrite IH.
  - unfold Legacy.generateCategoricalChart.
    cbn [Legacy.cc_labels Legacy.survivedData Legacy.notSurvivedData flat_map].
    rewrite app_nil_r. repeat split; reflexivity.
Qed.

(** ** The heatmap columns and the numeric summaries *)

Lemma hasNumber_numericValues rows column :
  hasNumber rows column
  = Nat.ltb 0 (List.length (numericValuesOf (columnValues rows column))).
Proof.
  unfold hasNumber, columnValues.
  induction rows as [|row rows IH]; [reflexivity|].
  cbn [existsb map filter]. rewrite IH.
  destruct (prop row column) as [| |b|x|s]; try reflexivity.
  - simpl. destruct (isNaN x); reflexivity.
  - unfold present. simpl. destruct (String.eqb s ""); reflexivity.
Qed.

(** X20.  A feature column is one of the columns of the correlation heatmap
    exactly when the analysis stored a numeric summary for it: both ask for
    the inferred type numeric and for at least one Number that is not NaN
    among the merged rows. *)
Theorem heatmap_features_are_the_summarised_numeric_columns
  (st : TitanicData) (column : string) :
  merged st <> [] ->
  In column (columns st) ->
  In column FEATURE_COLUMNS ->
  (In column (numericColumns st)
   <-> exists s,
         obj_get (stats (fst (runFullEDA st))) column = Some (NumericSummary s)).
Proof.
  intros Hne Hcol Hfeat.
  destruct (merged st) as [|row0 rest] eqn:E; [contradiction|].
  rewrite (runFullEDA_on_data st row0 rest E).
  cbn [fst stats set_stats]. rewrite E, summarizeColumns_get.
  assert (Hexcl : includes EXCLUDED_COLUMNS column = false
                  /\ String.eqb column "source" = false
                  /\ column <> TARGET_COLUMN).
  { simpl in Hfeat. intuition (subst; try reflexivity; discriminate). }
  destruct Hexcl as (Hex & Hsrc & Htarget).
  assert (Hin : In column (columnsToAnalyze st)).
  { unfold columnsToAnalyze. apply filter_In. split; [exact Hcol|].
    now rewrite Hex, Hsrc. }
  destruct (in_dec string_dec column (columnsToAnalyze st)); [|contradiction].
  assert (Hnum : In column (numericColumns st)
                 <-> is_numeric_type (obj_get (columnTypes st) column)
                     && hasNumber (row0 :: rest) column = true).
  { unfold numericColumns. rewrite in_app_iff, filter_In, E. split.
    - intros [[_ H]|H]; [exact H|].
      destruct (is_numeric_type (obj_get (columnTypes st) TARGET_COLUMN));
        simpl in H; intuition congruence.
    - intros H. left. now split. }
  rewrite Hnum, hasNumber_numericValues. unfold statsForColumn.
  destruct (is_numeric_type (obj_get (columnTypes st) column)) eqn:Ht;
    cbn [andb].
  - destruct (Nat.ltb 0
                (List.length
                   (numericValuesOf (columnValues (row0 :: rest) column)))).
    + split; [intros _; eexists; reflexivity|reflexivity].
    + split; [discriminate|intros [s Hs]; discriminate].
  - split; [discriminate|].
    intros [s Hs]. destruct (String.eqb column TARGET_COLUMN); discriminate.
Qed.

Lemma heatmap_features_witness :
  merged scenarioData <> []
  /\ In "Age" (columns scenarioData)
  /\ In "Age" FEATURE_COLUMNS
  /\ (In "Age" (numericColumns scenarioData)
      <-> exists s,
            obj_get (stats (fst (runFullEDA scenarioData))) "Age"
            = Some (NumericSummary s)).
Proof.
  assert (H1 : merged scenarioData <> []) by discriminate.
  assert (H2 : In "Age" (columns scenarioData))
    by (vm_compute; auto 10).
  assert (H3 : In "Age" FEATURE_COLUMNS) by (simpl; auto 10).
  split; [exact H1|]. split; [exact H2|]. split; [exact H3|].
  exact (heatmap_features_are_the_summarised_numeric_columns scenarioData
           "Age" H1 H2 H3).
Defined.

(** ** The earlier variant's summaries *)

Lemma valueCountStep_get col key acc row :
  Object_prototype key = None ->
  obj_get (Legacy.valueCountStep col acc row) key
  = if valuedAs col key row
    then let '(c, s) :=
           match obj_get acc key with Some cs => cs | None => (0, 0) end in
         Some (S c, if Legacy.survivedOne row then S s else s)
    else obj_get acc key.
Proof.
  intros Hplain. unfold Legacy.valueCountStep, valuedAs, hasValue. cbv zeta.
  change (strict_eq_num (prop row "Survived") 1%float)
    with (Legacy.survivedOne row).
  destruct (negb (is_null (prop row col))
            && negb (is_undefined (prop row col)));
    cbn [andb]; [|reflexivity].
  unfold obj_read.
  destruct (String.eqb (String_of (prop row col)) key) eqn:Ek.
  - apply String.eqb_eq in Ek. rewrite Ek, Hplain.
    destruct (obj_get acc key) as [[c s]|]; now rewrite obj_get_set_same.
  - apply String.eqb_neq in Ek.
    destruct (obj_get acc (String_of (prop row col))) as [[c s]|];
      [|destruct (Object_prototype (String_of (prop row col)));
        [reflexivity|]];
      now rewrite obj_get_set_other.
Qed.

Lemma valueCountStep_inherited col key acc row i :
  Object_prototype key = Some i ->
  obj_get acc key = None ->
  obj_get (Legacy.valueCountStep col acc row) key = None.
Proof.
  intros Hi Hn. unfold Legacy.valueCountStep. cbv zeta.
  destruct (negb (is_null (prop row col))
            && negb (is_undefined (prop row col))); [|exact Hn].
  unfold obj_read.
  destruct (String.eqb (String_of (prop row col)) key) eqn:Ek.
  - apply String.eqb_eq in Ek. rewrite Ek, Hn, Hi. exact Hn.
  - apply String.eqb_neq in Ek.
    destruct (obj_get acc (String_of (prop row col))) as [[c s]|];
      [|destruct (Object_prototype (String_of (prop row col)));
        [exact Hn|]];
      now rewrite obj_get_set_other.
Qed.

(** The tally of the earlier variant has an entry for a value exactly when
    some train row prints as it and it names no inherited property. *)
Lemma Legacy_valueCounts_get trainingData col key :
  obj_get (Legacy.valueCountsOf trainingData col) key
  = match Object_prototype key, filter (valuedAs col key) trainingData with
    | None, (_ :: _) as rows =>
        Some (List.length rows, List.length (filter Legacy.survivedOne rows))
    | _, _ => None
    end.
Proof.
  unfold Legacy.valueCountsOf.
  destruct (Object_prototype key) as [i|] eqn:Hkey.
  - assert (H : forall rows acc,
               obj_get acc key = None ->
               obj_get (fold_left (Legacy.valueCountStep col) rows acc) key
               = None).
    { induction rows as [|row rows IH]; intros acc Hn; [exact Hn|].
      cbn [fold_left]. apply IH.
      now apply (valueCountStep_inherited col key acc row i). }
    now apply H.
  - assert (H : forall rows acc,
               obj_get (fold_left (Legacy.valueCountStep col) rows acc) key
               = match filter (valuedAs col key) rows with
                 | [] => obj_get acc key
                 | considered =>
                     let '(c, s) :=
                       match obj_get acc key with
                       | Some cs => cs | None => (0, 0)
                       end in
                     Some (c + List.length considered,
                           s + List.length
                                 (filter Legacy.survivedOne considered))
                 end).
    { induction rows as [|row rows IH]; intros acc; [reflexivity|].
      cbn [fold_left filter].
      rewrite IH, (valueCountStep_get col key acc row Hkey). clear IH.
      destruct (valuedAs col key row) eqn:Ekey; [|reflexivity].
      destruct (obj_get acc key) as [[c s]|];
        destruct (filter (valuedAs col key) rows) as [|r rs];
        cbn [filter]; destruct (Legacy.survivedOne row);
        cbn [List.length]; f_equal; f_equal; lia. }
    rewrite H. destruct (filter (valuedAs col key) trainingData);
      reflexivity.
Qed.

Lemma Legacy_valueCounts_NoDup trainingData col :
  NoDup (map fst (Legacy.valueCountsOf trainingData col)).
Proof.
  unfold Legacy.valueCountsOf.
  assert (H : forall rows (acc : JsObject (nat * nat)),
             NoDup (map fst acc) ->
             NoDup (map fst (fold_left (Legacy.valueCountStep col) rows acc))).
  { induction rows as [|row rows IH]; intros acc Hacc; [exact Hacc|].
    cbn [fold_left]. apply IH. unfold Legacy.valueCountStep. cbv zeta.
    destruct (negb (is_null (prop row col))
              && negb (is_undefined (prop row col))); [|exact Hacc].
    destruct (obj_read acc (String_of (prop row col))) as [[c s]|i|];
      [|exact Hacc|]; now apply obj_set_NoDup. }
  apply H. constructor.
Qed.

Lemma obj_get_In {V : Type} (o : JsObject V) k v :
  NoDup (map fst o) -> In (k, v) o -> obj_get o k = Some v.
Proof.
  induction o as [|[k' v'] o IH]; intros Hnd Hin; [contradiction|].
  simpl in Hnd. inversion Hnd as [|? ? Hk Hnd']; subst.
  simpl. destruct Hin as [Heq|Hin].
  - injection Heq as -> ->. now rewrite String.eqb_refl.
  - destruct (String.eqb_spec k' k) as [->|Hne].
    + exfalso. apply Hk. apply in_map_iff. exists (k, v). now split.
    + now apply IH.
Qed.

Lemma valuedAs_occurrences column key rows :
  Object_prototype key = None ->
  List.length (filter (valuedAs column key) rows)
  = occurrences
      (map (fun row => String_of (prop row column))
         (filter (talliedRow column) rows))
      key.
Proof.
  intros Hkey.
  induction rows as [|row rows IH]; [reflexivity|].
  cbn [filter]. unfold valuedAs at 1, talliedRow at 1, ownKey.
  destruct (hasValue column row); cbn [andb map]; [|exact IH].
  destruct (string_dec (String_of (prop row column)) key) as [E|Hne].
  - rewrite (proj2 (String.eqb_eq _ _) E).
    replace (Object_prototype (String_of (prop row column)))
      with (@None Inherited) by (now rewrite E).
    cbn [map List.length]. unfold occurrences. cbn [count_occ].
    destruct (string_dec (String_of (prop row column)) key) as [_|Hn];
      [|contradiction].
    f_equal. exact IH.
  - pose proof Hne as Hneb. apply String.eqb_neq in Hneb. rewrite Hneb.
    destruct (Object_prototype (String_of (prop row column)));
      [exact IH|].
    cbn [map]. unfold occurrences. cbn [count_occ].
    destruct (string_dec (String_of (prop row column)) key);
      [contradiction|exact IH].
Qed.

(** One tally of the earlier variant: its entries and what they add up
    to. *)
Lemma Legacy_valueCounts_entries trainingData col :
  let counts := Legacy.valueCountsOf trainingData col in
  NoDup (map fst counts)
  /\ Forall
       (fun entry =>
          let rows := filter (valuedAs col (fst entry)) trainingData in
          Object_prototype (fst entry) = None
          /\ snd entry
             = (List.length rows, List.length (filter Legacy.survivedOne rows))
          /\ 0 < fst (snd entry)
          /\ snd (snd entry) <= fst (snd entry))
       counts
  /\ list_sum (map (fun entry => fst (snd entry)) counts)
     = List.length (filter (talliedRow col) trainingData).
Proof.
  intros counts.
  assert (Hnd : NoDup (map fst counts)) by apply Legacy_valueCounts_NoDup.
  assert (Hentry : forall k v, In (k, v) counts ->
             Object_prototype k = None
             /\ v = (List.length (filter (valuedAs col k) trainingData),
                     List.length
                       (filter Legacy.survivedOne
                          (filter (valuedAs col k) trainingData)))
             /\ 0 < List.length (filter (valuedAs col k) trainingData)).
  { intros k v Hin. apply (obj_get_In counts k v Hnd) in Hin.
    unfold counts in Hin. rewrite Legacy_valueCounts_get in Hin.
    destruct (Object_prototype k); [discriminate|].
    destruct (filter (valuedAs col k) trainingData) as [|r rs];
      [discriminate|].
    injection Hin as <-. split; [reflexivity|].
    split; [reflexivity|simpl; lia]. }
  split; [exact Hnd|]. split.
  - apply Forall_forall. intros [k v] Hin. cbn [fst snd].
    destruct (Hentry k v Hin) as (Hk & -> & Hpos). cbn [fst snd].
    split; [exact Hk|]. split; [reflexivity|]. split; [exact Hpos|].
    apply filter_length_le.
  - rewrite (map_ext_in _
               (fun entry =>
                  occurrences
                    (map (fun row => String_of (prop row col))
                       (filter (talliedRow col) trainingData))
                    (fst entry))).
    + rewrite <- (map_map fst
                    (occurrences
                       (map (fun row => String_of (prop row col))
                          (filter (talliedRow col) trainingData)))).
      rewrite occurrences_sum; [apply length_map|exact Hnd|].
      intros k Hk. apply in_map_iff in Hk. destruct Hk as [row [<- Hrow]].
      apply filter_In in Hrow. destruct Hrow as [Hrow Hv].
      unfold talliedRow in Hv. apply andb_prop in Hv.
      destruct Hv as [Hv Hown]. unfold ownKey in Hown.
      destruct (in_dec string_dec (String_of (prop row col)) (map fst counts))
        as [Hi|Hn]; [exact Hi|].
      apply obj_get_None_iff in Hn. unfold counts in Hn.
      rewrite Legacy_valueCounts_get in Hn.
      destruct (Object_prototype (String_of (prop row col)));
        [discriminate|].
      assert (Hf : In row (filter (valuedAs col (String_of (prop row col)))
                             trainingData)).
      { apply filter_In. split; [exact Hrow|]. unfold valuedAs.
        now rewrite Hv, String.eqb_refl. }
      destruct (filter (valuedAs col (String_of (prop row col))) trainingData);
        [contradiction|discriminate].
    + intros [k v] Hin. cbn [fst snd].
      destruct (Hentry k v Hin) as (Hk & -> & _). cbn [fst].
      now apply valuedAs_occurrences.
Qed.

Lemma Legacy_numericStats_lookup trainingData col stat :
  obj_get (Legacy.numericStatsOf trainingData) col = Some stat ->
  In col Legacy.numericColumns
  /\ Legacy.valuesOf trainingData col <> []
  /\ stat = Legacy.numericStatOf (List.length trainingData)
              (Legacy.valuesOf trainingData col).
Proof.
  unfold Legacy.numericStatsOf.
  rewrite (fold_left_pointwise _
             (fun o c =>
                if negb (Nat.ltb 0
                           (List.length (Legacy.valuesOf trainingData c)))
                then o
                else obj_set o c
                       (Legacy.numericStatOf (List.length trainingData)
                          (Legacy.valuesOf trainingData c))))
    by (intros o c;
        destruct (Nat.ltb 0 (List.length (Legacy.valuesOf trainingData c)));
        reflexivity).
  rewrite (fold_obj_set_skip_get
             (fun c => negb (Nat.ltb 0
                               (List.length (Legacy.valuesOf trainingData c))))
             (fun c => Legacy.numericStatOf (List.length trainingData)
                         (Legacy.valuesOf trainingData c))).
  destruct (in_dec string_dec col Legacy.numericColumns) as [Hin|];
    [|discriminate].
  destruct (Legacy.valuesOf trainingData col) as [|v vs] eqn:E;
    [discriminate|].
  cbn [List.length Nat.ltb Nat.leb negb]. intros H. injection H as <-.
  split; [exact Hin|]. split; [discriminate|reflexivity].
Qed.

Lemma generateStatisticalSummaries_stored g numericStats categoricalStats :
  Legacy.generateStatisticalSummaries g
  = Legacy.Stored numericStats categoricalStats ->
  numericStats = Legacy.numericStatsOf (trainRows (Legacy.mergedData g))
  /\ categoricalStats
     = map (fun col =>
              (col, Legacy.valueCountsOf (trainRows (Legacy.mergedData g)) col))
         ["Pclass"; "Sex"; "Embarked"; "SibSp"; "Parch"].
Proof.
  unfold Legacy.generateStatisticalSummaries.
  destruct (Legacy.mergedData g) as [|row0 rest]; [discriminate|].
  destruct (forallb _ _); [|discriminate].
  intros H. injection H as <- <-. split; reflexivity.
Qed.

(** X21.  When the earlier variant stores its summaries, they are taken
    over the train rows: a numeric entry has at least one value and
    [count + missing] is the number of train rows; there is one tally for
    each of [Pclass], [Sex], [Embarked], [SibSp] and [Parch], with one entry
    per distinct printed value that names no property of
    [Object.prototype], holding the number of rows with that value (at least
    one) and the number of them with [Survived === 1] (never more); the
    counts of a tally add up to the number of rows whose value is neither
    [null] nor [undefined] and names no such property. *)
Theorem earlier_summaries_count_the_train_rows
  (g : Legacy.Globals) (numericStats : JsObject Legacy.NumericStat)
  (categoricalStats : JsObject (JsObject (nat * nat))) :
  Legacy.generateStatisticalSummaries g
  = Legacy.Stored numericStats categoricalStats ->
  let trainingData := trainRows (Legacy.mergedData g) in
  Forall
    (fun entry =>
       0 < Legacy.count (snd entry)
       /\ Legacy.count (snd entry) + Legacy.missing (snd entry)
          = List.length trainingData)
    (Object_entries numericStats)
  /\ map fst categoricalStats = ["Pclass"; "Sex"; "Embarked"; "SibSp"; "Parch"]
  /\ Forall
       (fun tallied =>
          let col := fst tallied in
          let counts := snd tallied in
          NoDup (map fst counts)
          /\ Forall
               (fun entry =>
                  let rows := filter (valuedAs col (fst entry)) trainingData in
                  Object_prototype (fst entry) = None
                  /\ snd entry
                     = (List.length rows,
                        List.length (filter Legacy.survivedOne rows))
                  /\ 0 < fst (snd entry)
                  /\ snd (snd entry) <= fst (snd entry))
               counts
          /\ list_sum (map (fun entry => fst (snd entry)) counts)
             = List.length (filter (talliedRow col) trainingData))
       categoricalStats.
Proof.
  intros Hstored trainingData.
  destruct (generateStatisticalSummaries_stored g _ _ Hstored) as [-> ->].
  fold trainingData.
  split; [|split; [reflexivity|]].
  - apply Forall_forall. intros [c stat] Hin.
    pose proof (Object_entries_agree (Legacy.numericStatsOf trainingData))
      as Hagree.
    rewrite Forall_forall in Hagree. specialize (Hagree _ Hin).
    cbn [fst snd] in *.
    apply Legacy_numericStats_lookup in Hagree.
    destruct Hagree as (_ & Hne & ->).
    cbn [Legacy.numericStatOf Legacy.count Legacy.missing].
    assert (Hle : List.length (Legacy.valuesOf trainingData c)
                  <= List.length trainingData).
    { unfold Legacy.valuesOf.
      rewrite <- (length_map (fun row => prop row c) trainingData).
      apply filter_length_le. }
    destruct (Legacy.valuesOf trainingData c) as [|v vs]; [contradiction|].
    cbn [List.length] in *. lia.
  - apply Forall_forall. intros [col counts] Hin.
    apply in_map_iff in Hin. destruct Hin as [col' [Heq _]].
    injection Heq as <- <-. cbn [fst snd].
    apply Legacy_valueCounts_entries.
Qed.

Lemma earlier_summaries_count_witness :
  let numericStats :=
    [("Age",
      {| Legacy.mean := 30%float; Legacy.median := JNum 38%float;
         Legacy.stdDev := 8%float; Legacy.count := 2;
         Legacy.missing := 0 |})] in
  let categoricalStats :=
    [("Pclass", []); ("Sex", [("male", (1, 0)); ("female", (1, 1))]);
     ("Embarked", []); ("SibSp", []); ("Parch", [])] in
  let trainingData := trainRows (Legacy.mergedData scenarioGlobals) in
  Legacy.generateStatisticalSummaries scenarioGlobals
  = Legacy.Stored numericStats categoricalStats
  /\ Forall
       (fun entry =>
          0 < Legacy.count (snd entry)
          /\ Legacy.count (snd entry) + Legacy.missing (snd entry)
             = List.length trainingData)
       (Object_entries numericStats)
  /\ map fst categoricalStats
     = ["Pclass"; "Sex"; "Embarked"; "SibSp"; "Parch"]
  /\ Forall
       (fun tallied =>
          let col := fst tallied in
          let counts := snd tallied in
          NoDup (map fst counts)
          /\ Forall
               (fun entry =>
                  let rows := filter (valuedAs col (fst entry)) trainingData in
                  Object_prototype (fst entry) = None
                  /\ snd entry
                     = (List.length rows,
                        List.length (filter Legacy.survivedOne rows))
                  /\ 0 < fst (snd entry)
                  /\ snd (snd entry) <= fst (snd entry))
               counts
          /\ list_sum (map (fun entry => fst (snd entry)) counts)
             = List.length (filter (talliedRow col) trainingData))
       categoricalStats.
Proof.
  cbv zeta.
  assert (H : Legacy.generateStatisticalSummaries scenarioGlobals
              = Legacy.Stored
                  [("Age",
                    {| Legacy.mean := 30%float; Legacy.median := JNum 38%float;
                       Legacy.stdDev := 8%float; Legacy.count := 2;
                       Legacy.missing := 0 |})]
                  [("Pclass", []);
                   ("Sex", [("male", (1, 0)); ("female", (1, 1))]);
                   ("Embarked", []); ("SibSp", []); ("Parch", [])])
    by (vm_compute; reflexivity).
  split; [exact H|].
  exact (earlier_summaries_count_the_train_rows scenarioGlobals _ _ H).
Defined.

(** A value that prints as the name of an inherited property is counted in
    no entry of the earlier variant's tally. *)
Example Legacy_value_counts_of_inherited_names :
  Legacy.valueCountsOf
    [[("Sex", JStr "constructor")]; [("Sex", JStr "male")];
     [("Sex", JStr "__proto__")]; [("Sex", JStr "constructor")]]
    "Sex"
  = [("male", (1, 0))].
Proof. reflexivity. Qed.

(** ** When the earlier variant's summaries succeed *)

(** X22.  The earlier variant's summaries are stored whenever rows are loaded
    and every valid value of the numeric columns in the train rows is a
    Number: each median is then one of these Numbers, so printing it cannot
    fail.  (A numeric string such as ["22"] passes the validity filter and,
    as a median, makes the summaries fail.) *)
Theorem earlier_summaries_succeed_on_numbers (g : Legacy.Globals) :
  Legacy.mergedData g <> [] ->
  Forall
    (fun col =>
       Forall (fun v => is_number v = true)
         (Legacy.valuesOf (trainRows (Legacy.mergedData g)) col))
    Legacy.numericColumns ->
  Legacy.generateStatisticalSummaries g
  = Legacy.Stored
      (Legacy.numericStatsOf (trainRows (Legacy.mergedData g)))
      (Legacy.categoricalStatsOf (trainRows (Legacy.mergedData g)))
  /\ Forall
       (fun entry =>
          In (Legacy.median (snd entry))
             (Legacy.valuesOf (trainRows (Legacy.mergedData g)) (fst entry)))
       (Object_entries
          (Legacy.numericStatsOf (trainRows (Legacy.mergedData g)))).
Proof.
  intros Hne Hnum.
  set (trainingData := trainRows (Legacy.mergedData g)) in *.
  assert (Hmedian :
            Forall
              (fun entry =>
                 In (fst entry) Legacy.numericColumns
                 /\ In (Legacy.median (snd entry))
                      (Legacy.valuesOf trainingData (fst entry)))
              (Object_entries (Legacy.numericStatsOf trainingData))).
  { pose proof (Object_entries_agree (Legacy.numericStatsOf trainingData))
      as Hagree.
    rewrite Forall_forall in Hagree |- *. intros [col stat] Hin.
    specialize (Hagree _ Hin). cbn [fst snd] in *.
    apply Legacy_numericStats_lookup in Hagree.
    destruct Hagree as (Hcol & Hv & ->).
    split; [exact Hcol|].
    cbn [Legacy.numericStatOf Legacy.median].
    eapply Permutation_in; [apply Array_sort_perm|].
    apply nth_In.
    rewrite (Permutation_length
               (Array_sort_perm ascending_values
                  (Legacy.valuesOf trainingData col))).
    destruct (Legacy.valuesOf trainingData col); [contradiction|].
    apply Nat.div_lt; simpl; lia. }
  split.
  - unfold Legacy.generateStatisticalSummaries.
    destruct (Legacy.mergedData g) as [|row0 rest] eqn:E; [contradiction|].
    fold trainingData.
    assert (Hall : forallb (fun entry => is_number (Legacy.median (snd entry)))
                     (Object_entries (Legacy.numericStatsOf trainingData))
                   = true).
    { apply forallb_forall. intros entry Hin.
      rewrite Forall_forall in Hmedian. destruct (Hmedian entry Hin) as [Hc Hm].
      rewrite Forall_forall in Hnum. specialize (Hnum _ Hc).
      rewrite Forall_forall in Hnum. now apply Hnum. }
    rewrite <- E in *. fold trainingData. now rewrite Hall.
  - eapply Forall_impl; [|exact Hmedian]. intros entry [_ H]. exact H.
Qed.

Lemma earlier_summaries_succeed_witness :
  Legacy.mergedData scenarioGlobals <> []
  /\ Forall
       (fun col =>
          Forall (fun v => is_number v = true)
            (Legacy.valuesOf (trainRows (Legacy.mergedData scenarioGlobals))
               col))
       Legacy.numericColumns
  /\ Legacy.generateStatisticalSummaries scenarioGlobals
     = Legacy.Stored
         (Legacy.numericStatsOf (trainRows (Legacy.mergedData scenarioGlobals)))
         (Legacy.categoricalStatsOf
            (trainRows (Legacy.mergedData scenarioGlobals)))
  /\ Forall
       (fun entry =>
          In (Legacy.median (snd entry))
             (Legacy.valuesOf (trainRows (Legacy.mergedData scenarioGlobals))
                (fst entry)))
       (Object_entries
          (Legacy.numericStatsOf
             (trainRows (Legacy.mergedData scenarioGlobals)))).
Proof.
  assert (H1 : Legacy.mergedData scenarioGlobals <> []) by discriminate.
  assert (H2 : Forall
                 (fun col =>
                    Forall (fun v => is_number v = true)
                      (Legacy.valuesOf
                         (trainRows (Legacy.mergedData scenarioGlobals)) col))
                 Legacy.numericColumns)
    by (repeat (constructor; [vm_compute; repeat constructor|]); constructor).
  split; [exact H1|]. split; [exact H2|].
  exact (earlier_summaries_succeed_on_numbers scenarioGlobals H1 H2).
Defined.

(** A value that is valid without being a Number, such as a string of
    white space (it reads as 0), keeps the summaries from being stored when
    it is the median. *)
Example earlier_summaries_fail_on_text :
  Legacy.generateStatisticalSummaries
    {| Legacy.mergedData := [[("Age", JStr NBSP); ("source", JStr "train")]];
       Legacy.trainData := [[("Age", JStr NBSP); ("source", JStr "train")]];
       Legacy.testData := []; Legacy.dataLoaded := true |}
  = Legacy.Failed "stats.median.toFixed is not a function".
Proof. vm_compute. reflexivity. Qed.

(** ** The two figures called missing *)

(** Every row falls in one class: its value is missing for the report, a
    valid Number, or present but not a Number; the present values are the
    rows not absent. *)
Lemma value_classes rows column :
  absentCount rows column
  + List.length (numericValuesOf (columnValues rows column))
  + List.length
      (filter (fun row => presentNonNumber (prop row column)) rows)
  = List.length rows
  /\ List.length (columnValues rows column) + absentCount rows column
     = List.length rows
       + List.length (filter (fun row => isNaNNumber (prop row column)) rows).
Proof.
  unfold columnValues.
  induction rows as [|row rows [IH1 IH2]]; [split; reflexivity|].
  cbn [absentCount map filter].
  set (A := absentCount rows column) in *.
  set (vs := filter present (map (fun row => prop row column) rows)) in *.
  set (others := filter (fun row => presentNonNumber (prop row column)) rows)
    in *.
  set (nans := filter (fun row => isNaNNumber (prop row column)) rows) in *.
  clearbody A vs others nans.
  unfold presentNonNumber, isNaNNumber, missingValue, absent.
  destruct (prop row column) as [| |b|x|s].
  - cbn -[numericValuesOf]. split; lia.
  - cbn -[numericValuesOf]. split; lia.
  - cbn. fold (numericValuesOf vs). split; lia.
  - cbn -[Nat.add]. fold (numericValuesOf vs).
    destruct (isNaN x); cbn [app List.length Nat.add]; split; lia.
  - unfold present, is_empty_string, strict_eq_str.
    cbn [is_null is_undefined is_number negb andb orb].
    destruct (String.eqb s ""); cbn; fold (numericValuesOf vs); split; lia.
Qed.

(** X23.  The missing count of the report and the [missing] of a summary are
    different figures.  For a numeric summary, [missing] is the report's
    count plus the rows whose value is present but not a Number; for a
    categorical summary, the report's count is [missing] plus the rows whose
    value is a NaN Number. *)
Theorem missing_of_a_summary_and_of_the_report
  (st : TitanicData) (column : string) (summary : ColumnStats)
  (info : MissingInfo) :
  merged st <> [] ->
  obj_get (stats (fst (runFullEDA st))) column = Some summary ->
  obj_get (missingValues (fst (runFullEDA st))) column = Some info ->
  match summary with
  | NumericSummary s =>
      num_missing s
      = mv_count info
        + List.length
            (filter (fun row => presentNonNumber (prop row column)) (merged st))
  | CategoricalSummary s =>
      mv_count info
      = cat_missing s
        + List.length
            (filter (fun row => isNaNNumber (prop row column)) (merged st))
  end.
Proof.
  intros Hne Hstats Hinfo.
  destruct (merged st) as [|row0 rest] eqn:E; [contradiction|].
  rewrite (runFullEDA_on_data st row0 rest E) in Hstats, Hinfo.
  cbn [fst stats set_stats] in Hstats.
  change (missingValues
            (fst (set_stats (calculateMissingValues st)
                    (fst (summarizeColumns (merged st) (columnTypes st)
                            (columnsToAnalyze st) [])),
                  ("EDA analysis complete!", success))))
    with (missingValues (calculateMissingValues st)) in Hinfo.
  rewrite missingValues_get in Hinfo.
  destruct (in_dec string_dec column (columns st)); [|discriminate].
  destruct (includes EXCLUDED_COLUMNS column); [discriminate|].
  injection Hinfo as <-. rewrite missingInfoOf_spec. cbn [mv_count].
  rewrite E in *. rewrite summarizeColumns_get in Hstats.
  destruct (in_dec string_dec column (columnsToAnalyze st)); [|discriminate].
  destruct (value_classes (row0 :: rest) column) as [H1 H2].
  pose proof (columnValues_length (row0 :: rest) column) as Hlen.
  pose proof (numericValuesOf_length (columnValues (row0 :: rest) column))
    as Hlen2.
  unfold statsForColumn in Hstats.
  destruct (is_numeric_type (obj_get (columnTypes st) column)).
  - destruct (Nat.ltb 0
                (List.length
                   (numericValuesOf (columnValues (row0 :: rest) column))));
      [|discriminate].
    injection Hstats as <-. cbn [numericStatsOf num_missing].
    cbn [List.length] in *. lia.
  - destruct (String.eqb column TARGET_COLUMN); injection Hstats as <-;
      cbn [categoricalStatsOf cat_missing]; cbn [List.length] in *; lia.
Qed.

Lemma missing_of_a_summary_witness :
  merged mixedData <> []
  /\ obj_get (stats (fst (runFullEDA mixedData))) "Age"
     = Some (NumericSummary
               {| num_count := 1; num_missing := 3;
                  num_mean := "22.00"; num_median := "22.00";
                  num_stdDev := "0.00";
                  num_min := "22.00"; num_max := "22.00";
                  num_q1 := "22.00"; num_q3 := "22.00";
                  num_groupedBySurvived := None |})
  /\ obj_get (missingValues (fst (runFullEDA mixedData))) "Age"
     = Some {| mv_count := 2; mv_percentage := "50.00" |}
  /\ 3 = 2 + List.length
               (filter (fun row => presentNonNumber (prop row "Age"))
                  (merged mixedData)).
Proof.
  assert (H1 : merged mixedData <> []) by discriminate.
  assert (H2 : obj_get (stats (fst (runFullEDA mixedData))) "Age"
               = Some (NumericSummary
                         {| num_count := 1; num_missing := 3;
                            num_mean := "22.00"; num_median := "22.00";
                            num_stdDev := "0.00";
                            num_min := "22.00"; num_max := "22.00";
                            num_q1 := "22.00"; num_q3 := "22.00";
                            num_groupedBySurvived := None |}))
    by (vm_compute; reflexivity).
  assert (H3 : obj_get (missingValues (fst (runFullEDA mixedData))) "Age"
               = Some {| mv_count := 2; mv_percentage := "50.00" |})
    by (vm_compute; reflexivity).
  split; [exact H1|]. split; [exact H2|]. split; [exact H3|].
  exact (missing_of_a_summary_and_of_the_report mixedData "Age" _ _ H1 H2 H3).
Defined.
